(** * Bhabhi / Thulla trick engine (src/bhabhi_game.py), shallow embedding.

    Cards, seats and the [Game] object become records; every method of the
    game engine becomes a function on the game record.  Python exceptions
    (IndexError on a list index, ValueError from [min]/[max] of an empty
    list, ZeroDivisionError) are [None] of the [option] monad.  The hand
    strip's scrolling and hit-testing, the setup helpers and the play
    screen's click handler work on integer screen coordinates.  Rendering,
    sound, fonts, clocks and the moving-card geometry are not modelled;
    the real-time conditions of the main loop (CPU cooldown, the 3 second
    trick display) are modelled as the moment the loop decides to act. *)

From Stdlib Require Import String Ascii List Bool Arith ZArith Lia Permutation Sorted.
From Stdlib Require DecimalNat Finite.
Import ListNotations.

Definition obind {A B} (m : option A) (f : A -> option B) : option B :=
  match m with Some x => f x | None => None end.
Notation "x <- m ;; k" := (obind m (fun x => k))
  (at level 61, m at next level, right associativity).

(** ** Ranks, suits, cards *)

Inductive Suit := Spades | Hearts | Diamonds | Clubs.

(** [SUITS = ['♠', '♥', '♦', '♣']]; [SUITS.index] is the display sort key. *)
Definition SUITS : list Suit := [Spades; Hearts; Diamonds; Clubs].

Definition suit_index (s : Suit) : nat :=
  match s with Spades => 0 | Hearts => 1 | Diamonds => 2 | Clubs => 3 end.

Definition suit_eqb (a b : Suit) : bool := Nat.eqb (suit_index a) (suit_index b).

Inductive Rank := R2 | R3 | R4 | R5 | R6 | R7 | R8 | R9 | R10 | RJ | RQ | RK | RA.

Definition RANKS : list Rank := [R2; R3; R4; R5; R6; R7; R8; R9; R10; RJ; RQ; RK; RA].

(** [RANK_VALUE = {r: i+2 for i, r in enumerate(RANKS)}] *)
Definition RANK_VALUE (r : Rank) : nat :=
  match r with
  | R2 => 2 | R3 => 3 | R4 => 4 | R5 => 5 | R6 => 6 | R7 => 7 | R8 => 8
  | R9 => 9 | R10 => 10 | RJ => 11 | RQ => 12 | RK => 13 | RA => 14
  end.

Definition rank_eqb (a b : Rank) : bool := Nat.eqb (RANK_VALUE a) (RANK_VALUE b).

(** [class Card]: rank, suit and the derived [value]. *)
Record card := Card { rank : Rank; suit : Suit }.

Definition value (c : card) : nat := RANK_VALUE (rank c).

Definition card_eqb (a b : card) : bool :=
  rank_eqb (rank a) (rank b) && suit_eqb (suit a) (suit b).

(** [c.rank == 'A' and c.suit == '♠'] *)
Definition is_ace_of_spades (c : card) : bool :=
  rank_eqb (rank c) RA && suit_eqb (suit c) Spades.

(** [full_deck]: [[Card(rank, suit) for suit in SUITS for rank in RANKS]] *)
Definition full_deck : list card :=
  flat_map (fun s => map (fun r => Card r s) RANKS) SUITS.

(** ** Python list indexing *)

(** The position that [l[i]] reads for a list of length [len]: negative
    indices count from the end, anything else raises IndexError. *)
Definition py_norm (len : nat) (i : Z) : option nat :=
  if (0 <=? i)%Z then (if (i <? Z.of_nat len)%Z then Some (Z.to_nat i) else None)
  else if (- Z.of_nat len <=? i)%Z then Some (Z.to_nat (Z.of_nat len + i)) else None.

(** [l[i]] *)
Definition py_get {A} (l : list A) (i : Z) : option A :=
  n <- py_norm (length l) i ;; nth_error l n.

(** [l.pop(i)]: the removed element and the remaining list. *)
Definition py_pop {A} (l : list A) (i : Z) : option (A * list A) :=
  n <- py_norm (length l) i ;;
  x <- nth_error l n ;;
  Some (x, firstn n l ++ skipn (S n) l).

(** [l[i] = x] on an index known to be in range (seat indices). *)
Fixpoint upd_nth {A} (l : list A) (i : nat) (x : A) : list A :=
  match l, i with
  | [], _ => []
  | _ :: t, 0 => x :: t
  | h :: t, S j => h :: upd_nth t j x
  end.

(** [min(xs, key=f)]: the first element of least key; ValueError on []. *)
Fixpoint argmin_from {A} (f : A -> nat) (best : A) (l : list A) : A :=
  match l with
  | [] => best
  | x :: t => if f x <? f best then argmin_from f x t else argmin_from f best t
  end.

Definition py_min {A} (f : A -> nat) (l : list A) : option A :=
  match l with [] => None | x :: t => Some (argmin_from f x t) end.

(** [max(xs, key=f)]: the first element of greatest key; ValueError on []. *)
Fixpoint argmax_from {A} (f : A -> nat) (best : A) (l : list A) : A :=
  match l with
  | [] => best
  | x :: t => if f best <? f x then argmax_from f x t else argmax_from f best t
  end.

Definition py_max {A} (f : A -> nat) (l : list A) : option A :=
  match l with [] => None | x :: t => Some (argmax_from f x t) end.

(** ** Seats *)

(** [class Player] *)
Record player := Player {
  name : string;
  is_human : bool;
  hand : list card;
  is_active : bool;
  finished_rank : option nat;
  just_picked_up : bool;
  avoid_suit : option Suit
}.

Definition set_name (r : player) (x : string) : player :=
  Player x (is_human r) (hand r) (is_active r) (finished_rank r) (just_picked_up r) (avoid_suit r).
Definition set_is_human (r : player) (x : bool) : player :=
  Player (name r) x (hand r) (is_active r) (finished_rank r) (just_picked_up r) (avoid_suit r).
Definition set_hand (r : player) (x : list card) : player :=
  Player (name r) (is_human r) x (is_active r) (finished_rank r) (just_picked_up r) (avoid_suit r).
Definition set_is_active (r : player) (x : bool) : player :=
  Player (name r) (is_human r) (hand r) x (finished_rank r) (just_picked_up r) (avoid_suit r).
Definition set_finished_rank (r : player) (x : option nat) : player :=
  Player (name r) (is_human r) (hand r) (is_active r) x (just_picked_up r) (avoid_suit r).
Definition set_just_picked_up (r : player) (x : bool) : player :=
  Player (name r) (is_human r) (hand r) (is_active r) (finished_rank r) x (avoid_suit r).
Definition set_avoid_suit (r : player) (x : option Suit) : player :=
  Player (name r) (is_human r) (hand r) (is_active r) (finished_rank r) (just_picked_up r) x.

Definition new_player (nm : string) (human : bool) : player :=
  Player nm human [] true None false None.

(** [Player.has_suit] *)
Definition has_suit (h : list card) (s : Suit) : bool :=
  existsb (fun c => suit_eqb (suit c) s) h.

(** [Player.sort_hand]: sort by [(SUITS.index(c.suit), c.value)]. *)
Definition card_key_le (a b : card) : bool :=
  (suit_index (suit a) <? suit_index (suit b))
  || ((suit_index (suit a) =? suit_index (suit b)) && (value a <=? value b)).

Fixpoint insert_card (c : card) (l : list card) : list card :=
  match l with
  | [] => [c]
  | h :: t => if card_key_le c h then c :: h :: t else h :: insert_card c t
  end.

Definition sort_hand (l : list card) : list card := fold_right insert_card [] l.

(** [Player.pick_up]: [hand.extend(cards); sort_hand()] *)
Definition pick_up (p : player) (cards : list card) : player :=
  set_hand p (sort_hand (hand p ++ cards)).

(** ** The game object *)

Inductive gstate := Setup | Dealing | Play | Finished | Paused | ShowingTrick.

Definition gstate_eqb (a b : gstate) : bool :=
  match a, b with
  | Setup, Setup | Dealing, Dealing | Play, Play | Finished, Finished
  | Paused, Paused | ShowingTrick, ShowingTrick => true
  | _, _ => false
  end.

(** The engine fields of [class Game] ([moving_card] and [animating_card]
    are set and cleared together with [animating]). *)
Record game := Game {
  players : list player;
  state : gstate;
  discard_pile : list card;
  trick_cards : list (nat * card);
  leader_index : nat;
  active_index : option nat;
  required_suit : option Suit;
  ranks_assigned : nat;
  finish_order : list (string * nat);
  showing_trick : bool;
  last_played_cards : list (nat * card);
  pending_tochoo : bool;
  last_trick_suit : option Suit;
  warning_text : string;
  paused : bool;
  pause_button_text : string;
  first_move : bool;
  animating : bool;
  resolve_after_animation : option bool
}.

Definition set_players (r : game) (x : list player) : game :=
  Game x (state r) (discard_pile r) (trick_cards r) (leader_index r) (active_index r) (required_suit r) (ranks_assigned r) (finish_order r) (showing_trick r) (last_played_cards r) (pending_tochoo r) (last_trick_suit r) (warning_text r) (paused r) (pause_button_text r) (first_move r) (animating r) (resolve_after_animation r).
Definition set_state (r : game) (x : gstate) : game :=
  Game (players r) x (discard_pile r) (trick_cards r) (leader_index r) (active_index r) (required_suit r) (ranks_assigned r) (finish_order r) (showing_trick r) (last_played_cards r) (pending_tochoo r) (last_trick_suit r) (warning_text r) (paused r) (pause_button_text r) (first_move r) (animating r) (resolve_after_animation r).
Definition set_discard_pile (r : game) (x : list card) : game :=
  Game (players r) (state r) x (trick_cards r) (leader_index r) (active_index r) (required_suit r) (ranks_assigned r) (finish_order r) (showing_trick r) (last_played_cards r) (pending_tochoo r) (last_trick_suit r) (warning_text r) (paused r) (pause_button_text r) (first_move r) (animating r) (resolve_after_animation r).
Definition set_trick_cards (r : game) (x : list (nat * card)) : game :=
  Game (players r) (state r) (discard_pile r) x (leader_index r) (active_index r) (required_suit r) (ranks_assigned r) (finish_order r) (showing_trick r) (last_played_cards r) (pending_tochoo r) (last_trick_suit r) (warning_text r) (paused r) (pause_button_text r) (first_move r) (animating r) (resolve_after_animation r).
Definition set_leader_index (r : game) (x : nat) : game :=
  Game (players r) (state r) (discard_pile r) (trick_cards r) x (active_index r) (required_suit r) (ranks_assigned r) (finish_order r) (showing_trick r) (last_played_cards r) (pending_tochoo r) (last_trick_suit r) (warning_text r) (paused r) (pause_button_text r) (first_move r) (animating r) (resolve_after_animation r).
Definition set_active_index (r : game) (x : option nat) : game :=
  Game (players r) (state r) (discard_pile r) (trick_cards r) (leader_index r) x (required_suit r) (ranks_assigned r) (finish_order r) (showing_trick r) (last_played_cards r) (pending_tochoo r) (last_trick_suit r) (warning_text r) (paused r) (pause_button_text r) (first_move r) (animating r) (resolve_after_animation r).
Definition set_required_suit (r : game) (x : option Suit) : game :=
  Game (players r) (state r) (discard_pile r) (trick_cards r) (leader_index r) (active_index r) x (ranks_assigned r) (finish_order r) (showing_trick r) (last_played_cards r) (pending_tochoo r) (last_trick_suit r) (warning_text r) (paused r) (pause_button_text r) (first_move r) (animating r) (resolve_after_animation r).
Definition set_ranks_assigned (r : game) (x : nat) : game :=
  Game (players r) (state r) (discard_pile r) (trick_cards r) (leader_index r) (active_index r) (required_suit r) x (finish_order r) (showing_trick r) (last_played_cards r) (pending_tochoo r) (last_trick_suit r) (warning_text r) (paused r) (pause_button_text r) (first_move r) (animating r) (resolve_after_animation r).
Definition set_finish_order (r : game) (x : list (string * nat)) : game :=
  Game (players r) (state r) (discard_pile r) (trick_cards r) (leader_index r) (active_index r) (required_suit r) (ranks_assigned r) x (showing_trick r) (last_played_cards r) (pending_tochoo r) (last_trick_suit r) (warning_text r) (paused r) (pause_button_text r) (first_move r) (animating r) (resolve_after_animation r).
Definition set_showing_trick (r : game) (x : bool) : game :=
  Game (players r) (state r) (discard_pile r) (trick_cards r) (leader_index r) (active_index r) (required_suit r) (ranks_assigned r) (finish_order r) x (last_played_cards r) (pending_tochoo r) (last_trick_suit r) (warning_text r) (paused r) (pause_button_text r) (first_move r) (animating r) (resolve_after_animation r).
Definition set_last_played_cards (r : game) (x : list (nat * card)) : game :=
  Game (players r) (state r) (discard_pile r) (trick_cards r) (leader_index r) (active_index r) (required_suit r) (ranks_assigned r) (finish_order r) (showing_trick r) x (pending_tochoo r) (last_trick_suit r) (warning_text r) (paused r) (pause_button_text r) (first_move r) (animating r) (resolve_after_animation r).
Definition set_pending_tochoo (r : game) (x : bool) : game :=
  Game (players r) (state r) (discard_pile r) (trick_cards r) (leader_index r) (active_index r) (required_suit r) (ranks_assigned r) (finish_order r) (showing_trick r) (last_played_cards r) x (last_trick_suit r) (warning_text r) (paused r) (pause_button_text r) (first_move r) (animating r) (resolve_after_animation r).
Definition set_last_trick_suit (r : game) (x : option Suit) : game :=
  Game (players r) (state r) (discard_pile r) (trick_cards r) (leader_index r) (active_index r) (required_suit r) (ranks_assigned r) (finish_order r) (showing_trick r) (last_played_cards r) (pending_tochoo r) x (warning_text r) (paused r) (pause_button_text r) (first_move r) (animating r) (resolve_after_animation r).
Definition set_warning_text (r : game) (x : string) : game :=
  Game (players r) (state r) (discard_pile r) (trick_cards r) (leader_index r) (active_index r) (required_suit r) (ranks_assigned r) (finish_order r) (showing_trick r) (last_played_cards r) (pending_tochoo r) (last_trick_suit r) x (paused r) (pause_button_text r) (first_move r) (animating r) (resolve_after_animation r).
Definition set_paused (r : game) (x : bool) : game :=
  Game (players r) (state r) (discard_pile r) (trick_cards r) (leader_index r) (active_index r) (required_suit r) (ranks_assigned r) (finish_order r) (showing_trick r) (last_played_cards r) (pending_tochoo r) (last_trick_suit r) (warning_text r) x (pause_button_text r) (first_move r) (animating r) (resolve_after_animation r).
Definition set_pause_button_text (r : game) (x : string) : game :=
  Game (players r) (state r) (discard_pile r) (trick_cards r) (leader_index r) (active_index r) (required_suit r) (ranks_assigned r) (finish_order r) (showing_trick r) (last_played_cards r) (pending_tochoo r) (last_trick_suit r) (warning_text r) (paused r) x (first_move r) (animating r) (resolve_after_animation r).
Definition set_first_move (r : game) (x : bool) : game :=
  Game (players r) (state r) (discard_pile r) (trick_cards r) (leader_index r) (active_index r) (required_suit r) (ranks_assigned r) (finish_order r) (showing_trick r) (last_played_cards r) (pending_tochoo r) (last_trick_suit r) (warning_text r) (paused r) (pause_button_text r) x (animating r) (resolve_after_animation r).
Definition set_animating (r : game) (x : bool) : game :=
  Game (players r) (state r) (discard_pile r) (trick_cards r) (leader_index r) (active_index r) (required_suit r) (ranks_assigned r) (finish_order r) (showing_trick r) (last_played_cards r) (pending_tochoo r) (last_trick_suit r) (warning_text r) (paused r) (pause_button_text r) (first_move r) x (resolve_after_animation r).
Definition set_resolve_after_animation (r : game) (x : option bool) : game :=
  Game (players r) (state r) (discard_pile r) (trick_cards r) (leader_index r) (active_index r) (required_suit r) (ranks_assigned r) (finish_order r) (showing_trick r) (last_played_cards r) (pending_tochoo r) (last_trick_suit r) (warning_text r) (paused r) (pause_button_text r) (first_move r) (animating r) x.

Definition opt_nat_eqb (a b : option nat) : bool :=
  match a, b with
  | Some x, Some y => Nat.eqb x y
  | None, None => true
  | _, _ => false
  end.

Definition opt_suit_eqb (a b : option Suit) : bool :=
  match a, b with
  | Some x, Some y => suit_eqb x y
  | None, None => true
  | _, _ => false
  end.

(** ** Play helpers *)

Definition seat_active (ps : list player) (i : nat) : bool :=
  match nth_error ps i with Some p => is_active p | None => false end.

(** The [while] loop of [next_active_index]: [fuel] is [n - loop_protect]. *)
Fixpoint next_active_loop (ps : list player) (n i fuel : nat) : nat :=
  match fuel with
  | 0 => i
  | S f => if seat_active ps i then i else next_active_loop ps n ((i + 1) mod n) f
  end.

(** [Game.next_active_index] *)
Definition next_active_index (ps : list player) (current : nat) : option nat :=
  let n := length ps in
  if n =? 0 then None
  else Some (next_active_loop ps n ((current + 1) mod n) n).

(** [Game.count_active_players] *)
Definition count_active_players (ps : list player) : nat :=
  length (filter is_active ps).

(** A [for p in self.players: if cond(p): ...] loop that ranks a seat:
    [ranks_assigned += 1; p.finished_rank = ranks_assigned;
     p.is_active = False; finish_order.append((p.name, p.finished_rank))]. *)
Fixpoint assign_ranks (cond : player -> bool) (ps : list player)
    (ra : nat) (fo : list (string * nat)) : list player * nat * list (string * nat) :=
  match ps with
  | [] => ([], ra, fo)
  | p :: t =>
      if cond p then
        let p' := set_is_active (set_finished_rank p (Some (S ra))) false in
        let '(t', ra', fo') := assign_ranks cond t (S ra) (fo ++ [(name p, S ra)]) in
        (p' :: t', ra', fo')
      else
        let '(t', ra', fo') := assign_ranks cond t ra fo in
        (p :: t', ra', fo')
  end.

Definition run_rank_loop (cond : player -> bool) (g : game) : game :=
  let '(ps, ra, fo) := assign_ranks cond (players g) (ranks_assigned g) (finish_order g) in
  set_finish_order (set_ranks_assigned (set_players g ps) ra) fo.

(** [Game.check_game_end] *)
Definition check_game_end (g : game) : game :=
  if length (filter is_active (players g)) <=? 1 then
    set_state
      (run_rank_loop (fun p => is_active p && match finished_rank p with None => true | Some _ => false end) g)
      Finished
  else g.

(** The rank assignment for the single seat [i] in [attempt_play_card]. *)
Definition mark_finished (g : game) (i : nat) : game :=
  match nth_error (players g) i with
  | Some p =>
      let ra := S (ranks_assigned g) in
      let p' := set_is_active (set_finished_rank p (Some ra)) false in
      set_finish_order (set_ranks_assigned (set_players g (upd_nth (players g) i p')) ra)
        (finish_order g ++ [(name p, ra)])
  | None => g
  end.

(** [if getattr(p, 'just_picked_up', False): p.just_picked_up = False;
     p.avoid_suit = None] for the seat [i]. *)
Definition clear_pickup_flag (g : game) (i : nat) : game :=
  match nth_error (players g) i with
  | Some p =>
      if just_picked_up p
      then set_players g (upd_nth (players g) i (set_avoid_suit (set_just_picked_up p false) None))
      else g
  | None => g
  end.

(** ** Two-phase trick resolution *)

(** [Game.resolve_trick] (the trigger). *)
Definition resolve_trick (g : game) (tochoo_occurred : bool) : game :=
  match trick_cards g with
  | [] => g
  | _ =>
      let g1 := set_last_trick_suit g (required_suit g) in
      let g2 := set_showing_trick g1 true in
      let g3 := set_last_played_cards g2 (trick_cards g2) in
      let g4 := set_pending_tochoo g3 tochoo_occurred in
      set_state g4 ShowingTrick
  end.

(** [suited = [(pi,card) for (pi,card) in self.trick_cards
               if card.suit == self.required_suit]] *)
Definition suited_cards (g : game) : list (nat * card) :=
  filter (fun pc => opt_suit_eqb (Some (suit (snd pc))) (required_suit g)) (trick_cards g).

(** The seat of the highest card of [suited] ([max(suited, key=...)[0]]),
    or the leader when [suited] is empty: [pickup_player] and [winner]. *)
Definition trick_taker (g : game) : option nat :=
  match suited_cards g with
  | [] => Some (leader_index g)
  | suited => t <- py_max (fun t => value (snd t)) suited ;; Some (fst t)
  end.

(** The tochoo branch: the whole trick, shuffled, into [pickup_player]'s hand. *)
Definition tochoo_pickup (shuf : list card -> list card) (g : game) (pickup_player : nat)
    : option game :=
  let pickup_cards := shuf (map snd (trick_cards g)) in
  p <- nth_error (players g) pickup_player ;;
  let p1 := pick_up p pickup_cards in
  let p2 := set_just_picked_up p1 true in
  let p3 := set_avoid_suit p2 (last_trick_suit g) in
  let ga := set_players g (upd_nth (players g) pickup_player p3) in
  let gb := set_leader_index ga pickup_player in
  Some (set_active_index gb (Some pickup_player)).

(** The clean branch: the trick goes to the discard pile. *)
Definition clean_discard (g : game) (winner : nat) : game :=
  let ga := set_discard_pile g (discard_pile g ++ map snd (trick_cards g)) in
  let gb := set_leader_index ga winner in
  set_active_index gb (Some winner).

(** The common tail of [actually_resolve_trick] after either branch. *)
Definition finish_resolution (g1 : game) : game :=
  let g2 := set_required_suit (set_trick_cards g1 []) None in
  let g3 := run_rank_loop (fun p => is_active p && (length (hand p) =? 0)) g2 in
  let g4 := check_game_end g3 in
  let g5 := set_showing_trick g4 false in
  let g6 := set_last_played_cards g5 [] in
  let g7 := set_pending_tochoo g6 false in
  let g8 := set_last_trick_suit g7 None in
  if gstate_eqb (state g8) Finished then g8 else set_state g8 Play.

(** [Game.actually_resolve_trick] (the commit).  [shuf] is the result of
    [random.shuffle] on the list it is given. *)
Definition actually_resolve_trick (shuf : list card -> list card)
    (tochoo_arg : option bool) (g : game) : option game :=
  let tochoo_occurred := match tochoo_arg with None => pending_tochoo g | Some b => b end in
  g1 <- (if tochoo_occurred then
           pickup_player <- trick_taker g ;; tochoo_pickup shuf g pickup_player
         else
           winner <- trick_taker g ;; Some (clean_discard g winner)) ;;
  Some (finish_resolution g1).

(** ** Legality evaluator *)

(** [Game.is_card_playable] *)
Definition is_card_playable (g : game) (player_idx : nat) (card_index : Z) : option bool :=
  p <- nth_error (players g) player_idx ;;
  if negb (is_active p) then Some false
  else match required_suit g with
  | None =>
      if first_move g && opt_nat_eqb (Some player_idx) (active_index g) then
        card <- py_get (hand p) card_index ;;
        Some (is_ace_of_spades card)
      else Some true
  | Some rs =>
      let has_req := has_suit (hand p) rs in
      card <- py_get (hand p) card_index ;;
      Some (if has_req then suit_eqb (suit card) rs else true)
  end.

(** [Game.playable_indices_for_player] *)
Definition playable_indices_for_player (g : game) (player_idx : nat) : option (list nat) :=
  p <- nth_error (players g) player_idx ;;
  fold_right (fun i acc =>
                b <- is_card_playable g player_idx (Z.of_nat i) ;;
                rest <- acc ;;
                Some (if b then i :: rest else rest))
             (Some []) (seq 0 (length (hand p))).

(** ** CPU policy *)

Definition card_value_at (h : list card) (i : nat) : nat :=
  match nth_error h i with Some c => value c | None => 0 end.

Definition suit_at_is (h : list card) (s : Suit) (i : nat) : bool :=
  match nth_error h i with Some c => suit_eqb (suit c) s | None => false end.

(** [for i, c in enumerate(p.hand): if c.rank == 'A' and c.suit == '♠': return i] *)
Fixpoint find_ace_of_spades (h : list card) (i : nat) : option nat :=
  match h with
  | [] => None
  | c :: t => if is_ace_of_spades c then Some i else find_ace_of_spades t (S i)
  end.

(** [Game.cpu_choose_card_index]: the outer [option] is an exception, the
    inner one the [None] the method returns for an empty hand. *)
Definition cpu_choose_card_index (g : game) (player_idx : nat) : option (option nat) :=
  p <- nth_error (players g) player_idx ;;
  let h := hand p in
  match h with
  | [] => Some None
  | _ =>
    let avoid := if just_picked_up p then avoid_suit p else None in
    let idxs := seq 0 (length h) in
    let lowest_overall := i <- py_min (card_value_at h) idxs ;; Some (Some i) in
    match required_suit g with
    | None =>
        match (if first_move g && opt_nat_eqb (Some player_idx) (active_index g)
               then find_ace_of_spades h 0 else None) with
        | Some i => Some (Some i)
        | None =>
            match avoid with
            | Some a =>
                let non_avoid := filter (fun i => negb (suit_at_is h a i)) idxs in
                match non_avoid with
                | [] => lowest_overall
                | _ => i <- py_min (card_value_at h) non_avoid ;; Some (Some i)
                end
            | None => lowest_overall
            end
        end
    | Some rs =>
        let same_suit_indices := filter (suit_at_is h rs) idxs in
        match same_suit_indices with
        | _ :: _ => i <- py_min (card_value_at h) same_suit_indices ;; Some (Some i)
        | [] =>
            let highest_overall := i <- py_max (card_value_at h) idxs ;; Some (Some i) in
            match avoid with
            | Some a =>
                let non_avoid := filter (fun i => negb (suit_at_is h a i)) idxs in
                match non_avoid with
                | [] => highest_overall
                | _ => i <- py_max (card_value_at h) non_avoid ;; Some (Some i)
                end
            | None => highest_overall
            end
        end
    end
  end.

(** ** Accepting a play *)

(** The common part of both branches of [attempt_play_card] after the
    card is chosen: [played_card = p.play_card(card_index)],
    [self.trick_cards.append(...)], and the animation is started. *)
Definition play_into_trick (g : game) (player_idx : nat) (p : player) (card_index : Z)
    : option (card * game) :=
  pr <- py_pop (hand p) card_index ;;
  let '(played_card, rest) := pr in
  let g1 := set_players g (upd_nth (players g) player_idx (set_hand p rest)) in
  let g2 := set_trick_cards g1 (trick_cards g1 ++ [(player_idx, played_card)]) in
  Some (played_card, set_animating g2 true).

Definition hand_of (g : game) (i : nat) : list card :=
  match nth_error (players g) i with Some p => hand p | None => [] end.

(** [Game.attempt_play_card] *)
Definition attempt_play_card (g : game) (player_idx : nat) (card_index : Z) : option game :=
  if animating g then Some g else
  p <- nth_error (players g) player_idx ;;
  if negb (opt_nat_eqb (Some player_idx) (active_index g)) then Some g else
  if negb (is_active p) then Some g else
  let had_required := match required_suit g with
                      | Some rs => has_suit (hand p) rs
                      | None => false
                      end in
  card <- py_get (hand p) card_index ;;
  match required_suit g with
  | None =>
      if first_move g && opt_nat_eqb (Some player_idx) (active_index g)
         && negb (is_ace_of_spades card)
      then Some (set_warning_text g "Game must start with Ace of Spades!"%string)
      else
        r <- play_into_trick g player_idx p card_index ;;
        let '(played_card, g3) := r in
        let g4 := if first_move g3 then set_first_move g3 false else g3 in
        let g5 := set_required_suit g4 (Some (suit played_card)) in
        let g6 := set_active_index g5 (next_active_index (players g5) player_idx) in
        let g7 := if length (hand_of g6 player_idx) =? 0
                  then check_game_end (mark_finished g6 player_idx) else g6 in
        Some (clear_pickup_flag g7 player_idx)
  | Some rs =>
      if had_required && negb (suit_eqb (suit card) rs)
      then Some (set_warning_text g "You must follow suit!"%string)
      else
        r <- play_into_trick g player_idx p card_index ;;
        let '(played_card, g3) := r in
        if negb (suit_eqb (suit played_card) rs) && negb had_required then
          Some (set_resolve_after_animation (clear_pickup_flag g3 player_idx) (Some true))
        else
          let g4 := set_active_index g3 (next_active_index (players g3) player_idx) in
          if opt_nat_eqb (active_index g4) (Some (leader_index g4))
             && (count_active_players (players g4) <=? length (trick_cards g4))
          then Some (set_resolve_after_animation g4 (Some false))
          else Some (clear_pickup_flag g4 player_idx)
  end.

(** [Game.cpu_auto_play_if_needed], at a moment when the cooldown
    [time.time() - last_action_time >= auto_play_delay] has passed. *)
Definition cpu_auto_play_if_needed (g : game) : option game :=
  match active_index g with
  | None => Some g
  | Some active_idx =>
      if animating g then Some g else
      p <- nth_error (players g) active_idx ;;
      if negb (is_active p) || is_human p then Some g else
      oi <- cpu_choose_card_index g active_idx ;;
      match oi with
      | None => Some g
      | Some idx =>
          ok <- is_card_playable g active_idx (Z.of_nat idx) ;;
          if ok then attempt_play_card g active_idx (Z.of_nat idx)
          else
            playable <- playable_indices_for_player g active_idx ;;
            match playable with
            | [] => Some g
            | j :: _ => attempt_play_card g active_idx (Z.of_nat j)
            end
      end
  end.

(** ** Pause and animation *)

(** [Game.toggle_pause] *)
Definition toggle_pause (g : game) : game :=
  match state g with
  | Play | ShowingTrick =>
      let pz := negb (paused g) in
      let g1 := set_pause_button_text (set_paused g pz)
                  (if pz then "Resume"%string else "Pause"%string) in
      if pz then set_state g1 Paused
      else set_state g1 (if showing_trick g1 then ShowingTrick else Play)
  | _ => g
  end.

(** The end of the card animation in [Game.draw_play] (run in the states
    [play], [paused] and [showing_trick]): the animation flag drops and a
    queued resolution is triggered. *)
Definition finish_animation (g : game) : game :=
  if animating g then
    let g1 := set_animating g false in
    match resolve_after_animation g1 with
    | Some b => resolve_trick (set_resolve_after_animation g1 None) b
    | None => g1
    end
  else g.

(** ** Dealing *)

(** [Game.__init__] followed by the setup screen filling [self.players]. *)
Definition init_game (ps : list player) : game :=
  Game ps Setup [] [] 0 (Some 0) None 0 [] false [] false None ""%string
       false "Pause"%string false false None.

(** [counts = [len(deck)//n] * n], with the [extra] cards one each from seat 0. *)
Definition deal_counts (decklen n : nat) : list nat :=
  let base := decklen / n in
  let extra := decklen - base * n in
  map (fun i => if i <? extra then S base else base) (seq 0 n).

Fixpoint deal_hands (ps : list player) (counts : list nat) (deck : list card)
    : option (list player) :=
  match ps with
  | [] => Some []
  | p :: t =>
      c <- nth_error counts 0 ;;
      if length deck <? c then None else
      let p1 := Player (name p) (is_human p) (sort_hand (firstn c deck)) true None false None in
      rest <- deal_hands t (tl counts) (skipn c deck) ;;
      Some (p1 :: rest)
  end.

(** The first seat holding the Ace of Spades. *)
Fixpoint find_starter (ps : list player) (i : nat) : option nat :=
  match ps with
  | [] => None
  | p :: t => if existsb is_ace_of_spades (hand p) then Some i else find_starter t (S i)
  end.

(** [Game.start_game]; [deck] is [full_deck()] after [random.shuffle] and
    [rnd] the value of [random.randrange(len(self.players))]. *)
Definition start_game (deck : list card) (rnd : nat) (g : game) : option game :=
  let n := length (players g) in
  if n =? 0 then None else
  ps <- deal_hands (players g) (deal_counts (length deck) n) deck ;;
  let starter := match find_starter ps 0 with Some i => i | None => rnd end in
  Some (Game ps Play [] [] starter (Some starter) None 0 [] false (last_played_cards g)
             false None ""%string false "Pause"%string true false None).

(** ** Reachable game states *)

(** A move of the main loop of [Game.run]: a play in [play] state (human
    click or CPU), the end of a card animation, the commit of a shown
    trick, or the pause key. *)
Inductive reachable : game -> Prop :=
| reach_deal : forall ps deck rnd g,
    Permutation deck full_deck ->
    start_game deck rnd (init_game ps) = Some g ->
    reachable g
| reach_play : forall g i k g',
    reachable g -> state g = Play -> paused g = false ->
    attempt_play_card g i k = Some g' -> reachable g'
| reach_anim : forall g,
    reachable g -> In (state g) [Play; Paused; ShowingTrick] ->
    reachable (finish_animation g)
| reach_commit : forall shuf g g',
    reachable g -> state g = ShowingTrick -> paused g = false ->
    (forall l, Permutation (shuf l) l) ->
    actually_resolve_trick shuf (Some (pending_tochoo g)) g = Some g' ->
    reachable g'
| reach_pause : forall g, reachable g -> reachable (toggle_pause g).

(** One tick of [Game.run] at a table of CPU seats, with the pickup
    shuffle returning its list unchanged. *)
Definition drive_step (g : game) : option game :=
  match state g with
  | ShowingTrick =>
      if paused g then Some g
      else actually_resolve_trick (fun l => l) (Some (pending_tochoo g)) g
  | Play =>
      if paused g then Some g
      else if animating g then Some (finish_animation g)
      else cpu_auto_play_if_needed g
  | _ => Some g
  end.

Fixpoint drive (n : nat) (g : game) : option game :=
  match n with
  | 0 => Some g
  | S m => g' <- drive_step g ;; drive m g'
  end.

Definition seat_names : list string :=
  ["P1"; "P2"; "P3"; "P4"; "P5"; "P6"]%string.

(** [n] seats, all toggled to CPU on the setup screen. *)
Definition cpu_table (n : nat) : list player :=
  map (fun nm => new_player nm false) (firstn n seat_names).

(** Three shuffled decks (the result of [random.shuffle(self.deck)]). *)
Definition deck_a : list card :=
  [Card RJ Spades; Card R2 Hearts; Card RK Diamonds; Card R9 Clubs; Card R8 Spades; Card R2 Spades; Card R10 Spades; Card R9 Hearts; Card R2 Clubs; Card R9 Spades; Card R4 Hearts; Card R8 Hearts; Card R4 Clubs; Card R3 Diamonds; Card RJ Hearts; Card R2 Diamonds; Card R8 Clubs; Card R5 Diamonds; Card R10 Clubs; Card RK Clubs; Card RQ Clubs; Card R7 Diamonds; Card RA Clubs; Card RQ Spades; Card R10 Hearts; Card R8 Diamonds; Card R10 Diamonds; Card R6 Hearts; Card R5 Spades; Card R7 Clubs; Card RJ Diamonds; Card RA Spades; Card R3 Spades; Card RK Spades; Card RQ Diamonds; Card R4 Spades; Card R3 Hearts; Card R9 Diamonds; Card R7 Spades; Card RJ Clubs; Card R4 Diamonds; Card RA Diamonds; Card R5 Hearts; Card R6 Spades; Card R5 Clubs; Card RA Hearts; Card R6 Clubs; Card R6 Diamonds; Card RQ Hearts; Card R7 Hearts; Card R3 Clubs; Card RK Hearts].

Definition deck_b : list card :=
  [Card R5 Clubs; Card RQ Hearts; Card R8 Hearts; Card R7 Diamonds; Card RJ Spades; Card R3 Diamonds; Card R4 Diamonds; Card R7 Hearts; Card RK Hearts; Card R6 Diamonds; Card R7 Spades; Card RA Spades; Card RQ Spades; Card RK Clubs; Card R6 Clubs; Card R9 Diamonds; Card RJ Hearts; Card R9 Spades; Card R4 Hearts; Card R4 Spades; Card R2 Hearts; Card R8 Diamonds; Card RQ Diamonds; Card R10 Spades; Card RA Clubs; Card RJ Diamonds; Card R3 Hearts; Card R5 Diamonds; Card R10 Hearts; Card R6 Hearts; Card R9 Hearts; Card R2 Clubs; Card R2 Diamonds; Card RK Spades; Card R4 Clubs; Card R3 Clubs; Card RJ Clubs; Card RA Diamonds; Card R3 Spades; Card R2 Spades; Card R5 Hearts; Card RA Hearts; Card R8 Spades; Card R8 Clubs; Card R9 Clubs; Card R6 Spades; Card RK Diamonds; Card R10 Diamonds; Card R10 Clubs; Card RQ Clubs; Card R7 Clubs; Card R5 Spades].

Definition deck_c : list card :=
  [Card R7 Hearts; Card R6 Spades; Card R8 Hearts; Card R4 Diamonds; Card R10 Hearts; Card RQ Clubs; Card R4 Spades; Card RA Clubs; Card R4 Hearts; Card R10 Clubs; Card RQ Diamonds; Card R3 Clubs; Card R7 Spades; Card R5 Diamonds; Card R9 Spades; Card RJ Spades; Card RQ Hearts; Card R8 Diamonds; Card RQ Spades; Card RA Hearts; Card RK Diamonds; Card RJ Hearts; Card RJ Diamonds; Card R9 Diamonds; Card R3 Spades; Card R7 Diamonds; Card R2 Diamonds; Card RA Diamonds; Card R9 Hearts; Card R5 Spades; Card R5 Hearts; Card R7 Clubs; Card R5 Clubs; Card R8 Spades; Card R6 Hearts; Card R3 Hearts; Card R2 Spades; Card RK Hearts; Card RA Spades; Card R8 Clubs; Card R3 Diamonds; Card R10 Spades; Card RK Spades; Card R2 Hearts; Card R9 Clubs; Card R2 Clubs; Card R4 Clubs; Card R6 Clubs; Card R10 Diamonds; Card RJ Clubs; Card R6 Diamonds; Card RK Clubs].

(** A fresh deal of [deck] to [n] CPU seats, driven for [k] ticks. *)
Definition cpu_game (n : nat) (deck : list card) (k : nat) : option game :=
  g0 <- start_game deck 0 (init_game (cpu_table n)) ;; drive k g0.

(** The state of a driven game; [init_game []] stands for an exception. *)
Definition trace_state (o : option game) : game :=
  match o with Some g => g | None => init_game [] end.

(** Deck A dealt to six CPU seats, 77 ticks later: seat 4 has led its
    last card (5 of hearts) and left the game, seat 5 answered off-suit. *)
Definition game_a77 : game := Eval vm_compute in trace_state (cpu_game 6 deck_a 77).

(** Deck B dealt to five CPU seats, 95 ticks later: seat 4 has led its
    last card (8 of clubs) and left the game, seats 0, 1, 2 followed
    with clubs and seat 3 is to move. *)
Definition game_b95 : game := Eval vm_compute in trace_state (cpu_game 5 deck_b 95).

(** Deck C dealt to six CPU seats, 37 ticks later: seat 5 holds one card
    (2 of clubs) and must answer the 2 of hearts led by seat 4. *)
Definition game_c37 : game := Eval vm_compute in trace_state (cpu_game 6 deck_c 37).

(** Deck C dealt to six CPU seats, 5 ticks later: seat 4 has just picked
    up a tochoo (avoid suit spades) and is to lead the next trick. *)
Definition game_c5 : game := Eval vm_compute in trace_state (cpu_game 6 deck_c 5).

(** Deck C dealt to four CPU seats, 165 ticks later: seat 0 has led its
    last card, leaving seat 2 as the only active seat, so the game ended
    with seat 2 ranked last and still holding ten cards; clubs are still
    the required suit. *)
Definition game_c4_165 : game := Eval vm_compute in trace_state (cpu_game 4 deck_c 165).

Definition card_eq_dec : forall a b : card, {a = b} + {a <> b}.
Proof. decide equality; decide equality. Defined.

(** A seat whose hand and pickup memory are the same in two states. *)
Definition seat_kept (p p' : player) : Prop :=
  hand p' = hand p /\ just_picked_up p' = just_picked_up p /\ avoid_suit p' = avoid_suit p.

(** Every seat of [ps] is kept, at the same index, in [ps']. *)
Definition seats_kept (ps ps' : list player) : Prop :=
  forall i p, nth_error ps i = Some p -> exists p', nth_error ps' i = Some p' /\ seat_kept p p'.

(** How one move can change a seat's activity and pickup memory: a seat
    never becomes active again, and its [just_picked_up]/[avoid_suit]
    pair is either left alone or cleared. *)
Definition flags_step (p p' : player) : Prop :=
  (is_active p' = true -> is_active p = true) /\
  ((just_picked_up p' = just_picked_up p /\ avoid_suit p' = avoid_suit p) \/
   (just_picked_up p' = false /\ avoid_suit p' = None)).

(** Every seat of [ps'] comes, at the same index, from a seat of [ps]. *)
Definition seats_back (ps ps' : list player) : Prop :=
  forall j p', nth_error ps' j = Some p' -> exists p, nth_error ps j = Some p /\ flags_step p p'.

(** The pickup memory of a table: an [avoid_suit] is only remembered with
    [just_picked_up]; an active seat that still has [just_picked_up] is
    the seat to lead the next trick; a trick in progress has a required
    suit; and a shown trick is non-empty. *)
Definition pickup_inv (g : game) : Prop :=
  (forall j p, nth_error (players g) j = Some p ->
     (just_picked_up p = false -> avoid_suit p = None) /\
     (is_active p = true -> just_picked_up p = true ->
        required_suit g = None /\ active_index g = Some j)) /\
  (trick_cards g <> [] -> required_suit g <> None) /\
  (state g = ShowingTrick -> trick_cards g <> []) /\
  (showing_trick g = true -> trick_cards g <> []).

(** ** Invariant views *)

(** The cards on the table: every hand, the trick in progress and the
    discard pile. *)
Definition all_cards (g : game) : list card :=
  concat (map hand (players g)) ++ map snd (trick_cards g) ++ discard_pile g.

(** What the card bookkeeping of a game depends on. *)
Definition table (g : game) : list (list card) * list (nat * card) * list card :=
  (map hand (players g), trick_cards g, discard_pile g).

(** [sort_hand]'s order as a relation. *)
Definition key_le (a b : card) : Prop := card_key_le a b = true.

(** The cards of a game are the 52 cards of a deck and every hand is in
    the display order of [sort_hand]. *)
Definition cards_inv (g : game) : Prop :=
  Permutation (all_cards g) full_deck /\
  (forall p, In p (players g) -> StronglySorted key_le (hand p)).

(** A seat's part in the ranking: its activity and its rank. *)
Definition flags (p : player) : bool * option nat := (is_active p, finished_rank p).

(** What the ranking bookkeeping of a game depends on. *)
Definition rank_view (g : game) : list (bool * option nat) * nat * list (string * nat) * gstate :=
  (map flags (players g), ranks_assigned g, finish_order g, state g).

(** The ranking bookkeeping: a seat is active exactly while it has no
    rank; the ranks handed out are [1, 2, ..., ranks_assigned] in
    [finish_order]; [ranks_assigned] counts the inactive seats; and a
    finished game has no active seat. *)
Definition rank_inv (g : game) : Prop :=
  (forall p, In p (players g) -> (is_active p = true <-> finished_rank p = None)) /\
  map snd (finish_order g) = seq 1 (ranks_assigned g) /\
  ranks_assigned g = length (filter (fun p => negb (is_active p)) (players g)) /\
  (state g = Finished -> count_active_players (players g) = 0).

(** ** Screen and card geometry *)

Definition SCREEN_WIDTH : Z := 1100%Z.
Definition SCREEN_HEIGHT : Z := 700%Z.
Definition CARD_W : Z := 80%Z.
Definition CARD_H : Z := 120%Z.
Definition CARD_GAP : Z := (-40)%Z.

(** [pygame.Rect(rx, ry, rw, rh).collidepoint(px, py)]: the right and
    bottom edges are outside. *)
Definition rect_collidepoint (rx ry rw rh px py : Z) : bool :=
  ((rx <=? px) && (px <? rx + rw) && (ry <=? py) && (py <? ry + rh))%Z.

(** [class ScrollableHand]: [self.x], [self.y], [self.width], [self.height],
    [self.scroll_x], [self.max_scroll], [self.scroll_speed]. *)
Record scrollable_hand := ScrollableHand {
  sh_x : Z;
  sh_y : Z;
  sh_width : Z;
  sh_height : Z;
  scroll_x : Z;
  max_scroll : Z;
  scroll_speed : Z
}.

(** [ScrollableHand.update_scroll_limit] *)
Definition update_scroll_limit (h : scrollable_hand) (card_count : Z) : scrollable_hand :=
  let total_width := (card_count * (CARD_W + CARD_GAP) - CARD_GAP)%Z in
  ScrollableHand (sh_x h) (sh_y h) (sh_width h) (sh_height h) (scroll_x h)
    (Z.max 0 (total_width - sh_width h))%Z (scroll_speed h).

(** [ScrollableHand.scroll] *)
Definition scroll (h : scrollable_hand) (direction : Z) : scrollable_hand :=
  ScrollableHand (sh_x h) (sh_y h) (sh_width h) (sh_height h)
    (Z.max 0 (Z.min (max_scroll h) (scroll_x h + direction * scroll_speed h)))%Z
    (max_scroll h) (scroll_speed h).

(** [ScrollableHand.get_card_position] *)
Definition get_card_position (h : scrollable_hand) (index : Z) : Z * Z :=
  ((sh_x h + index * (CARD_W + CARD_GAP) - scroll_x h)%Z, sh_y h).

(** The loop [for i in range(card_count-1, -1, -1)] of
    [get_card_index_at_pos]; [n] cards remain to be tested, the next one
    being [i = n - 1]. *)
Fixpoint scan_cards (h : scrollable_hand) (px py card_count : Z) (n : nat) : option Z :=
  match n with
  | O => None
  | S m =>
      let i := Z.of_nat m in
      let '(card_x, card_y) := get_card_position h i in
      let vis_w := if (i =? card_count - 1)%Z then CARD_W else Z.max 1 (CARD_W + CARD_GAP) in
      if rect_collidepoint card_x card_y vis_w CARD_H px py then Some i
      else scan_cards h px py card_count m
  end.

(** [ScrollableHand.get_card_index_at_pos] *)
Definition get_card_index_at_pos (h : scrollable_hand) (pos : Z * Z) (card_count : Z) : option Z :=
  let '(px, py) := pos in scan_cards h px py card_count (Z.to_nat card_count).

(** ** Setup screen *)

(** Python's [str] of a natural number. *)
Fixpoint uint_to_string (d : Decimal.uint) : string :=
  match d with
  | Decimal.Nil => EmptyString
  | Decimal.D0 d => String "0"%char (uint_to_string d)
  | Decimal.D1 d => String "1"%char (uint_to_string d)
  | Decimal.D2 d => String "2"%char (uint_to_string d)
  | Decimal.D3 d => String "3"%char (uint_to_string d)
  | Decimal.D4 d => String "4"%char (uint_to_string d)
  | Decimal.D5 d => String "5"%char (uint_to_string d)
  | Decimal.D6 d => String "6"%char (uint_to_string d)
  | Decimal.D7 d => String "7"%char (uint_to_string d)
  | Decimal.D8 d => String "8"%char (uint_to_string d)
  | Decimal.D9 d => String "9"%char (uint_to_string d)
  end.

Definition py_str (n : nat) : string := uint_to_string (Nat.to_uint n).

(** [Game.set_player_count] on [self.players] ([self.player_count] is [n]). *)
Definition set_player_count (players : list player) (n : nat) : list player :=
  map (fun i => match nth_error players i with
                | Some p => p
                | None => new_player ("P" ++ py_str (i + 1)) true
                end) (seq 0 n).

(** [Game.toggle_player_type]; [None] is the IndexError of
    [self.players[idx]] for [idx < -len(self.players)]. *)
Definition toggle_player_type (players : list player) (idx : Z) : option (list player) :=
  if (Z.of_nat (length players) <=? idx)%Z then Some players else
  n <- py_norm (length players) idx ;;
  p <- nth_error players n ;;
  Some (upd_nth players n (set_is_human p (negb (is_human p)))).

(** [Game.restart_to_setup] ([player_count], [deck], [pause_reason],
    [warning_time] and the animation objects are not engine fields;
    [setup_ui_objects] recreates the pause button with the text "Pause"). *)
Definition restart_to_setup (g : game) : game :=
  Game [] Setup [] [] (leader_index g) (active_index g) None 0 [] false
       (last_played_cards g) false None ""%string false "Pause"%string false false None.

(** ** Play screen *)

(** [self.pause_button] and [self.restart_button] (from [setup_ui_objects]). *)
Definition pause_button_hit (px py : Z) : bool :=
  rect_collidepoint (SCREEN_WIDTH - 220)%Z 10%Z 100%Z 36%Z px py.
Definition restart_button_hit (px py : Z) : bool :=
  rect_collidepoint (SCREEN_WIDTH - 110)%Z 10%Z 100%Z 36%Z px py.

(** The two button checks at the end of [handle_play_click]. *)
Definition play_buttons (g : game) (px py : Z) : game :=
  let g1 := if pause_button_hit px py then toggle_pause g else g in
  if restart_button_hit px py then restart_to_setup g1 else g1.

(** [Game.handle_play_click]; [h] is [self.hand_area]. *)
Definition handle_play_click (h : scrollable_hand) (g : game) (pos : Z * Z) : option game :=
  let '(px, py) := pos in
  if animating g then Some g else
  match active_index g with
  | None => Some g
  | Some active_idx =>
      p <- nth_error (players g) active_idx ;;
      if negb (is_active p) then Some g else
      if is_human p then
        match hand p with
        | [] => Some g
        | _ =>
            if rect_collidepoint (sh_x h) (sh_y h) (sh_width h) (sh_height h) px py then
              match get_card_index_at_pos h pos (Z.of_nat (length (hand p))) with
              | Some card_index =>
                  ok <- is_card_playable g active_idx card_index ;;
                  if negb ok then
                    Some (set_warning_text g
                      (if first_move g
                          && match required_suit g with None => true | Some _ => false end
                          && opt_nat_eqb (Some active_idx) (active_index g)
                       then "Game must start with Ace of Spades!"%string
                       else "You must follow suit!"%string))
                  else attempt_play_card g active_idx card_index
              | None => Some (play_buttons g px py)
              end
            else Some (play_buttons g px py)
        end
      else Some (play_buttons g px py)
  end.

(** [Game.update_play] ([dt] is unused). *)
Definition update_play (g : game) : option game :=
  if negb (gstate_eqb (state g) Play) || paused g then Some g else
  match active_index g with
  | None => Some g
  | Some a =>
      if animating g then Some g else
      p <- nth_error (players g) a ;;
      if negb (is_human p) then cpu_auto_play_if_needed g else Some g
  end.

(** Every seat [i] is named [f"P{i+1}"], as [set_player_count] and the
    setup screen name them. *)
Definition seats_named (players : list player) : Prop :=
  forall i p, nth_error players i = Some p -> name p = ("P" ++ py_str (i + 1))%string.

(** [self.hand_area] as [Game.__init__] creates it. *)
Definition initial_hand_area : scrollable_hand :=
  ScrollableHand 50 (SCREEN_HEIGHT - CARD_H - 30) (SCREEN_WIDTH - 100) CARD_H 0 0 20.

(** The table of [game_a77] after its shown trick is committed. *)
Definition game_a77_committed : game :=
  Eval vm_compute in
    trace_state (actually_resolve_trick (fun l => l) (Some (pending_tochoo game_a77)) game_a77).

(** [game_b95] with seat 3 set to Human. *)
Definition game_b95_human3 : game :=
  set_players game_b95
    (upd_nth (players game_b95) 3
       (set_is_human (nth 3 (players game_b95) (new_player ""%string true)) true)).

(** Whether card [m] of a strip of [card_count] cards contains the point. *)
Definition card_hit (h : scrollable_hand) (px py card_count : Z) (m : nat) : bool :=
  let i := Z.of_nat m in
  rect_collidepoint (sh_x h + i * (CARD_W + CARD_GAP) - scroll_x h) (sh_y h)
    (if (i =? card_count - 1)%Z then CARD_W else Z.max 1 (CARD_W + CARD_GAP)) CARD_H px py.

(** * Proofs *)

(** ** Reachability of the CPU-driven games *)

Lemma cpu_auto_play_cases g g' :
  cpu_auto_play_if_needed g = Some g' ->
  g' = g \/ exists i k, attempt_play_card g i k = Some g'.
Proof.
  unfold cpu_auto_play_if_needed, obind. intros H.
  destruct (active_index g) as [ai|]; [|left; congruence].
  destruct (animating g); [left; congruence|].
  destruct (nth_error (players g) ai) as [p|]; [|discriminate].
  destruct (negb (is_active p) || is_human p); [left; congruence|].
  destruct (cpu_choose_card_index g ai) as [[idx|]|]; [|left; congruence|discriminate].
  destruct (is_card_playable g ai (Z.of_nat idx)) as [[|]|]; [eauto| |discriminate].
  destruct (playable_indices_for_player g ai) as [[|j t]|]; [left; congruence|eauto|discriminate].
Qed.

Lemma drive_step_reachable g g' :
  reachable g -> drive_step g = Some g' -> reachable g'.
Proof.
  intros R H. unfold drive_step in H.
  destruct (state g) eqn:Hs; try (injection H as <-; exact R).
  - destruct (paused g) eqn:Hp; [injection H as <-; exact R|].
    destruct (animating g).
    + injection H as <-. apply reach_anim; [exact R|]. rewrite Hs; simpl; auto.
    + apply cpu_auto_play_cases in H as [->|(i & k & Hk)]; [exact R|].
      exact (reach_play g i k g' R Hs Hp Hk).
  - destruct (paused g) eqn:Hp; [injection H as <-; exact R|].
    exact (reach_commit (fun l => l) g g' R Hs Hp (fun l => Permutation_refl l) H).
Qed.

Lemma drive_reachable n : forall g g',
  reachable g -> drive n g = Some g' -> reachable g'.
Proof.
  induction n as [|n IH]; simpl; intros g g' R H.
  - injection H as <-. exact R.
  - unfold obind in H. destruct (drive_step g) as [g1|] eqn:E; [|discriminate].
    exact (IH g1 g' (drive_step_reachable g g1 R E) H).
Qed.

Ltac deck_perm :=
  apply (Permutation_count_occ card_eq_dec); intros [r s]; destruct r, s;
  vm_compute; reflexivity.

Lemma deck_a_perm : Permutation deck_a full_deck.
Proof. deck_perm. Qed.

Lemma deck_b_perm : Permutation deck_b full_deck.
Proof. deck_perm. Qed.

Lemma deck_c_perm : Permutation deck_c full_deck.
Proof. deck_perm. Qed.

Lemma cpu_game_reachable n deck k g :
  Permutation deck full_deck -> cpu_game n deck k = Some g -> reachable g.
Proof.
  unfold cpu_game, obind. intros P H.
  destruct (start_game deck 0 (init_game (cpu_table n))) as [g0|] eqn:E; [|discriminate].
  exact (drive_reachable k g0 g (reach_deal _ _ _ _ P E) H).
Qed.

Lemma game_a77_reachable : reachable game_a77.
Proof.
  apply (cpu_game_reachable 6 deck_a 77); [exact deck_a_perm|].
  vm_compute. reflexivity.
Qed.

Lemma game_b95_reachable : reachable game_b95.
Proof.
  apply (cpu_game_reachable 5 deck_b 95); [exact deck_b_perm|].
  vm_compute. reflexivity.
Qed.

Lemma game_c37_reachable : reachable game_c37.
Proof.
  apply (cpu_game_reachable 6 deck_c 37); [exact deck_c_perm|].
  vm_compute. reflexivity.
Qed.

Lemma game_c5_reachable : reachable game_c5.
Proof.
  apply (cpu_game_reachable 6 deck_c 5); [exact deck_c_perm|].
  vm_compute. reflexivity.
Qed.

Lemma game_c4_165_reachable : reachable game_c4_165.
Proof.
  apply (cpu_game_reachable 4 deck_c 165); [exact deck_c_perm|].
  vm_compute. reflexivity.
Qed.

(** ** C3: a follow round after the leader emptied its hand *)

(** C3 (code_bug).  In a reachable game, after the leader has led its last
    card and left, every active seat plays one card of the led suit, yet
    [attempt_play_card] queues no resolution: [active_index] moves on to a
    seat that has already played in this trick, because it can never come
    back to the now inactive [leader_index]. *)
Theorem follow_round_after_leader_emptied_does_not_complete :
  reachable game_b95 /\ state game_b95 = Play /\ paused game_b95 = false /\
  animating game_b95 = false /\ leader_index game_b95 = 4 /\
  seat_active (players game_b95) 4 = false /\
  exists g',
    attempt_play_card game_b95 3 9 = Some g' /\
    (forall i, seat_active (players g') i = true -> In i (map fst (trick_cards g'))) /\
    Forall (fun pc => required_suit g' = Some (suit (snd pc))) (trick_cards g') /\
    resolve_after_animation g' = None /\
    active_index g' = Some 0 /\ In 0 (map fst (trick_cards g')).
Proof.
  split; [exact game_b95_reachable|].
  repeat split; try (vm_compute; reflexivity).
  eexists. split; [vm_compute; reflexivity|].
  split.
  - intros i Ha. do 5 (destruct i as [|i]; [vm_compute; auto 10|]).
    vm_compute in Ha. destruct i; discriminate.
  - split; [vm_compute; repeat constructor|].
    split; [vm_compute; reflexivity|].
    split; [vm_compute; reflexivity|].
    vm_compute; auto 10.
Qed.

(** ** C4: a pickup into an inactive seat *)

(** C4 (code_bug).  In a reachable game, committing a tochoo whose only
    card of the led suit was played by a leader who has already emptied its
    hand and left the game puts the trick into that inactive seat's hand,
    and makes it leader and seat to move. *)
Theorem tochoo_pickup_lands_in_inactive_seat :
  reachable game_a77 /\ state game_a77 = ShowingTrick /\ paused game_a77 = false /\
  pending_tochoo game_a77 = true /\
  seat_active (players game_a77) 4 = false /\ hand_of game_a77 4 = [] /\
  exists g',
    actually_resolve_trick (fun l => l) (Some (pending_tochoo game_a77)) game_a77 = Some g' /\
    reachable g' /\
    seat_active (players g') 4 = false /\ length (hand_of g' 4) = 2 /\
    leader_index g' = 4 /\ active_index g' = Some 4.
Proof.
  split; [exact game_a77_reachable|].
  repeat split; try (vm_compute; reflexivity).
  eexists. split; [vm_compute; reflexivity|].
  split; [|repeat split; vm_compute; reflexivity].
  apply (reach_commit (fun l => l) game_a77).
  - exact game_a77_reachable.
  - vm_compute; reflexivity.
  - vm_compute; reflexivity.
  - intros l; apply Permutation_refl.
  - vm_compute; reflexivity.
Qed.

(** ** C5: a follower that plays its last card *)

(** C5 (code_bug).  In a reachable game, a following seat that plays its
    last card is left active and unranked by that [attempt_play_card]
    call: no rank is assigned and the finish order is unchanged. *)
Theorem follower_emptying_hand_is_not_ranked :
  reachable game_c37 /\ state game_c37 = Play /\ paused game_c37 = false /\
  animating game_c37 = false /\ active_index game_c37 = Some 5 /\
  length (hand_of game_c37 5) = 1 /\ seat_active (players game_c37) 5 = true /\
  exists g',
    attempt_play_card game_c37 5 0 = Some g' /\
    hand_of g' 5 = [] /\ seat_active (players g') 5 = true /\
    option_map finished_rank (nth_error (players g') 5) = Some None /\
    ranks_assigned g' = ranks_assigned game_c37 /\
    finish_order g' = finish_order game_c37.
Proof.
  split; [exact game_c37_reachable|].
  repeat split; try (vm_compute; reflexivity).
  eexists. repeat split; vm_compute; reflexivity.
Qed.

(** ** C9: pausing *)

(** C9 (code_bug).  From [play] or [showing_trick] (not paused) the first
    [toggle_pause] enters [paused]; the second one is then a no-op, since
    [toggle_pause] only acts in [play] and [showing_trick]: the game stays
    paused and the resume branch is never reached. *)
Theorem toggle_pause_twice_stays_paused (g : game) :
  (state g = Play \/ state g = ShowingTrick) -> paused g = false ->
  state (toggle_pause g) = Paused /\ paused (toggle_pause g) = true /\
  toggle_pause (toggle_pause g) = toggle_pause g.
Proof.
  intros Hs Hp. unfold toggle_pause.
  destruct Hs as [Hs|Hs]; rewrite Hs, Hp; simpl; auto.
Qed.

Lemma toggle_pause_twice_stays_paused_witness :
  (state game_c37 = Play \/ state game_c37 = ShowingTrick) /\ paused game_c37 = false /\
  state (toggle_pause game_c37) = Paused /\ paused (toggle_pause game_c37) = true /\
  toggle_pause (toggle_pause game_c37) = toggle_pause game_c37.
Proof.
  assert (Hs : state game_c37 = Play \/ state game_c37 = ShowingTrick)
    by (left; vm_compute; reflexivity).
  assert (Hp : paused game_c37 = false) by (vm_compute; reflexivity).
  split; [exact Hs|]. split; [exact Hp|].
  exact (toggle_pause_twice_stays_paused game_c37 Hs Hp).
Defined.

(** ** Helper lemmas *)

Lemma suit_eqb_eq a b : suit_eqb a b = true <-> a = b.
Proof.
  unfold suit_eqb. rewrite Nat.eqb_eq.
  split; [destruct a, b; simpl; congruence|intros ->; reflexivity].
Qed.


Lemma has_suit_spec l s : has_suit l s = true <-> exists c, In c l /\ suit c = s.
Proof.
  unfold has_suit. rewrite existsb_exists.
  split; intros (c & Hin & H); exists c; split; auto; apply suit_eqb_eq; auto.
Qed.

Lemma py_norm_nat len k : k < len -> py_norm len (Z.of_nat k) = Some k.
Proof.
  intros H. unfold py_norm.
  replace (0 <=? Z.of_nat k)%Z with true by (symmetry; apply Z.leb_le; lia).
  replace (Z.of_nat k <? Z.of_nat len)%Z with true by (symmetry; apply Z.ltb_lt; lia).
  rewrite Nat2Z.id. reflexivity.
Qed.

Lemma py_get_nat {A} (l : list A) k x :
  nth_error l k = Some x -> py_get l (Z.of_nat k) = Some x.
Proof.
  intros H. unfold py_get.
  assert (Hk : k < length l) by (apply nth_error_Some; congruence).
  rewrite (py_norm_nat _ _ Hk). exact H.
Qed.

Lemma seat_lookup g i :
  (exists p, nth_error (players g) i = Some p /\
             seat_active (players g) i = is_active p /\ hand_of g i = hand p)
  \/ (nth_error (players g) i = None /\ hand_of g i = []).
Proof.
  unfold seat_active, hand_of. destruct (nth_error (players g) i) as [p|]; [left|right]; eauto.
Qed.

(** ** C1: the legality evaluator *)

(** C1.  For a seat [i] and an in-range card index [k] holding [c]:
    an inactive seat never has a playable card; with a required suit the
    seat can play exactly that suit if it holds it, and anything if not;
    without one, the first-move leader can play exactly the Ace of Spades
    and anyone else anything. *)
Theorem is_card_playable_contract (g : game) (i k : nat) (c : card) :
  nth_error (hand_of g i) k = Some c ->
  (seat_active (players g) i = false -> is_card_playable g i (Z.of_nat k) = Some false) /\
  (seat_active (players g) i = true -> forall rs, required_suit g = Some rs ->
     (exists c', In c' (hand_of g i) /\ suit c' = rs) ->
     exists b, is_card_playable g i (Z.of_nat k) = Some b /\ (b = true <-> suit c = rs)) /\
  (seat_active (players g) i = true -> forall rs, required_suit g = Some rs ->
     ~ (exists c', In c' (hand_of g i) /\ suit c' = rs) ->
     is_card_playable g i (Z.of_nat k) = Some true) /\
  (seat_active (players g) i = true -> required_suit g = None ->
     first_move g = true -> active_index g = Some i ->
     exists b, is_card_playable g i (Z.of_nat k) = Some b /\
               (b = true <-> rank c = RA /\ suit c = Spades)) /\
  (seat_active (players g) i = true -> required_suit g = None ->
     ~ (first_move g = true /\ active_index g = Some i) ->
     is_card_playable g i (Z.of_nat k) = Some true).
Proof.
  intros Hc.
  destruct (seat_lookup g i) as [(p & Hp & Ha & Hh)|(Hp & Hh)];
    [|rewrite Hh in Hc; destruct k; discriminate].
  rewrite Ha, Hh in *.
  pose proof (py_get_nat _ _ _ Hc) as Hg.
  unfold is_card_playable. rewrite Hp. simpl.
  repeat split.
  - intros Hi. rewrite Hi. reflexivity.
  - intros Hi rs Hr Hs. rewrite Hi, Hr. simpl.
    apply has_suit_spec in Hs. rewrite Hs, Hg. simpl.
    eexists; split; [reflexivity|apply suit_eqb_eq].
  - intros Hi rs Hr Hs. rewrite Hi, Hr. simpl.
    destruct (has_suit (hand p) rs) eqn:E; [apply has_suit_spec in E; contradiction|].
    rewrite Hg. reflexivity.
  - intros Hi Hr Hf Ha'. rewrite Hi, Hr, Hf, Ha'. simpl. rewrite Nat.eqb_refl, Hg. simpl.
    eexists; split; [reflexivity|].
    unfold is_ace_of_spades, rank_eqb. rewrite andb_true_iff, Nat.eqb_eq, suit_eqb_eq.
    destruct c as [[] []]; simpl; intuition congruence.
  - intros Hi Hr Hn. rewrite Hi, Hr. simpl.
    destruct (first_move g) eqn:Hf; [|reflexivity].
    destruct (active_index g) as [a|] eqn:Ha'; [|reflexivity]. simpl.
    destruct (Nat.eqb_spec i a); [subst; exfalso; apply Hn; auto|reflexivity].
Qed.

Lemma is_card_playable_contract_witness :
  nth_error (hand_of game_c37 5) 0 = Some (Card R2 Clubs) /\
  (seat_active (players game_c37) 5 = false ->
     is_card_playable game_c37 5 (Z.of_nat 0) = Some false) /\
  (seat_active (players game_c37) 5 = true -> forall rs, required_suit game_c37 = Some rs ->
     (exists c', In c' (hand_of game_c37 5) /\ suit c' = rs) ->
     exists b, is_card_playable game_c37 5 (Z.of_nat 0) = Some b /\
               (b = true <-> suit (Card R2 Clubs) = rs)) /\
  (seat_active (players game_c37) 5 = true -> forall rs, required_suit game_c37 = Some rs ->
     ~ (exists c', In c' (hand_of game_c37 5) /\ suit c' = rs) ->
     is_card_playable game_c37 5 (Z.of_nat 0) = Some true) /\
  (seat_active (players game_c37) 5 = true -> required_suit game_c37 = None ->
     first_move game_c37 = true -> active_index game_c37 = Some 5 ->
     exists b, is_card_playable game_c37 5 (Z.of_nat 0) = Some b /\
               (b = true <-> rank (Card R2 Clubs) = RA /\ suit (Card R2 Clubs) = Spades)) /\
  (seat_active (players game_c37) 5 = true -> required_suit game_c37 = None ->
     ~ (first_move game_c37 = true /\ active_index game_c37 = Some 5) ->
     is_card_playable game_c37 5 (Z.of_nat 0) = Some true).
Proof.
  assert (H : nth_error (hand_of game_c37 5) 0 = Some (Card R2 Clubs)) by (vm_compute; reflexivity).
  split; [exact H|].
  exact (is_card_playable_contract game_c37 5 0 (Card R2 Clubs) H).
Defined.

(** ** C6: rejected plays *)

Lemma attempt_rejects (g : game) (i : nat) (k : Z) :
  i < length (players g) ->
  (animating g = true \/ active_index g <> Some i \/ seat_active (players g) i = false \/
   is_card_playable g i k = Some false) ->
  attempt_play_card g i k = Some g \/
  exists w, attempt_play_card g i k = Some (set_warning_text g w).
Proof.
  intros Hi H. unfold attempt_play_card.
  destruct (animating g) eqn:Ean; [left; reflexivity|].
  destruct (nth_error (players g) i) as [p|] eqn:Hp;
    [|apply nth_error_None in Hp; lia].
  cbn [obind].
  destruct (opt_nat_eqb (Some i) (active_index g)) eqn:Eact; cbn [negb]; [|left; reflexivity].
  assert (Ha : active_index g = Some i).
  { destruct (active_index g) as [a|]; simpl in Eact; [|discriminate].
    apply Nat.eqb_eq in Eact; congruence. }
  destruct (is_active p) eqn:Eis; cbn [negb]; [|left; reflexivity].
  destruct H as [H|[H|[H|H]]]; [discriminate|contradiction|
    unfold seat_active in H; rewrite Hp in H; congruence|].
  unfold is_card_playable in H. rewrite Hp in H. cbn [obind] in H. rewrite Eis in H. cbn [negb] in H.
  right.
  destruct (required_suit g) as [rs|] eqn:Er.
  - destruct (has_suit (hand p) rs) eqn:Eh;
      destruct (py_get (hand p) k) as [c|] eqn:Eg; simpl in H |- *; try discriminate.
    injection H as H. rewrite H. simpl. eexists; reflexivity.
  - rewrite Eact in H.
    destruct (first_move g); simpl in H |- *; [|discriminate].
    destruct (py_get (hand p) k) as [c|] eqn:Eg; simpl in H |- *; [|discriminate].
    injection H as H. rewrite H. simpl. eexists; reflexivity.
Qed.

(** C6.  A play attempted while the animation hold is set, by a seat that
    is not the seat to move, by an inactive seat, or with a card index the
    legality evaluator rejects, returns normally and changes no hand, seat
    flag or rank, nor the trick, the required suit, the first-move flag,
    the leader, the seat to move, the discard pile or the finish order
    (at most the warning text shown to the user changes). *)
Theorem attempt_play_card_rejection_is_noop (g : game) (i : nat) (k : Z) :
  i < length (players g) ->
  (animating g = true \/ active_index g <> Some i \/ seat_active (players g) i = false \/
   is_card_playable g i k = Some false) ->
  exists g', attempt_play_card g i k = Some g' /\
    players g' = players g /\ trick_cards g' = trick_cards g /\
    required_suit g' = required_suit g /\ first_move g' = first_move g /\
    leader_index g' = leader_index g /\ active_index g' = active_index g /\
    discard_pile g' = discard_pile g /\ ranks_assigned g' = ranks_assigned g /\
    finish_order g' = finish_order g /\ state g' = state g /\
    animating g' = animating g /\ resolve_after_animation g' = resolve_after_animation g.
Proof.
  intros Hi H.
  destruct (attempt_rejects g i k Hi H) as [E|(w & E)]; rewrite E; eexists;
    split; [reflexivity| |reflexivity|]; repeat split.
Qed.

Lemma attempt_play_card_rejection_is_noop_witness :
  0 < length (players game_c37) /\
  (animating game_c37 = true \/ active_index game_c37 <> Some 0 \/
   seat_active (players game_c37) 0 = false \/ is_card_playable game_c37 0 0 = Some false) /\
  exists g', attempt_play_card game_c37 0 0 = Some g' /\
    players g' = players game_c37 /\ trick_cards g' = trick_cards game_c37 /\
    required_suit g' = required_suit game_c37 /\ first_move g' = first_move game_c37 /\
    leader_index g' = leader_index game_c37 /\ active_index g' = active_index game_c37 /\
    discard_pile g' = discard_pile game_c37 /\ ranks_assigned g' = ranks_assigned game_c37 /\
    finish_order g' = finish_order game_c37 /\ state g' = state game_c37 /\
    animating g' = animating game_c37 /\
    resolve_after_animation g' = resolve_after_animation game_c37.
Proof.
  assert (H1 : 0 < length (players game_c37)) by (vm_compute; lia).
  assert (H2 : animating game_c37 = true \/ active_index game_c37 <> Some 0 \/
               seat_active (players game_c37) 0 = false \/
               is_card_playable game_c37 0 0 = Some false)
    by (right; left; vm_compute; discriminate).
  split; [exact H1|]. split; [exact H2|].
  exact (attempt_play_card_rejection_is_noop game_c37 0 0 H1 H2).
Defined.

(** ** Lemmas on the resolution *)

Lemma insert_card_perm c l : Permutation (insert_card c l) (c :: l).
Proof.
  induction l as [|h t IH]; simpl; [reflexivity|].
  destruct (card_key_le c h); [reflexivity|].
  rewrite IH. apply perm_swap.
Qed.

Lemma sort_hand_perm l : Permutation (sort_hand l) l.
Proof.
  induction l as [|c t IH]; simpl; [reflexivity|].
  rewrite insert_card_perm, IH. reflexivity.
Qed.

Lemma argmax_from_spec {A} (f : A -> nat) l : forall b,
  In (argmax_from f b l) (b :: l) /\
  (forall x, In x (b :: l) -> f x <= f (argmax_from f b l)).
Proof.
  induction l as [|x t IH]; intros b; simpl.
  - split; [auto|]. intros y [<-|[]]; lia.
  - destruct (f b <? f x) eqn:E.
    + apply Nat.ltb_lt in E. destruct (IH x) as [Hin Hmax]. split.
      * destruct Hin as [<-|Hin]; simpl; auto.
      * intros y [<-|[<-|Hy]]; [specialize (Hmax x (or_introl eq_refl)); lia| |];
          apply Hmax; simpl; auto.
    + apply Nat.ltb_ge in E. destruct (IH b) as [Hin Hmax]. split.
      * destruct Hin as [<-|Hin]; simpl; auto.
      * intros y [<-|[<-|Hy]]; [apply Hmax; simpl; auto| |apply Hmax; simpl; auto].
        specialize (Hmax b (or_introl eq_refl)). lia.
Qed.

Lemma opt_suit_eqb_some s o : opt_suit_eqb (Some s) o = true <-> o = Some s.
Proof.
  destruct o as [t|]; simpl; [|split; discriminate].
  rewrite suit_eqb_eq. split; congruence.
Qed.

(** The seat chosen by [trick_taker]: the seat of a highest card of the
    required suit, or the leader when no played card has that suit. *)
Lemma trick_taker_spec g :
  exists r, trick_taker g = Some r /\
  ((exists c, In (r, c) (trick_cards g) /\ required_suit g = Some (suit c) /\
      forall r' c', In (r', c') (trick_cards g) -> required_suit g = Some (suit c') ->
                    value c' <= value c)
   \/ ((forall pc, In pc (trick_cards g) -> required_suit g <> Some (suit (snd pc))) /\
       r = leader_index g)).
Proof.
  unfold trick_taker.
  destruct (suited_cards g) as [|t0 rest] eqn:Es.
  - exists (leader_index g). split; [reflexivity|]. right. split; [|reflexivity].
    intros pc Hin Hr.
    assert (In pc (suited_cards g)).
    { unfold suited_cards. apply filter_In. split; [exact Hin|].
      apply opt_suit_eqb_some. exact Hr. }
    rewrite Es in H. exact H.
  - simpl. destruct (argmax_from_spec (fun t => value (snd t)) rest t0) as [Hin Hmax].
    remember (argmax_from (fun t => value (snd t)) t0 rest) as t eqn:Et.
    exists (fst t). split; [reflexivity|]. left.
    rewrite <- Es in Hin. unfold suited_cards in Hin. apply filter_In in Hin as [Hin Hs].
    apply opt_suit_eqb_some in Hs.
    exists (snd t). destruct t as [r c]. simpl in Hin, Hs |- *. split; [exact Hin|]. split; [exact Hs|].
    intros r' c' Hin' Hr'.
    apply (Hmax (r', c')). rewrite <- Es. unfold suited_cards. apply filter_In.
    split; [exact Hin'|]. apply opt_suit_eqb_some. exact Hr'.
Qed.

Lemma trick_taker_in_range g r :
  leader_index g < length (players g) ->
  Forall (fun pc => fst pc < length (players g)) (trick_cards g) ->
  trick_taker g = Some r -> r < length (players g).
Proof.
  intros Hl Ht E.
  destruct (trick_taker_spec g) as (r' & E' & H). rewrite E in E'. injection E' as <-.
  destruct H as [(c & Hin & _)|(_ & Hr)]; [|rewrite Hr; exact Hl].
  rewrite Forall_forall in Ht. exact (Ht (r, c) Hin).
Qed.

Lemma seats_kept_refl ps : seats_kept ps ps.
Proof. intros i p H. exists p. split; [exact H|]. repeat split. Qed.

Lemma seats_kept_trans a b c : seats_kept a b -> seats_kept b c -> seats_kept a c.
Proof.
  intros H1 H2 i p Hp.
  destruct (H1 i p Hp) as (q & Hq & Hk1 & Hj1 & Ha1).
  destruct (H2 i q Hq) as (r & Hr & Hk2 & Hj2 & Ha2).
  exists r. split; [exact Hr|]. unfold seat_kept. split; [|split]; congruence.
Qed.

Lemma assign_ranks_kept cond ps : forall ra fo,
  seats_kept ps (fst (fst (assign_ranks cond ps ra fo))).
Proof.
  induction ps as [|p t IH]; intros ra fo; simpl.
  - apply seats_kept_refl.
  - destruct (cond p).
    + specialize (IH (S ra) (fo ++ [(name p, S ra)])).
      destruct (assign_ranks cond t (S ra) (fo ++ [(name p, S ra)])) as [[t' ra'] fo'].
      simpl in *. intros [|i] q Hq; simpl in Hq.
      * injection Hq as <-. eexists; split; [reflexivity|]. repeat split.
      * exact (IH i q Hq).
    + specialize (IH ra fo).
      destruct (assign_ranks cond t ra fo) as [[t' ra'] fo'].
      simpl in *. intros [|i] q Hq; simpl in Hq.
      * injection Hq as <-. eexists; split; [reflexivity|]. repeat split.
      * exact (IH i q Hq).
Qed.

Lemma run_rank_loop_kept cond g :
  seats_kept (players g) (players (run_rank_loop cond g)) /\
  leader_index (run_rank_loop cond g) = leader_index g /\
  active_index (run_rank_loop cond g) = active_index g.
Proof.
  unfold run_rank_loop.
  pose proof (assign_ranks_kept cond (players g) (ranks_assigned g) (finish_order g)) as H.
  destruct (assign_ranks cond (players g) (ranks_assigned g) (finish_order g)) as [[ps ra] fo].
  simpl in *. auto.
Qed.

Lemma check_game_end_kept g :
  seats_kept (players g) (players (check_game_end g)) /\
  leader_index (check_game_end g) = leader_index g /\
  active_index (check_game_end g) = active_index g.
Proof.
  unfold check_game_end. destruct (_ <=? 1).
  - exact (run_rank_loop_kept _ g).
  - split; [apply seats_kept_refl|auto].
Qed.

Lemma finish_resolution_kept g1 :
  seats_kept (players g1) (players (finish_resolution g1)) /\
  leader_index (finish_resolution g1) = leader_index g1 /\
  active_index (finish_resolution g1) = active_index g1.
Proof.
  unfold finish_resolution.
  set (g2 := set_required_suit (set_trick_cards g1 []) None).
  set (g3 := run_rank_loop (fun p => is_active p && (length (hand p) =? 0)) g2).
  destruct (run_rank_loop_kept (fun p => is_active p && (length (hand p) =? 0)) g2)
    as (K3 & L3 & A3).
  destruct (check_game_end_kept g3) as (K4 & L4 & A4).
  fold g3 in K3, L3, A3.
  set (g4 := check_game_end g3) in *.
  change (players g2) with (players g1) in K3.
  change (leader_index g2) with (leader_index g1) in L3.
  change (active_index g2) with (active_index g1) in A3.
  destruct (gstate_eqb _ Finished); simpl;
    (split; [exact (seats_kept_trans _ _ _ K3 K4)|]); split; congruence.
Qed.

Lemma nth_error_upd_nth_same {A} (l : list A) i x :
  i < length l -> nth_error (upd_nth l i x) i = Some x.
Proof.
  revert i; induction l as [|h t IH]; intros [|i] Hi; simpl in *; try lia; auto.
  apply IH. lia.
Qed.

Lemma resolve_trick_fields g b :
  trick_cards g <> [] ->
  players (resolve_trick g b) = players g /\
  trick_cards (resolve_trick g b) = trick_cards g /\
  leader_index (resolve_trick g b) = leader_index g /\
  required_suit (resolve_trick g b) = required_suit g /\
  pending_tochoo (resolve_trick g b) = b /\
  last_trick_suit (resolve_trick g b) = required_suit g /\
  state (resolve_trick g b) = ShowingTrick.
Proof.
  intros Ht. unfold resolve_trick.
  destruct (trick_cards g) eqn:E; [contradiction|].
  repeat split; cbn; rewrite ?E; reflexivity.
Qed.

Lemma trick_taker_same g g' :
  trick_cards g' = trick_cards g -> required_suit g' = required_suit g ->
  leader_index g' = leader_index g -> trick_taker g' = trick_taker g.
Proof.
  intros Ht Hr Hl. unfold trick_taker, suited_cards. rewrite Ht, Hr, Hl. reflexivity.
Qed.

(** ** C2: committing a tochoo *)

(** C2.  Committing a triggered tochoo (the seats of the trick and the
    leader being seats of the table, and the shuffle a permutation): the
    recipient [r] is the seat of a highest-value card of the required suit
    among the played cards, or the leader if no played card has that
    suit; [r]'s hand becomes its old hand plus all played cards (so it
    grows by the trick's card count); [r] becomes leader and seat to move,
    with [just_picked_up] set and [avoid_suit] the trick's suit. *)
Theorem tochoo_commit_outcome (shuf : list card -> list card) (g : game) :
  (forall l, Permutation (shuf l) l) ->
  trick_cards g <> [] ->
  leader_index g < length (players g) ->
  Forall (fun pc => fst pc < length (players g)) (trick_cards g) ->
  exists r p p' g',
    actually_resolve_trick shuf None (resolve_trick g true) = Some g' /\
    ((exists c, In (r, c) (trick_cards g) /\ required_suit g = Some (suit c) /\
        forall r' c', In (r', c') (trick_cards g) -> required_suit g = Some (suit c') ->
                      value c' <= value c)
     \/ ((forall pc, In pc (trick_cards g) -> required_suit g <> Some (suit (snd pc))) /\
         r = leader_index g)) /\
    nth_error (players g) r = Some p /\ nth_error (players g') r = Some p' /\
    Permutation (hand p') (hand p ++ map snd (trick_cards g)) /\
    length (hand p') = length (hand p) + length (trick_cards g) /\
    leader_index g' = r /\ active_index g' = Some r /\
    just_picked_up p' = true /\ avoid_suit p' = required_suit g.
Proof.
  intros Hshuf Ht Hl Hseats.
  destruct (resolve_trick_fields g true Ht) as (Pl & Tr & Le & Rq & Pe & Ls & _).
  set (g1 := resolve_trick g true) in *.
  destruct (trick_taker_spec g) as (r & Er & Hrec).
  pose proof (trick_taker_in_range g r Hl Hseats Er) as Hr.
  destruct (nth_error (players g) r) as [p|] eqn:Hp; [|apply nth_error_None in Hp; lia].
  set (p3 := set_avoid_suit (set_just_picked_up (pick_up p (shuf (map snd (trick_cards g)))) true)
               (required_suit g)).
  set (gT := set_active_index (set_leader_index (set_players g1 (upd_nth (players g) r p3)) r)
               (Some r)).
  assert (E : actually_resolve_trick shuf None g1 = Some (finish_resolution gT)).
  { unfold actually_resolve_trick. rewrite Pe.
    rewrite (trick_taker_same g g1 Tr Rq Le), Er. cbn [obind].
    unfold tochoo_pickup. rewrite Pl, Tr, Hp, Ls. reflexivity. }
  destruct (finish_resolution_kept gT) as (K & L & A).
  assert (Hp3 : nth_error (players gT) r = Some p3) by (apply nth_error_upd_nth_same; exact Hr).
  destruct (K r p3 Hp3) as (p' & Hp' & Hh & Hj & Ha).
  assert (Hperm : Permutation (hand p') (hand p ++ map snd (trick_cards g))).
  { rewrite Hh. unfold p3. simpl. rewrite sort_hand_perm.
    apply Permutation_app_head. apply Hshuf. }
  exists r, p, p', (finish_resolution gT).
  split; [exact E|]. split; [exact Hrec|]. split; [exact Hp|]. split; [exact Hp'|].
  split; [exact Hperm|].
  split; [rewrite (Permutation_length Hperm), length_app, length_map; reflexivity|].
  split; [exact L|]. split; [exact A|].
  rewrite Hj, Ha. split; reflexivity.
Qed.

Lemma tochoo_commit_outcome_witness :
  (forall l, Permutation ((fun l : list card => l) l) l) /\
  trick_cards game_a77 <> [] /\
  leader_index game_a77 < length (players game_a77) /\
  Forall (fun pc => fst pc < length (players game_a77)) (trick_cards game_a77) /\
  exists r p p' g',
    actually_resolve_trick (fun l => l) None (resolve_trick game_a77 true) = Some g' /\
    ((exists c, In (r, c) (trick_cards game_a77) /\ required_suit game_a77 = Some (suit c) /\
        forall r' c', In (r', c') (trick_cards game_a77) ->
                      required_suit game_a77 = Some (suit c') -> value c' <= value c)
     \/ ((forall pc, In pc (trick_cards game_a77) ->
                     required_suit game_a77 <> Some (suit (snd pc))) /\
         r = leader_index game_a77)) /\
    nth_error (players game_a77) r = Some p /\ nth_error (players g') r = Some p' /\
    Permutation (hand p') (hand p ++ map snd (trick_cards game_a77)) /\
    length (hand p') = length (hand p) + length (trick_cards game_a77) /\
    leader_index g' = r /\ active_index g' = Some r /\
    just_picked_up p' = true /\ avoid_suit p' = required_suit game_a77.
Proof.
  assert (H1 : forall l, Permutation ((fun l : list card => l) l) l)
    by (intros l; apply Permutation_refl).
  assert (H2 : trick_cards game_a77 <> []) by (vm_compute; discriminate).
  assert (H3 : leader_index game_a77 < length (players game_a77)) by (vm_compute; lia).
  assert (H4 : Forall (fun pc => fst pc < length (players game_a77)) (trick_cards game_a77))
    by (vm_compute; repeat constructor; lia).
  split; [exact H1|]. split; [exact H2|]. split; [exact H3|]. split; [exact H4|].
  exact (tochoo_commit_outcome (fun l => l) game_a77 H1 H2 H3 H4).
Defined.

(** ** Seats across a move *)

Lemma flags_step_refl p : flags_step p p.
Proof. split; [auto|left; split; reflexivity]. Qed.

Lemma flags_step_trans p q r : flags_step p q -> flags_step q r -> flags_step p r.
Proof.
  intros [A1 F1] [A2 F2]. split; [auto|].
  destruct F1 as [[J1 V1]|[J1 V1]], F2 as [[J2 V2]|[J2 V2]].
  - left; split; congruence.
  - right; split; assumption.
  - right; split; congruence.
  - right; split; assumption.
Qed.

Lemma seats_back_refl ps : seats_back ps ps.
Proof. intros j p Hp. exists p. split; [exact Hp|apply flags_step_refl]. Qed.

Lemma seats_back_trans a b c : seats_back a b -> seats_back b c -> seats_back a c.
Proof.
  intros H1 H2 j r Hr.
  destruct (H2 j r Hr) as (q & Hq & S2).
  destruct (H1 j q Hq) as (p & Hp & S1).
  exists p. split; [exact Hp|exact (flags_step_trans _ _ _ S1 S2)].
Qed.

Lemma nth_error_upd_nth {A} (l : list A) i x j :
  nth_error (upd_nth l i x) j =
  if Nat.eqb i j then match nth_error l j with Some _ => Some x | None => None end
  else nth_error l j.
Proof.
  revert i j; induction l as [|h t IH]; intros [|i] [|j]; simpl; auto;
    destruct (i =? j); reflexivity.
Qed.

Lemma seats_back_upd ps i p x :
  nth_error ps i = Some p -> flags_step p x -> seats_back ps (upd_nth ps i x).
Proof.
  intros Hp Hx j q Hq. rewrite nth_error_upd_nth in Hq.
  destruct (Nat.eqb_spec i j) as [<-|Hne].
  - rewrite Hp in Hq. injection Hq as <-. exists p. split; [exact Hp|exact Hx].
  - exists q. split; [exact Hq|apply flags_step_refl].
Qed.

Lemma assign_ranks_back cond ps : forall ra fo,
  seats_back ps (fst (fst (assign_ranks cond ps ra fo))).
Proof.
  induction ps as [|p t IH]; intros ra fo; simpl.
  - apply seats_back_refl.
  - destruct (cond p).
    + specialize (IH (S ra) (fo ++ [(name p, S ra)])).
      destruct (assign_ranks cond t (S ra) (fo ++ [(name p, S ra)])) as [[t' ra'] fo'].
      simpl in *. intros [|j] q Hq; simpl in Hq.
      * injection Hq as <-. exists p. split; [reflexivity|].
        split; [cbn; intros H; discriminate H|left; split; reflexivity].
      * exact (IH j q Hq).
    + specialize (IH ra fo).
      destruct (assign_ranks cond t ra fo) as [[t' ra'] fo'].
      simpl in *. intros [|j] q Hq; simpl in Hq.
      * injection Hq as <-. exists p. split; [reflexivity|apply flags_step_refl].
      * exact (IH j q Hq).
Qed.

Lemma run_rank_loop_back cond g :
  seats_back (players g) (players (run_rank_loop cond g)) /\
  trick_cards (run_rank_loop cond g) = trick_cards g /\
  required_suit (run_rank_loop cond g) = required_suit g /\
  active_index (run_rank_loop cond g) = active_index g /\
  state (run_rank_loop cond g) = state g /\
  showing_trick (run_rank_loop cond g) = showing_trick g.
Proof.
  unfold run_rank_loop.
  pose proof (assign_ranks_back cond (players g) (ranks_assigned g) (finish_order g)) as H.
  destruct (assign_ranks cond (players g) (ranks_assigned g) (finish_order g)) as [[ps ra] fo].
  simpl in *. repeat split; auto.
Qed.

Lemma check_game_end_back g :
  seats_back (players g) (players (check_game_end g)) /\
  trick_cards (check_game_end g) = trick_cards g /\
  required_suit (check_game_end g) = required_suit g /\
  active_index (check_game_end g) = active_index g /\
  (state (check_game_end g) = state g \/ state (check_game_end g) = Finished) /\
  showing_trick (check_game_end g) = showing_trick g.
Proof.
  unfold check_game_end. destruct (_ <=? 1).
  - destruct (run_rank_loop_back
                (fun p => is_active p && match finished_rank p with None => true | Some _ => false end) g)
      as (B & T & R & A & _ & Sh).
    cbn. repeat split; auto.
  - repeat split; auto. apply seats_back_refl.
Qed.

Lemma finish_resolution_back g1 :
  seats_back (players g1) (players (finish_resolution g1)) /\
  required_suit (finish_resolution g1) = None /\
  active_index (finish_resolution g1) = active_index g1 /\
  trick_cards (finish_resolution g1) = [] /\
  showing_trick (finish_resolution g1) = false /\
  state (finish_resolution g1) <> ShowingTrick.
Proof.
  unfold finish_resolution.
  set (g2 := set_required_suit (set_trick_cards g1 []) None).
  set (g3 := run_rank_loop (fun p => is_active p && (length (hand p) =? 0)) g2).
  destruct (run_rank_loop_back (fun p => is_active p && (length (hand p) =? 0)) g2)
    as (B3 & T3 & R3 & A3 & _ & _).
  destruct (check_game_end_back g3) as (B4 & T4 & R4 & A4 & _ & _).
  fold g3 in B3, T3, R3, A3.
  set (g4 := check_game_end g3) in *.
  assert (B : seats_back (players g1) (players g4)) by exact (seats_back_trans _ _ _ B3 B4).
  assert (R : required_suit g4 = None) by (rewrite R4, R3; reflexivity).
  assert (A : active_index g4 = active_index g1) by (rewrite A4, A3; reflexivity).
  assert (T : trick_cards g4 = []) by (rewrite T4, T3; reflexivity).
  assert (E : forall g8 : game, state g8 = state g4 ->
    state (if gstate_eqb (state g8) Finished then g8 else set_state g8 Play) <> ShowingTrick).
  { intros g8 E8. rewrite E8. destruct (state g4) eqn:Es; cbn; rewrite ?E8, ?Es; discriminate. }
  destruct (gstate_eqb _ Finished) eqn:Ef; cbn;
    (split; [exact B|]); (split; [exact R|]); (split; [exact A|]); (split; [exact T|]);
    (split; [reflexivity|]).
  - pose proof (E (set_last_trick_suit (set_pending_tochoo (set_last_played_cards
                  (set_showing_trick g4 false) []) false) None) eq_refl) as E'.
    rewrite Ef in E'. exact E'.
  - discriminate.
Qed.

Lemma mark_finished_back g i :
  seats_back (players g) (players (mark_finished g i)) /\
  trick_cards (mark_finished g i) = trick_cards g /\
  required_suit (mark_finished g i) = required_suit g /\
  active_index (mark_finished g i) = active_index g /\
  state (mark_finished g i) = state g /\
  showing_trick (mark_finished g i) = showing_trick g.
Proof.
  unfold mark_finished. destruct (nth_error (players g) i) as [p|] eqn:Hp.
  - cbn. repeat split; auto. apply (seats_back_upd _ _ p); [exact Hp|].
    split; [cbn; intros H; discriminate H|left; split; reflexivity].
  - repeat split; auto. apply seats_back_refl.
Qed.

Lemma clear_pickup_flag_back g i :
  seats_back (players g) (players (clear_pickup_flag g i)) /\
  (forall p', nth_error (players (clear_pickup_flag g i)) i = Some p' ->
              just_picked_up p' = false) /\
  trick_cards (clear_pickup_flag g i) = trick_cards g /\
  required_suit (clear_pickup_flag g i) = required_suit g /\
  active_index (clear_pickup_flag g i) = active_index g /\
  state (clear_pickup_flag g i) = state g /\
  showing_trick (clear_pickup_flag g i) = showing_trick g.
Proof.
  unfold clear_pickup_flag. destruct (nth_error (players g) i) as [p|] eqn:Hp.
  - destruct (just_picked_up p) eqn:Ej.
    + cbn. repeat split; auto.
      * apply (seats_back_upd _ _ p); [exact Hp|].
        split; [cbn; auto|right; split; reflexivity].
      * intros p' H. rewrite nth_error_upd_nth, Nat.eqb_refl, Hp in H.
        injection H as <-. reflexivity.
    + repeat split; auto; [apply seats_back_refl|].
      intros p' H. rewrite Hp in H. injection H as <-. exact Ej.
  - repeat split; auto; [apply seats_back_refl|].
    intros p' H. rewrite Hp in H. discriminate H.
Qed.

Lemma play_into_trick_back g i p k c g3 :
  nth_error (players g) i = Some p ->
  play_into_trick g i p k = Some (c, g3) ->
  seats_back (players g) (players g3) /\
  trick_cards g3 = trick_cards g ++ [(i, c)] /\
  required_suit g3 = required_suit g /\
  active_index g3 = active_index g /\
  state g3 = state g /\
  showing_trick g3 = showing_trick g.
Proof.
  intros Hp H. unfold play_into_trick in H.
  destruct (py_pop (hand p) k) as [[c' rest]|]; cbn in H; [|discriminate H].
  injection H as <- <-. cbn. repeat split; auto.
  apply (seats_back_upd _ _ p); [exact Hp|].
  split; [cbn; auto|left; split; reflexivity].
Qed.

(** Closes the goal of [attempt_play_card_cases] for a rejected play. *)
Ltac rejected :=
  split; [apply seats_back_refl|]; split; [reflexivity|]; left; repeat split;
  cbn; congruence.

(** A call of [attempt_play_card] either changes nothing the pickup
    memory depends on (a rejected play), or is a play of a card by the
    seat to move [i], appended to the trick. *)
Lemma attempt_play_card_cases g i k g' :
  attempt_play_card g i k = Some g' ->
  seats_back (players g) (players g') /\ showing_trick g' = showing_trick g /\
  ((trick_cards g' = trick_cards g /\ required_suit g' = required_suit g /\
    active_index g' = active_index g /\ state g' = state g)
   \/ (exists c, trick_cards g' = trick_cards g ++ [(i, c)] /\
        active_index g = Some i /\ required_suit g' <> None /\
        (state g' = state g \/ state g' = Finished) /\
        (exists p, nth_error (players g) i = Some p /\ is_active p = true) /\
        (required_suit g = None ->
         forall p', nth_error (players g') i = Some p' -> just_picked_up p' = false) /\
        (required_suit g <> None -> required_suit g' = required_suit g))).
Proof.
  intros H. unfold attempt_play_card in H.
  destruct (animating g); [injection H as <-; rejected|].
  destruct (nth_error (players g) i) as [p|] eqn:Hp; cbn [obind] in H; [|discriminate H].
  destruct (opt_nat_eqb (Some i) (active_index g)) eqn:Eact; cbn [negb] in H;
    [|injection H as <-; rejected].
  assert (Ha : active_index g = Some i).
  { destruct (active_index g) as [a|]; simpl in Eact; [|discriminate].
    apply Nat.eqb_eq in Eact; congruence. }
  destruct (is_active p) eqn:Eis; cbn [negb] in H; [|injection H as <-; rejected].
  destruct (py_get (hand p) k) as [card|]; cbn [obind] in H; [|discriminate H].
  destruct (required_suit g) as [rs|] eqn:Er; cbn beta iota zeta in H.
  - destruct (has_suit (hand p) rs && negb (suit_eqb (suit card) rs));
      [injection H as <-; rejected|].
    destruct (play_into_trick g i p k) as [[c g3]|] eqn:Ep; cbn [obind] in H; [|discriminate H].
    destruct (play_into_trick_back g i p k c g3 Hp Ep) as (B3 & T3 & R3 & A3 & S3 & Sh3).
    destruct (negb (suit_eqb (suit c) rs) && negb (has_suit (hand p) rs)).
    + injection H as <-.
      destruct (clear_pickup_flag_back g3 i) as (Bc & _ & Tc & Rc & Ac & Sc & Shc).
      cbn. split; [exact (seats_back_trans _ _ _ B3 Bc)|]. split; [congruence|].
      right. exists c.
      split; [congruence|]. split; [exact Ha|]. split; [rewrite Rc, R3, Er; discriminate|].
      split; [left; congruence|]. split; [exists p; split; [first [reflexivity|assumption]|assumption]|].
      split; [intros Hn; discriminate Hn|intros _; congruence].
    + set (g4 := set_active_index g3 (next_active_index (players g3) i)) in H.
      destruct (_ && _); injection H as <-.
      * cbn. split; [exact B3|]. split; [exact Sh3|].
        right. exists c.
        split; [exact T3|]. split; [exact Ha|]. split; [rewrite R3, Er; discriminate|].
        split; [left; exact S3|]. split; [exists p; split; [first [reflexivity|assumption]|assumption]|].
        split; [intros Hn; discriminate Hn|intros _; congruence].
      * destruct (clear_pickup_flag_back g4 i) as (Bc & _ & Tc & Rc & Ac & Sc & Shc).
        split; [exact (seats_back_trans _ _ _ B3 Bc)|]. split; [rewrite Shc; exact Sh3|].
        right. exists c.
        split; [rewrite Tc; exact T3|]. split; [exact Ha|].
        split; [rewrite Rc; cbn; rewrite R3, Er; discriminate|].
        split; [left; rewrite Sc; exact S3|]. split; [exists p; split; [first [reflexivity|assumption]|assumption]|].
        split; [intros Hn; discriminate Hn|intros _; rewrite Rc; cbn; congruence].
  - destruct (_ && negb (is_ace_of_spades card)); [injection H as <-; rejected|].
    destruct (play_into_trick g i p k) as [[c g3]|] eqn:Ep; cbn [obind] in H; [|discriminate H].
    destruct (play_into_trick_back g i p k c g3 Hp Ep) as (B3 & T3 & R3 & A3 & S3 & Sh3).
    remember (if first_move g3 then set_first_move g3 false else g3) as g4 eqn:E4.
    assert (F4 : players g4 = players g3 /\ trick_cards g4 = trick_cards g3 /\
                 state g4 = state g3 /\ showing_trick g4 = showing_trick g3)
      by (subst g4; destruct (first_move g3); repeat split).
    destruct F4 as (P4 & T4 & S4 & Sh4).
    set (g6 := set_active_index (set_required_suit g4 (Some (suit c)))
                 (next_active_index (players (set_required_suit g4 (Some (suit c)))) i)) in H.
    remember (if length (hand_of g6 i) =? 0 then check_game_end (mark_finished g6 i) else g6)
      as g7 eqn:E7.
    assert (F7 : seats_back (players g6) (players g7) /\ trick_cards g7 = trick_cards g6 /\
                 required_suit g7 = required_suit g6 /\
                 (state g7 = state g6 \/ state g7 = Finished) /\
                 showing_trick g7 = showing_trick g6).
    { subst g7. destruct (_ =? 0).
      - destruct (mark_finished_back g6 i) as (Bm & Tm & Rm & Am & Sm & Shm).
        destruct (check_game_end_back (mark_finished g6 i)) as (Bk & Tk & Rk & Ak & Sk & Shk).
        split; [exact (seats_back_trans _ _ _ Bm Bk)|].
        split; [congruence|]. split; [congruence|].
        split; [destruct Sk; [left|right]; congruence|congruence].
      - repeat split; auto. apply seats_back_refl. }
    destruct F7 as (B7 & T7 & R7 & S7 & Sh7).
    injection H as <-.
    destruct (clear_pickup_flag_back g7 i) as (Bc & Jc & Tc & Rc & Ac & Sc & Shc).
    assert (B6 : seats_back (players g) (players g6))
      by (unfold g6; cbn; rewrite P4; exact B3).
    split; [exact (seats_back_trans _ _ _ (seats_back_trans _ _ _ B6 B7) Bc)|].
    split; [rewrite Shc, Sh7; unfold g6; cbn; congruence|].
    right. exists c.
    split; [rewrite Tc, T7; unfold g6; cbn; congruence|]. split; [exact Ha|].
    split; [rewrite Rc, R7; unfold g6; cbn; discriminate|].
    split; [rewrite Sc; unfold g6 in S7; cbn in S7; destruct S7; [left|right]; congruence|].
    split; [exists p; split; [first [reflexivity|assumption]|assumption]|].
    split; [intros _; exact Jc|intros Hn; contradiction].
Qed.

(** ** The pickup memory invariant *)

Lemma deal_hands_fresh ps : forall counts deck ps',
  deal_hands ps counts deck = Some ps' ->
  forall j p, nth_error ps' j = Some p -> just_picked_up p = false /\ avoid_suit p = None.
Proof.
  induction ps as [|q t IH]; intros counts deck ps' H j p Hj; simpl in H.
  - injection H as <-. destruct j; discriminate Hj.
  - destruct counts as [|c cs]; cbn [obind] in H; [discriminate H|].
    destruct (length deck <? c); [discriminate H|].
    destruct (deal_hands t _ _) as [rest|] eqn:Er;
      cbn [obind] in H; [|discriminate H].
    injection H as <-. destruct j as [|j]; simpl in Hj.
    + injection Hj as <-. split; reflexivity.
    + exact (IH _ _ _ Er j p Hj).
Qed.

Lemma start_game_inv deck rnd g g' :
  start_game deck rnd g = Some g' -> pickup_inv g'.
Proof.
  intros H. unfold start_game in H.
  destruct (length (players g) =? 0); [discriminate H|].
  destruct (deal_hands _ _ _) as [ps|] eqn:Ed; cbn [obind] in H; [|discriminate H].
  injection H as <-.
  split; [|split; [|split]]; cbn.
  - intros j p Hj. destruct (deal_hands_fresh _ _ _ _ Ed j p Hj) as [J V].
    split; [auto|intros _ Hjp; congruence].
  - intros Hn; contradiction Hn; reflexivity.
  - intros Hs; discriminate Hs.
  - intros Hs; discriminate Hs.
Qed.

Lemma attempt_play_card_inv g i k g' :
  pickup_inv g -> attempt_play_card g i k = Some g' -> pickup_inv g'.
Proof.
  intros (Hs & Ht & HS & HSh) H.
  destruct (attempt_play_card_cases g i k g' H) as (B & Sh & C).
  split; [|split; [|split]].
  - intros j p' Hj. destruct (B j p' Hj) as (p & Hp & Ap & Fp).
    destruct (Hs j p Hp) as [V K].
    split.
    + intros Jf. destruct Fp as [[J' V']|[J' V']]; [rewrite V'; apply V; congruence|exact V'].
    + intros Aj Jt. destruct Fp as [[J' V']|[J' V']]; [|congruence].
      destruct (K (Ap Aj) ltac:(congruence)) as [Rn An].
      destruct C as [(T & R & A & S)|(c & T & Ai & Rn' & S & _ & Lead & _)].
      * split; congruence.
      * rewrite An in Ai. injection Ai as ->.
        rewrite (Lead Rn p' Hj) in Jt. discriminate Jt.
  - destruct C as [(T & R & A & S)|(c & T & Ai & Rn' & S & _)].
    + rewrite T, R. exact Ht.
    + intros _. exact Rn'.
  - destruct C as [(T & R & A & S)|(c & T & _)].
    + rewrite S, T. exact HS.
    + intros _. rewrite T. intros E. destruct (trick_cards g); discriminate E.
  - destruct C as [(T & R & A & S)|(c & T & _)].
    + rewrite Sh, T. exact HSh.
    + intros _. rewrite T. intros E. destruct (trick_cards g); discriminate E.
Qed.

Lemma finish_animation_inv g : pickup_inv g -> pickup_inv (finish_animation g).
Proof.
  intros Inv. unfold finish_animation.
  destruct (animating g); [|exact Inv].
  cbn. destruct (resolve_after_animation g) as [b|]; [|exact Inv].
  unfold resolve_trick. cbn. destruct (trick_cards g) as [|x l] eqn:Et; [exact Inv|].
  destruct Inv as (Hs & Ht & _ & _).
  split; [exact Hs|]. split; [exact Ht|].
  split; cbn; intros _; rewrite Et; discriminate.
Qed.

Lemma toggle_pause_inv g : pickup_inv g -> pickup_inv (toggle_pause g).
Proof.
  intros Inv. unfold toggle_pause.
  destruct (state g) eqn:Es; try exact Inv;
    destruct Inv as (Hs & Ht & HS & HSh);
    (destruct (paused g); cbn;
     (split; [exact Hs|]); (split; [exact Ht|]); (split; [|exact HSh]); intros E;
     [destruct (showing_trick g); [exact (HSh eq_refl)|discriminate E]|discriminate E]).
Qed.

Lemma finish_resolution_inv g1 :
  (forall j p, nth_error (players g1) j = Some p ->
     (just_picked_up p = false -> avoid_suit p = None) /\
     (is_active p = true -> just_picked_up p = true -> active_index g1 = Some j)) ->
  pickup_inv (finish_resolution g1).
Proof.
  intros Hs. destruct (finish_resolution_back g1) as (B & R & A & T & Sh & S).
  split; [|split; [|split]].
  - intros j p' Hj. destruct (B j p' Hj) as (p & Hp & Ap & Fp).
    destruct (Hs j p Hp) as [V K]. split.
    + intros Jf. destruct Fp as [[J' V']|[J' V']]; [rewrite V'; apply V; congruence|exact V'].
    + intros Aj Jt. destruct Fp as [[J' V']|[J' V']]; [|congruence].
      split; [exact R|]. rewrite A. apply K; [exact (Ap Aj)|congruence].
  - rewrite T. intros Hn. contradiction Hn. reflexivity.
  - intros E. contradiction (S E).
  - rewrite Sh. intros E. discriminate E.
Qed.

Lemma actually_resolve_trick_inv shuf b g g' :
  pickup_inv g -> state g = ShowingTrick ->
  actually_resolve_trick shuf (Some b) g = Some g' -> pickup_inv g'.
Proof.
  intros (Hs & Ht & HS & _) Es H.
  assert (Rs : required_suit g <> None) by exact (Ht (HS Es)).
  assert (Hg : forall j p, nth_error (players g) j = Some p ->
             (just_picked_up p = false -> avoid_suit p = None) /\
             (is_active p = true -> just_picked_up p = true -> False)).
  { intros j p Hp. destruct (Hs j p Hp) as [V K].
    split; [exact V|intros Aj Jt; destruct (K Aj Jt) as [Rn _]; contradiction]. }
  unfold actually_resolve_trick in H. cbn beta iota zeta in H.
  destruct (trick_taker g) as [r|]; cbn [obind] in H; [|destruct b; discriminate H].
  destruct b.
  - unfold tochoo_pickup in H. destruct (nth_error (players g) r) as [p|] eqn:Hp;
      cbn [obind] in H; [|discriminate H].
    injection H as <-. apply finish_resolution_inv.
    cbn [players active_index set_active_index set_leader_index set_players].
    intros j q Hq. rewrite nth_error_upd_nth in Hq.
    destruct (Nat.eqb_spec r j) as [<-|Hne].
    + rewrite Hp in Hq. injection Hq as <-.
      cbn [just_picked_up set_avoid_suit set_just_picked_up].
      split; [intros Hf; discriminate Hf|intros _ _; reflexivity].
    + destruct (Hg j q Hq) as [V K].
      split; [exact V|intros Aj Jt; contradiction (K Aj Jt)].
  - cbn [obind] in H. injection H as <-. apply finish_resolution_inv.
    cbn [players active_index set_active_index set_leader_index set_discard_pile clean_discard].
    intros j q Hq. destruct (Hg j q Hq) as [V K].
    split; [exact V|intros Aj Jt; contradiction (K Aj Jt)].
Qed.

Lemma reachable_pickup_inv g : reachable g -> pickup_inv g.
Proof.
  induction 1 as [ps deck rnd g _ Hs|g i k g' _ IH _ _ H|g _ IH _|shuf g g' _ IH Es _ _ H|g _ IH].
  - exact (start_game_inv _ _ _ _ Hs).
  - exact (attempt_play_card_inv g i k g' IH H).
  - exact (finish_animation_inv g IH).
  - exact (actually_resolve_trick_inv shuf _ g g' IH Es H).
  - exact (toggle_pause_inv g IH).
Qed.

(** ** C7: the pickup memory is cleared by the seat's next play *)

(** C7.  In every reachable state, when [attempt_play_card] accepts a
    card of seat [i] (the card is appended to the trick: a lead, a
    follow in suit, or a tochoo), seat [i] afterwards has
    [just_picked_up = false] and [avoid_suit = None]. *)
Theorem accepted_play_clears_pickup_memory (g g' : game) (i : nat) (k : Z) (c : card)
    (p' : player) :
  reachable g ->
  attempt_play_card g i k = Some g' ->
  trick_cards g' = trick_cards g ++ [(i, c)] ->
  nth_error (players g') i = Some p' ->
  just_picked_up p' = false /\ avoid_suit p' = None.
Proof.
  intros R H Ht Hp'.
  destruct (reachable_pickup_inv g R) as (Hs & _ & _ & _).
  destruct (attempt_play_card_cases g i k g' H) as (B & _ & C).
  destruct C as [(T & _)|(c' & _ & Ai & _ & _ & (p & Hp & Ap) & Lead & _)].
  - rewrite T in Ht. apply (f_equal (@length _)) in Ht.
    rewrite length_app in Ht. simpl in Ht. lia.
  - destruct (B i p' Hp') as (q & Hq & _ & Fq).
    rewrite Hp in Hq. injection Hq as <-.
    destruct (Hs i p Hp) as [V K].
    assert (J : just_picked_up p' = false).
    { destruct (required_suit g) eqn:Er.
      - destruct Fq as [[J' _]|[J' _]]; [|exact J'].
        rewrite J'. destruct (just_picked_up p) eqn:Jp; [|reflexivity].
        destruct (K Ap eq_refl) as [Rn _]. discriminate Rn.
      - exact (Lead eq_refl p' Hp'). }
    split; [exact J|].
    destruct Fq as [[J' V']|[J' V']]; [rewrite V'; apply V; congruence|exact V'].
Qed.

Lemma accepted_play_clears_pickup_memory_witness :
  exists g' p p',
    reachable game_c5 /\
    nth_error (players game_c5) 4 = Some p /\ just_picked_up p = true /\
    avoid_suit p = Some Spades /\
    attempt_play_card game_c5 4 4 = Some g' /\
    trick_cards g' = trick_cards game_c5 ++ [(4, Card R2 Hearts)] /\
    nth_error (players g') 4 = Some p' /\
    just_picked_up p' = false /\ avoid_suit p' = None.
Proof.
  pose (g' := trace_state (attempt_play_card game_c5 4 4)).
  pose (p := nth_default (new_player ""%string false) (players game_c5) 4).
  pose (p' := nth_default (new_player ""%string false) (players g') 4).
  assert (E : attempt_play_card game_c5 4 4 = Some g') by (vm_compute; reflexivity).
  assert (T : trick_cards g' = trick_cards game_c5 ++ [(4, Card R2 Hearts)])
    by (vm_compute; reflexivity).
  assert (Hp' : nth_error (players g') 4 = Some p') by (vm_compute; reflexivity).
  destruct (accepted_play_clears_pickup_memory game_c5 g' 4 4 (Card R2 Hearts) p'
              game_c5_reachable E T Hp') as [J V].
  exists g', p, p'.
  split; [exact game_c5_reachable|].
  split; [vm_compute; reflexivity|]. split; [vm_compute; reflexivity|].
  split; [vm_compute; reflexivity|].
  split; [exact E|]. split; [exact T|]. split; [exact Hp'|].
  split; [exact J|exact V].
Defined.

(** ** Lemmas on the CPU policy *)










(** ** C8: the CPU following policy *)




(** ** C10: card indices outside the hand *)

Lemma py_get_out {A} (l : list A) (k : Z) :
  (k >= Z.of_nat (length l) \/ k < - Z.of_nat (length l))%Z -> py_get l k = None.
Proof.
  intros H. unfold py_get, py_norm.
  destruct (0 <=? k)%Z eqn:E1.
  - apply Z.leb_le in E1.
    replace (k <? Z.of_nat (length l))%Z with false by (symmetry; apply Z.ltb_ge; lia).
    reflexivity.
  - apply Z.leb_gt in E1.
    replace (- Z.of_nat (length l) <=? k)%Z with false by (symmetry; apply Z.leb_gt; lia).
    reflexivity.
Qed.

(** A negative index [k] with [-len <= k < 0] reads the same position as
    [k + len]. *)
Lemma py_norm_neg_shift (len : nat) (k : Z) :
  (- Z.of_nat len <= k < 0)%Z -> py_norm len k = py_norm len (k + Z.of_nat len).
Proof.
  intros Hk. unfold py_norm.
  replace (0 <=? k)%Z with false by (symmetry; apply Z.leb_gt; lia).
  replace (- Z.of_nat len <=? k)%Z with true by (symmetry; apply Z.leb_le; lia).
  replace (0 <=? k + Z.of_nat len)%Z with true by (symmetry; apply Z.leb_le; lia).
  replace (k + Z.of_nat len <? Z.of_nat len)%Z with true by (symmetry; apply Z.ltb_lt; lia).
  rewrite Z.add_comm. reflexivity.
Qed.

(** The legality evaluator reads the card index only through [p.hand[k]]. *)
Lemma is_card_playable_norm g i p k k' :
  nth_error (players g) i = Some p ->
  py_norm (length (hand p)) k = py_norm (length (hand p)) k' ->
  is_card_playable g i k = is_card_playable g i k'.
Proof.
  intros Hp Hn. unfold is_card_playable, py_get. rewrite Hp. cbn [obind].
  rewrite Hn. reflexivity.
Qed.

(** [attempt_play_card] reads the card index only through [p.hand[k]] and
    [p.hand.pop(k)]. *)
Lemma attempt_play_card_norm g i p k k' :
  nth_error (players g) i = Some p ->
  py_norm (length (hand p)) k = py_norm (length (hand p)) k' ->
  attempt_play_card g i k = attempt_play_card g i k'.
Proof.
  intros Hp Hn. unfold attempt_play_card, play_into_trick, py_get, py_pop.
  destruct (animating g); [reflexivity|]. rewrite Hp. cbn [obind].
  rewrite Hn. reflexivity.
Qed.

(** C10 (amended).  A card index [k] is outside the hand when
    [k >= len(hand)] or [k < -len(hand)].  For such an index,
    [attempt_play_card] raises ([None]) once the animation hold, turn and
    activity guards pass; and for an active seat [is_card_playable]
    raises, except in the plain leader case (no required suit, and not the
    first move of the seat to move), where it reports the index as
    playable.  An index [k] with [-len(hand) <= k < 0] is not outside the
    hand: both methods behave exactly as for the index [k + len(hand)]. *)
Theorem out_of_range_card_index (g : game) (i : nat) (p : player) (k : Z) :
  nth_error (players g) i = Some p ->
  ((k >= Z.of_nat (length (hand p)) \/ k < - Z.of_nat (length (hand p)))%Z ->
   (animating g = false -> active_index g = Some i -> is_active p = true ->
    attempt_play_card g i k = None) /\
   (is_active p = true ->
    is_card_playable g i k =
      match required_suit g with
      | None => if first_move g && opt_nat_eqb (Some i) (active_index g) then None else Some true
      | Some _ => None
      end)) /\
  ((- Z.of_nat (length (hand p)) <= k < 0)%Z ->
   is_card_playable g i k = is_card_playable g i (k + Z.of_nat (length (hand p))) /\
   attempt_play_card g i k = attempt_play_card g i (k + Z.of_nat (length (hand p)))).
Proof.
  intros Hp. split.
  - intros Hk. pose proof (py_get_out (hand p) k Hk) as Hg. split.
    + intros Ean Hact Ha. unfold attempt_play_card.
      rewrite Ean, Hp. cbn [obind]. rewrite Hact. cbn [opt_nat_eqb].
      rewrite Nat.eqb_refl, Ha. cbn [negb]. rewrite Hg. reflexivity.
    + intros Ha. unfold is_card_playable. rewrite Hp. cbn [obind]. rewrite Ha. cbn [negb].
      destruct (required_suit g); [rewrite Hg; reflexivity|].
      destruct (first_move g && opt_nat_eqb (Some i) (active_index g)); [|reflexivity].
      rewrite Hg. reflexivity.
  - intros Hk. pose proof (py_norm_neg_shift (length (hand p)) k Hk) as Hn. split.
    + exact (is_card_playable_norm g i p _ _ Hp Hn).
    + exact (attempt_play_card_norm g i p _ _ Hp Hn).
Qed.

Lemma out_of_range_card_index_witness :
  exists p, nth_error (players game_c37) 5 = Some p /\
    (1 >= Z.of_nat (length (hand p)) \/ 1 < - Z.of_nat (length (hand p)))%Z /\
    attempt_play_card game_c37 5 1 = None /\ is_card_playable game_c37 5 1 = None.
Proof.
  pose (p := nth_default (new_player ""%string false) (players game_c37) 5).
  assert (Hp : nth_error (players game_c37) 5 = Some p) by (vm_compute; reflexivity).
  assert (Hk : (1 >= Z.of_nat (length (hand p)) \/ 1 < - Z.of_nat (length (hand p)))%Z)
    by (left; vm_compute; discriminate).
  destruct (proj1 (out_of_range_card_index game_c37 5 p 1 Hp) Hk) as [A P].
  assert (Ha : is_active p = true) by (vm_compute; reflexivity).
  exists p. split; [exact Hp|]. split; [exact Hk|]. split.
  - apply A; [vm_compute; reflexivity|vm_compute; reflexivity|exact Ha].
  - rewrite (P Ha). vm_compute. reflexivity.
Defined.

(** C10 as stated fails for negative indices: seat 3 of [game_b95] is to
    move with thirteen cards while clubs are required.  The index [-1] is
    outside [0..12], yet the legality evaluator accepts it (it reads the
    last card, the queen of clubs, while index [0], the king of spades, is
    rejected) and [attempt_play_card] plays that queen. *)
Lemma negative_card_index_is_played :
  length (hand_of game_b95 3) = 13 /\ active_index game_b95 = Some 3 /\
  is_card_playable game_b95 3 (-1) = Some true /\
  is_card_playable game_b95 3 0 = Some false /\
  exists g', attempt_play_card game_b95 3 (-1) = Some g' /\
    trick_cards g' = trick_cards game_b95 ++ [(3, Card RQ Clubs)] /\
    hand_of g' 3 = firstn 12 (hand_of game_b95 3).
Proof.
  split; [vm_compute; reflexivity|]. split; [vm_compute; reflexivity|].
  split; [vm_compute; reflexivity|]. split; [vm_compute; reflexivity|].
  eexists. split; [vm_compute; reflexivity|]. split; vm_compute; reflexivity.
Qed.

(** ** Card and ranking invariants *)

Lemma map_upd_nth_same {A B} (f : A -> B) (l : list A) i x y :
  nth_error l i = Some x -> f y = f x -> map f (upd_nth l i y) = map f l.
Proof.
  revert i; induction l as [|h t IH]; intros [|i] Hx Hf; simpl in *; try discriminate.
  - injection Hx as ->. rewrite Hf. reflexivity.
  - rewrite (IH i Hx Hf). reflexivity.
Qed.

Lemma in_upd_nth {A} (l : list A) i x y : In y (upd_nth l i x) -> In y l \/ y = x.
Proof.
  revert i; induction l as [|h t IH]; intros [|i] H; simpl in *; auto.
  - destruct H as [<-|H]; auto.
  - destruct H as [<-|H]; auto. destruct (IH i H); auto.
Qed.

Lemma count_concat_upd (ps : list player) i p q x :
  nth_error ps i = Some p ->
  count_occ card_eq_dec (concat (map hand (upd_nth ps i q))) x +
  count_occ card_eq_dec (hand p) x =
  count_occ card_eq_dec (concat (map hand ps)) x +
  count_occ card_eq_dec (hand q) x.
Proof.
  revert i; induction ps as [|h t IH]; intros [|i] Hp; simpl in *; try discriminate.
  - injection Hp as ->. rewrite !count_occ_app. lia.
  - rewrite !count_occ_app. specialize (IH i Hp). lia.
Qed.

Lemma py_pop_split {A} (l : list A) k y rest :
  py_pop l k = Some (y, rest) -> exists l1 l2, l = l1 ++ y :: l2 /\ rest = l1 ++ l2.
Proof.
  unfold py_pop. destruct (py_norm (length l) k) as [n|]; cbn [obind]; [|discriminate].
  destruct (nth_error l n) as [z|] eqn:E; cbn [obind]; [|discriminate].
  intros H. injection H as <- <-.
  destruct (nth_error_split l n E) as (l1 & l2 & -> & Hl).
  exists l1, l2. split; [reflexivity|]. subst n.
  clear E. induction l1 as [|a t IH]; simpl; [reflexivity|]. rewrite IH. reflexivity.
Qed.

Lemma strongly_sorted_remove {A} (R : A -> A -> Prop) l1 y l2 :
  StronglySorted R (l1 ++ y :: l2) -> StronglySorted R (l1 ++ l2).
Proof.
  induction l1 as [|a t IH]; simpl; intros H.
  - exact (proj1 (StronglySorted_inv H)).
  - destruct (StronglySorted_inv H) as [H1 H2]. constructor; [exact (IH H1)|].
    apply Forall_app in H2 as [F1 F2]. apply Forall_app. split; [exact F1|].
    exact (Forall_inv_tail F2).
Qed.

Lemma card_key_le_total a b : card_key_le a b = false -> card_key_le b a = true.
Proof.
  unfold card_key_le. intros H. apply orb_false_iff in H as [H1 H2].
  apply Nat.ltb_ge in H1. apply orb_true_iff.
  destruct (Nat.eq_dec (suit_index (suit a)) (suit_index (suit b))) as [E|E].
  - right. rewrite E, Nat.eqb_refl in H2. simpl in H2. apply Nat.leb_gt in H2.
    rewrite E, Nat.eqb_refl. simpl. apply Nat.leb_le. lia.
  - left. apply Nat.ltb_lt. lia.
Qed.

Lemma card_key_le_trans a b c :
  card_key_le a b = true -> card_key_le b c = true -> card_key_le a c = true.
Proof.
  unfold card_key_le. rewrite !orb_true_iff, !andb_true_iff, !Nat.ltb_lt, !Nat.eqb_eq, !Nat.leb_le.
  intros H1 H2. lia.
Qed.

Lemma insert_card_sorted c l :
  StronglySorted key_le l ->
  StronglySorted key_le (insert_card c l).
Proof.
  induction l as [|h t IH]; simpl; intros H.
  - constructor; constructor.
  - destruct (card_key_le c h) eqn:E.
    + constructor; [exact H|]. constructor; [exact E|].
      unfold key_le in *.
      destruct (StronglySorted_inv H) as [_ F].
      eapply Forall_impl; [|exact F]. intros x Hx. exact (card_key_le_trans _ _ _ E Hx).
    + destruct (StronglySorted_inv H) as [H1 F]. constructor; [exact (IH H1)|].
      apply (Permutation_Forall (Permutation_sym (insert_card_perm c t))).
      constructor; [exact (card_key_le_total _ _ E)|exact F].
Qed.

Lemma sort_hand_sorted l :
  StronglySorted key_le (sort_hand l).
Proof.
  induction l as [|c t IH]; simpl; [constructor|]. exact (insert_card_sorted c _ IH).
Qed.

Lemma assign_ranks_hands cond ps : forall ra fo,
  map hand (fst (fst (assign_ranks cond ps ra fo))) = map hand ps.
Proof.
  induction ps as [|p t IH]; intros ra fo; simpl; [reflexivity|].
  destruct (cond p).
  - specialize (IH (S ra) (fo ++ [(name p, S ra)])).
    destruct (assign_ranks cond t (S ra) (fo ++ [(name p, S ra)])) as [[t' ra'] fo'].
    simpl in *. rewrite IH. reflexivity.
  - specialize (IH ra fo).
    destruct (assign_ranks cond t ra fo) as [[t' ra'] fo'].
    simpl in *. rewrite IH. reflexivity.
Qed.

Lemma run_rank_loop_table cond g : table (run_rank_loop cond g) = table g.
Proof.
  unfold run_rank_loop, table.
  pose proof (assign_ranks_hands cond (players g) (ranks_assigned g) (finish_order g)) as H.
  destruct (assign_ranks cond (players g) (ranks_assigned g) (finish_order g)) as [[ps ra] fo].
  simpl in *. rewrite H. reflexivity.
Qed.

Lemma check_game_end_table g : table (check_game_end g) = table g.
Proof.
  unfold check_game_end. destruct (_ <=? 1); [|reflexivity].
  exact (run_rank_loop_table _ g).
Qed.

Lemma mark_finished_table g i : table (mark_finished g i) = table g.
Proof.
  unfold mark_finished, table. destruct (nth_error (players g) i) as [p|] eqn:Hp; [|reflexivity].
  cbn. rewrite (map_upd_nth_same hand _ _ p); [reflexivity|exact Hp|reflexivity].
Qed.

Lemma clear_pickup_flag_table g i : table (clear_pickup_flag g i) = table g.
Proof.
  unfold clear_pickup_flag, table. destruct (nth_error (players g) i) as [p|] eqn:Hp; [|reflexivity].
  destruct (just_picked_up p); [|reflexivity].
  cbn. rewrite (map_upd_nth_same hand _ _ p); [reflexivity|exact Hp|reflexivity].
Qed.

Lemma cards_inv_table g g' : table g' = table g -> cards_inv g -> cards_inv g'.
Proof.
  unfold table, cards_inv, all_cards. intros E [P S].
  injection E as Eh Et Ed. rewrite Eh, Et, Ed. split; [exact P|].
  intros p' Hp'. assert (Hin : In (hand p') (map hand (players g))) by (rewrite <- Eh; apply in_map; exact Hp').
  apply in_map_iff in Hin as (p & Hh & Hp). rewrite <- Hh. exact (S p Hp).
Qed.

Lemma play_into_trick_cards g i p k c g3 :
  nth_error (players g) i = Some p ->
  play_into_trick g i p k = Some (c, g3) -> cards_inv g -> cards_inv g3.
Proof.
  intros Hp H [P S]. unfold play_into_trick in H.
  destruct (py_pop (hand p) k) as [[c' rest]|] eqn:Epop; cbn [obind] in H; [|discriminate H].
  injection H as <- <-.
  destruct (py_pop_split _ _ _ _ Epop) as (l1 & l2 & Eh & Er).
  assert (C : forall x, count_occ card_eq_dec (hand p) x =
                        count_occ card_eq_dec [c'] x + count_occ card_eq_dec rest x).
  { intros x. rewrite <- count_occ_app, Eh, Er.
    apply Permutation_count_occ. simpl. symmetry. apply Permutation_middle. }
  split.
  - refine (Permutation_trans _ P). apply (Permutation_count_occ card_eq_dec). intros x.
    unfold all_cards. cbn [players trick_cards discard_pile set_animating set_trick_cards set_players].
    rewrite map_app, !count_occ_app.
    pose proof (count_concat_upd (players g) i p (set_hand p rest) x Hp) as U.
    change (hand (set_hand p rest)) with rest in U. rewrite C in U.
    change (map snd [(i, c')]) with [c']. lia.
  - cbn [players set_animating set_trick_cards set_players]. intros q Hq.
    destruct (in_upd_nth _ _ _ _ Hq) as [Hq' | ->]; [exact (S q Hq')|].
    cbn [hand set_hand]. rewrite Er. apply (strongly_sorted_remove _ l1 c' l2).
    rewrite <- Eh. exact (S p (nth_error_In _ _ Hp)).
Qed.

Lemma attempt_play_card_table g i k g' :
  attempt_play_card g i k = Some g' ->
  table g' = table g \/
  exists p c g3, nth_error (players g) i = Some p /\
    play_into_trick g i p k = Some (c, g3) /\ table g' = table g3.
Proof.
  intros H. unfold attempt_play_card in H.
  destruct (animating g); [injection H as <-; left; reflexivity|].
  destruct (nth_error (players g) i) as [p|] eqn:Hp; cbn [obind] in H; [|discriminate H].
  destruct (negb (opt_nat_eqb (Some i) (active_index g))); [injection H as <-; left; reflexivity|].
  destruct (negb (is_active p)); [injection H as <-; left; reflexivity|].
  destruct (py_get (hand p) k) as [card|]; cbn [obind] in H; [|discriminate H].
  destruct (required_suit g) as [rs|] eqn:Er; cbn beta iota zeta in H.
  - destruct (has_suit (hand p) rs && negb (suit_eqb (suit card) rs));
      [injection H as <-; left; reflexivity|].
    destruct (play_into_trick g i p k) as [[c g3]|] eqn:Ep; cbn [obind] in H; [|discriminate H].
    right. exists p, c, g3. split; [first [exact Hp|reflexivity]|]. split; [exact Ep|].
    destruct (negb (suit_eqb (suit c) rs) && negb (has_suit (hand p) rs)).
    + injection H as <-. exact (clear_pickup_flag_table g3 i).
    + destruct (_ && _); injection H as <-; [reflexivity|].
      exact (clear_pickup_flag_table _ i).
  - destruct (_ && negb (is_ace_of_spades card)); [injection H as <-; left; reflexivity|].
    destruct (play_into_trick g i p k) as [[c g3]|] eqn:Ep; cbn [obind] in H; [|discriminate H].
    right. exists p, c, g3. split; [first [exact Hp|reflexivity]|]. split; [exact Ep|].
    injection H as <-. rewrite clear_pickup_flag_table.
    assert (T4 : table (if first_move g3 then set_first_move g3 false else g3) = table g3)
      by (destruct (first_move g3); reflexivity).
    set (g4 := if first_move g3 then set_first_move g3 false else g3) in *.
    set (g6 := set_active_index (set_required_suit g4 (Some (suit c)))
                 (next_active_index (players (set_required_suit g4 (Some (suit c)))) i)).
    assert (T6 : table g6 = table g3) by exact T4.
    destruct (_ =? 0); [|exact T6].
    rewrite check_game_end_table, mark_finished_table. exact T6.
Qed.

Lemma firstn_plus {A} (l : list A) a b : firstn (a + b) l = firstn a l ++ firstn b (skipn a l).
Proof.
  revert l; induction a as [|a IH]; intros l; simpl; [reflexivity|].
  destruct l as [|x t]; simpl; [destruct b; reflexivity|]. rewrite IH. reflexivity.
Qed.

Lemma deal_hands_cards ps : forall counts deck ps',
  deal_hands ps counts deck = Some ps' ->
  Permutation (concat (map hand ps')) (firstn (list_sum (firstn (length ps) counts)) deck) /\
  (forall p, In p ps' -> StronglySorted key_le (hand p)).
Proof.
  induction ps as [|q t IH]; intros counts deck ps' H; simpl in H.
  - injection H as <-. split; [reflexivity|intros p []].
  - destruct counts as [|c cs]; cbn [obind] in H; [discriminate H|].
    destruct (length deck <? c); [discriminate H|].
    destruct (deal_hands t _ _) as [rest|] eqn:Er; cbn [obind] in H; [|discriminate H].
    injection H as <-. destruct (IH _ _ _ Er) as [P S]. split.
    + simpl. rewrite firstn_plus. apply Permutation_app; [apply sort_hand_perm|exact P].
    + intros p [<-|Hp]; [apply sort_hand_sorted|exact (S p Hp)].
Qed.

Lemma deal_counts_sum_aux b e m :
  list_sum (map (fun i => if i <? e then S b else b) (seq 0 m)) = m * b + Nat.min e m.
Proof.
  induction m as [|m IH]; [simpl; lia|].
  rewrite seq_S, map_app, list_sum_app, IH. simpl.
  destruct (Nat.ltb_spec m e); lia.
Qed.

Lemma deal_counts_length L n : length (deal_counts L n) = n.
Proof. unfold deal_counts. rewrite length_map, length_seq. reflexivity. Qed.

Lemma deal_counts_sum L n : n <> 0 -> list_sum (deal_counts L n) = L.
Proof.
  intros Hn. unfold deal_counts. rewrite deal_counts_sum_aux.
  pose proof (Nat.div_mod_eq L n) as D. pose proof (Nat.mod_upper_bound L n Hn) as M.
  lia.
Qed.

Lemma start_game_cards deck rnd g g' :
  Permutation deck full_deck -> start_game deck rnd g = Some g' -> cards_inv g'.
Proof.
  intros Pd H. unfold start_game in H.
  destruct (length (players g) =? 0) eqn:En; [discriminate H|].
  apply Nat.eqb_neq in En.
  destruct (deal_hands _ _ _) as [ps|] eqn:Ed; cbn [obind] in H; [|discriminate H].
  injection H as <-. destruct (deal_hands_cards _ _ _ _ Ed) as [P S].
  rewrite (firstn_all2 (deal_counts (length deck) (length (players g)))) in P
    by (rewrite deal_counts_length; lia).
  rewrite deal_counts_sum in P by exact En. rewrite firstn_all in P.
  split; [|exact S]. unfold all_cards. cbn. rewrite !app_nil_r.
  exact (Permutation_trans P Pd).
Qed.

Lemma finish_resolution_table g1 :
  table (finish_resolution g1) = (map hand (players g1), [], discard_pile g1).
Proof.
  unfold finish_resolution.
  set (g2 := set_required_suit (set_trick_cards g1 []) None).
  set (f := fun p => is_active p && (length (hand p) =? 0)).
  assert (T : table (check_game_end (run_rank_loop f g2)) = (map hand (players g1), [], discard_pile g1))
    by (rewrite check_game_end_table, run_rank_loop_table; reflexivity).
  destruct (gstate_eqb _ Finished); exact T.
Qed.

Lemma actually_resolve_trick_cards shuf b g g' :
  (forall l, Permutation (shuf l) l) ->
  actually_resolve_trick shuf (Some b) g = Some g' -> cards_inv g -> cards_inv g'.
Proof.
  intros Hsh H [P S]. unfold actually_resolve_trick in H. cbn beta iota zeta in H.
  destruct (trick_taker g) as [r|]; cbn [obind] in H; [|destruct b; discriminate H].
  destruct b.
  - cbn [obind] in H. unfold tochoo_pickup in H. destruct (nth_error (players g) r) as [p|] eqn:Hp;
      cbn [obind] in H; [|discriminate H].
    injection H as <-.
    set (p3 := set_avoid_suit (set_just_picked_up (pick_up p (shuf (map snd (trick_cards g))))
                 true) (last_trick_suit g)).
    apply (cards_inv_table (set_active_index (set_leader_index (set_players (set_trick_cards g [])
             (upd_nth (players g) r p3)) r) (Some r))).
    { rewrite finish_resolution_table. reflexivity. }
    split.
    + refine (Permutation_trans _ P). apply (Permutation_count_occ card_eq_dec). intros x.
      unfold all_cards. cbn [players trick_cards discard_pile set_active_index set_leader_index
                             set_players set_trick_cards map].
      rewrite !count_occ_app.
      pose proof (count_concat_upd (players g) r p p3 x Hp) as U.
      assert (H3 : count_occ card_eq_dec (hand p3) x =
                   count_occ card_eq_dec (hand p) x +
                   count_occ card_eq_dec (map snd (trick_cards g)) x).
      { rewrite <- count_occ_app. apply Permutation_count_occ.
        unfold p3. cbn [hand set_avoid_suit set_just_picked_up pick_up set_hand].
        rewrite sort_hand_perm. apply Permutation_app_head. apply Hsh. }
      simpl count_occ at 2. lia.
    + cbn [players set_active_index set_leader_index set_players set_trick_cards].
      intros q Hq. destruct (in_upd_nth _ _ _ _ Hq) as [Hq' | ->]; [exact (S q Hq')|].
      unfold p3. cbn [hand set_avoid_suit set_just_picked_up pick_up set_hand].
      apply sort_hand_sorted.
  - cbn [obind] in H. injection H as <-.
    apply (cards_inv_table (set_trick_cards (clean_discard g r) [])).
    { rewrite finish_resolution_table. reflexivity. }
    split; [|exact S].
    refine (Permutation_trans _ P). unfold all_cards. cbn.
    apply Permutation_app_head. apply Permutation_app_comm.
Qed.

Lemma finish_animation_table g : table (finish_animation g) = table g.
Proof.
  unfold finish_animation. destruct (animating g); [|reflexivity].
  cbn. destruct (resolve_after_animation g) as [b|]; [|reflexivity].
  unfold resolve_trick. cbn. destruct (trick_cards g); reflexivity.
Qed.

Lemma toggle_pause_table g : table (toggle_pause g) = table g.
Proof.
  unfold toggle_pause. destruct (state g); try reflexivity;
    destruct (paused g); cbn; try reflexivity; destruct (showing_trick g); reflexivity.
Qed.

Lemma reachable_cards_inv g : reachable g -> cards_inv g.
Proof.
  induction 1 as [ps deck rnd g Pd Hs|g i k g' _ IH _ _ H|g _ IH _|shuf g g' _ IH _ _ Hsh H|g _ IH].
  - exact (start_game_cards _ _ _ _ Pd Hs).
  - destruct (attempt_play_card_table g i k g' H) as [T|(p & c & g3 & Hp & Ep & T)].
    + exact (cards_inv_table _ _ T IH).
    + exact (cards_inv_table _ _ T (play_into_trick_cards _ _ _ _ _ _ Hp Ep IH)).
  - exact (cards_inv_table _ _ (finish_animation_table g) IH).
  - exact (actually_resolve_trick_cards shuf _ g g' Hsh H IH).
  - exact (cards_inv_table _ _ (toggle_pause_table g) IH).
Qed.

Lemma flags_filter_eq ps : forall ps',
  map flags ps' = map flags ps ->
  length (filter (fun p => negb (is_active p)) ps') = length (filter (fun p => negb (is_active p)) ps) /\
  count_active_players ps' = count_active_players ps.
Proof.
  unfold count_active_players.
  induction ps as [|p t IH]; intros [|p' t'] E; simpl in E; try discriminate; [split; reflexivity|].
  injection E as Ea Er Et. destruct (IH t' Et) as [A B]. simpl. rewrite Ea. destruct (is_active p); simpl; lia.
Qed.

Lemma count_active_zero ps :
  count_active_players ps = 0 <-> forall p, In p ps -> is_active p = false.
Proof.
  unfold count_active_players. rewrite length_zero_iff_nil. split.
  - intros H p Hp. destruct (is_active p) eqn:E; [|reflexivity].
    assert (In p (filter is_active ps)) by (apply filter_In; auto). rewrite H in H0. destruct H0.
  - intros H. destruct (filter is_active ps) as [|x l] eqn:E; [reflexivity|].
    assert (Hx : In x (filter is_active ps)) by (rewrite E; left; reflexivity).
    apply filter_In in Hx as [Hx Ax]. rewrite (H x Hx) in Ax. discriminate Ax.
Qed.

Lemma rank_inv_view g g' : rank_view g' = rank_view g -> rank_inv g -> rank_inv g'.
Proof.
  unfold rank_view. intros E (H1 & H2 & H3 & H4). injection E as Ef Er Eo Es.
  destruct (flags_filter_eq _ _ Ef) as [F C].
  split; [|split; [|split]].
  - intros p' Hp'. assert (Hin : In (flags p') (map flags (players g))) by (rewrite <- Ef; apply in_map; exact Hp').
    apply in_map_iff in Hin as (p & Hf & Hp). unfold flags in Hf. injection Hf as Ha Hr.
    rewrite <- Ha, <- Hr. exact (H1 p Hp).
  - rewrite Eo, Er. exact H2.
  - rewrite Er, F. exact H3.
  - rewrite Es, C. exact H4.
Qed.

Lemma count_filter_upd (f : player -> bool) ps i p q :
  nth_error ps i = Some p ->
  length (filter f (upd_nth ps i q)) + (if f p then 1 else 0) =
  length (filter f ps) + (if f q then 1 else 0).
Proof.
  revert i; induction ps as [|h t IH]; intros [|i] Hp; simpl in *; try discriminate.
  - injection Hp as ->. destruct (f p), (f q); simpl; lia.
  - specialize (IH i Hp). destruct (f h); simpl; lia.
Qed.

Lemma assign_ranks_rank cond ps : forall ra fo,
  (forall p, In p ps -> cond p = true -> is_active p = true) ->
  exists k,
    snd (fst (assign_ranks cond ps ra fo)) = ra + k /\
    map snd (snd (assign_ranks cond ps ra fo)) = map snd fo ++ seq (S ra) k /\
    length (filter (fun p => negb (is_active p)) (fst (fst (assign_ranks cond ps ra fo)))) =
      length (filter (fun p => negb (is_active p)) ps) + k /\
    (forall p', In p' (fst (fst (assign_ranks cond ps ra fo))) ->
       (In p' ps /\ cond p' = false) \/ (is_active p' = false /\ finished_rank p' <> None)).
Proof.
  induction ps as [|p t IH]; intros ra fo Hc; simpl.
  - exists 0. rewrite app_nil_r. split; [lia|]. split; [reflexivity|]. split; [lia|].
    intros p' [].
  - assert (Hc' : forall q, In q t -> cond q = true -> is_active q = true) by (intros q Hq; apply Hc; right; exact Hq).
    destruct (cond p) eqn:Ep.
    + destruct (IH (S ra) (fo ++ [(name p, S ra)]) Hc') as (k & Hr & Ho & Hf & Hm).
      destruct (assign_ranks cond t (S ra) (fo ++ [(name p, S ra)])) as [[t' ra'] fo'].
      simpl in *. exists (S k).
      split; [lia|]. split; [rewrite Ho, map_app; simpl; rewrite <- app_assoc; reflexivity|].
      split; [rewrite Hf, (Hc p (or_introl eq_refl) Ep); simpl; lia|].
      intros p' [<-|Hp'].
      * right. split; [reflexivity|cbn; discriminate].
      * destruct (Hm p' Hp') as [[Hin Hf']|Hn]; [left; auto|right; exact Hn].
    + destruct (IH ra fo Hc') as (k & Hr & Ho & Hf & Hm).
      destruct (assign_ranks cond t ra fo) as [[t' ra'] fo'].
      simpl in *. exists k.
      split; [exact Hr|]. split; [exact Ho|].
      split; [destruct (is_active p); simpl; lia|].
      intros p' [<-|Hp'].
      * left. auto.
      * destruct (Hm p' Hp') as [[Hin Hf']|Hn]; [left; auto|right; exact Hn].
Qed.

Lemma run_rank_loop_rank cond g :
  (forall p, In p (players g) -> cond p = true -> is_active p = true) ->
  rank_inv g ->
  rank_inv (run_rank_loop cond g) /\
  (forall p', In p' (players (run_rank_loop cond g)) ->
     (In p' (players g) /\ cond p' = false) \/ is_active p' = false) /\
  state (run_rank_loop cond g) = state g.
Proof.
  intros Hc (H1 & H2 & H3 & H4). unfold run_rank_loop.
  destruct (assign_ranks_rank cond (players g) (ranks_assigned g) (finish_order g) Hc)
    as (k & Hr & Ho & Hf & Hm).
  destruct (assign_ranks cond (players g) (ranks_assigned g) (finish_order g)) as [[ps ra] fo].
  simpl in *.
  assert (Hm' : forall p', In p' ps -> (In p' (players g) /\ cond p' = false) \/ is_active p' = false)
    by (intros p' Hp'; destruct (Hm p' Hp') as [A|[A _]]; auto).
  split; [|split; [exact Hm'|reflexivity]].
  split; [|split; [|split]]; cbn.
  - intros p' Hp'. destruct (Hm p' Hp') as [[Hin _]|[Ha Hr']]; [exact (H1 p' Hin)|].
    rewrite Ha. split; [discriminate|intros E; contradiction].
  - rewrite Ho, H2, Hr. replace (S (ranks_assigned g)) with (1 + ranks_assigned g) by lia.
    rewrite <- seq_app. reflexivity.
  - lia.
  - intros Es. apply count_active_zero. pose proof (proj1 (count_active_zero _) (H4 Es)) as H5.
    intros p' Hp'. destruct (Hm' p' Hp') as [[Hin _]|A]; [exact (H5 p' Hin)|exact A].
Qed.

Lemma check_game_end_rank g : rank_inv g -> rank_inv (check_game_end g).
Proof.
  intros Inv. unfold check_game_end. destruct (_ <=? 1); [|exact Inv].
  set (cond := fun p => is_active p && match finished_rank p with None => true | Some _ => false end).
  destruct Inv as (H1 & H2 & H3 & H4).
  destruct (run_rank_loop_rank cond g) as ((R1 & R2 & R3 & _) & Hm & _);
    [intros p _ Hp; unfold cond in Hp; apply andb_true_iff in Hp; apply Hp|split; auto|].
  split; [exact R1|]. split; [exact R2|]. split; [exact R3|].
  intros _. apply count_active_zero. intros p' Hp'.
  destruct (Hm p' Hp') as [[Hin Hc]|A]; [|exact A].
  unfold cond in Hc. destruct (is_active p') eqn:Ea; [|reflexivity].
  apply (H1 p' Hin) in Ea. rewrite Ea in Hc. discriminate Hc.
Qed.

Lemma mark_finished_rank g i p :
  nth_error (players g) i = Some p -> is_active p = true ->
  rank_inv g -> rank_inv (mark_finished g i).
Proof.
  intros Hp Ha (H1 & H2 & H3 & H4). unfold rank_inv, mark_finished. rewrite Hp.
  cbn [players finish_order ranks_assigned state set_finish_order set_ranks_assigned set_players].
  set (q := set_is_active (set_finished_rank p (Some (S (ranks_assigned g)))) false).
  split; [|split; [|split]].
  - intros p' Hp'. destruct (in_upd_nth _ _ _ _ Hp') as [Hin | ->]; [exact (H1 p' Hin)|].
    cbn. split; discriminate.
  - rewrite map_app, H2, seq_S. reflexivity.
  - pose proof (count_filter_upd (fun p => negb (is_active p)) (players g) i p q Hp) as C.
    cbn beta in C. rewrite Ha in C. change (negb (is_active q)) with true in C. cbn in C.
    unfold q in *. lia.
  - intros Es. pose proof (proj1 (count_active_zero _) (H4 Es)) as H5.
    rewrite (H5 p (nth_error_In _ _ Hp)) in Ha. discriminate Ha.
Qed.

Lemma set_state_rank g s : s <> Finished -> rank_inv g -> rank_inv (set_state g s).
Proof.
  intros Hs (H1 & H2 & H3 & H4). split; [exact H1|]. split; [exact H2|]. split; [exact H3|].
  cbn. intros E. contradiction.
Qed.

Lemma clear_pickup_flag_view g i : rank_view (clear_pickup_flag g i) = rank_view g.
Proof.
  unfold clear_pickup_flag, rank_view. destruct (nth_error (players g) i) as [p|] eqn:Hp; [|reflexivity].
  destruct (just_picked_up p); [|reflexivity].
  cbn. rewrite (map_upd_nth_same flags _ _ p); [reflexivity|exact Hp|reflexivity].
Qed.

Lemma play_into_trick_rank g i p k c g3 :
  nth_error (players g) i = Some p ->
  play_into_trick g i p k = Some (c, g3) ->
  rank_view g3 = rank_view g /\
  exists q, nth_error (players g3) i = Some q /\ is_active q = is_active p.
Proof.
  intros Hp H. unfold play_into_trick in H.
  destruct (py_pop (hand p) k) as [[c' rest]|]; cbn [obind] in H; [|discriminate H].
  injection H as <- <-. split.
  - unfold rank_view. cbn. rewrite (map_upd_nth_same flags _ _ p); [reflexivity|exact Hp|reflexivity].
  - exists (set_hand p rest). cbn. split; [|reflexivity].
    apply nth_error_upd_nth_same. apply nth_error_Some. congruence.
Qed.

Lemma attempt_play_card_rank g i k g' :
  attempt_play_card g i k = Some g' -> rank_inv g -> rank_inv g'.
Proof.
  intros H Inv. unfold attempt_play_card in H.
  destruct (animating g); [injection H as <-; exact Inv|].
  destruct (nth_error (players g) i) as [p|] eqn:Hp; cbn [obind] in H; [|discriminate H].
  destruct (negb (opt_nat_eqb (Some i) (active_index g))); [injection H as <-; exact Inv|].
  destruct (is_active p) eqn:Ea; cbn [negb] in H; [|injection H as <-; exact Inv].
  destruct (py_get (hand p) k) as [card|]; cbn [obind] in H; [|discriminate H].
  destruct (required_suit g) as [rs|] eqn:Er; cbn beta iota zeta in H.
  - destruct (has_suit (hand p) rs && negb (suit_eqb (suit card) rs));
      [injection H as <-; exact Inv|].
    destruct (play_into_trick g i p k) as [[c g3]|] eqn:Ep; cbn [obind] in H; [|discriminate H].
    destruct (play_into_trick_rank g i p k c g3 Hp Ep) as [V3 _].
    pose proof (rank_inv_view _ _ V3 Inv) as I3.
    destruct (negb (suit_eqb (suit c) rs) && negb (has_suit (hand p) rs)).
    + injection H as <-. apply (rank_inv_view g3); [|exact I3].
      exact (clear_pickup_flag_view g3 i).
    + destruct (_ && _); injection H as <-; [exact I3|].
      apply (rank_inv_view g3); [|exact I3].
      exact (clear_pickup_flag_view _ i).
  - destruct (_ && negb (is_ace_of_spades card)); [injection H as <-; exact Inv|].
    destruct (play_into_trick g i p k) as [[c g3]|] eqn:Ep; cbn [obind] in H; [|discriminate H].
    destruct (play_into_trick_rank g i p k c g3 Hp Ep) as [V3 (q & Hq & Aq)].
    pose proof (rank_inv_view _ _ V3 Inv) as I3.
    injection H as <-. eapply rank_inv_view; [apply clear_pickup_flag_view|].
    assert (V4 : rank_view (if first_move g3 then set_first_move g3 false else g3) = rank_view g3)
      by (destruct (first_move g3); reflexivity).
    assert (P4 : players (if first_move g3 then set_first_move g3 false else g3) = players g3)
      by (destruct (first_move g3); reflexivity).
    set (g4 := if first_move g3 then set_first_move g3 false else g3) in *.
    set (g6 := set_active_index (set_required_suit g4 (Some (suit c)))
                 (next_active_index (players (set_required_suit g4 (Some (suit c)))) i)).
    assert (I6 : rank_inv g6) by exact (rank_inv_view _ _ V4 I3).
    destruct (_ =? 0); [|exact I6].
    apply check_game_end_rank. apply (mark_finished_rank g6 i q); [|congruence|exact I6].
    unfold g6. cbn. rewrite P4. exact Hq.
Qed.

Lemma deal_hands_flags ps : forall counts deck ps',
  deal_hands ps counts deck = Some ps' ->
  length ps' = length ps /\ forall p, In p ps' -> is_active p = true /\ finished_rank p = None.
Proof.
  induction ps as [|q t IH]; intros counts deck ps' H; simpl in H.
  - injection H as <-. split; [reflexivity|intros p []].
  - destruct counts as [|c cs]; cbn [obind] in H; [discriminate H|].
    destruct (length deck <? c); [discriminate H|].
    destruct (deal_hands t _ _) as [rest|] eqn:Er; cbn [obind] in H; [|discriminate H].
    injection H as <-. destruct (IH _ _ _ Er) as [L F]. split; [simpl; rewrite L; reflexivity|].
    intros p [<-|Hp]; [split; reflexivity|exact (F p Hp)].
Qed.

Lemma start_game_rank deck rnd g g' : start_game deck rnd g = Some g' -> rank_inv g'.
Proof.
  intros H. unfold start_game in H.
  destruct (length (players g) =? 0); [discriminate H|].
  destruct (deal_hands _ _ _) as [ps|] eqn:Ed; cbn [obind] in H; [|discriminate H].
  injection H as <-. destruct (deal_hands_flags _ _ _ _ Ed) as [_ F].
  assert (Z0 : filter (fun p => negb (is_active p)) ps = []).
  { destruct (filter (fun p => negb (is_active p)) ps) as [|x l] eqn:E; [reflexivity|].
    assert (Hx : In x (filter (fun p => negb (is_active p)) ps)) by (rewrite E; left; reflexivity).
    apply filter_In in Hx as [Hx Ax]. rewrite (proj1 (F x Hx)) in Ax. discriminate Ax. }
  split; [|split; [|split]]; cbn.
  - intros p Hp. destruct (F p Hp) as [A R]. rewrite A, R. split; reflexivity.
  - reflexivity.
  - rewrite Z0. reflexivity.
  - discriminate.
Qed.

Lemma finish_animation_rank g : rank_inv g -> state g <> Finished -> rank_inv (finish_animation g).
Proof.
  intros Inv Hs. unfold finish_animation. destruct (animating g); [|exact Inv].
  cbn. destruct (resolve_after_animation g) as [b|]; [|exact Inv].
  unfold resolve_trick. cbn. destruct (trick_cards g); [exact Inv|].
  apply set_state_rank; [discriminate|exact Inv].
Qed.

Lemma toggle_pause_rank g : rank_inv g -> rank_inv (toggle_pause g).
Proof.
  intros Inv. unfold toggle_pause. destruct (state g); try exact Inv;
    destruct (paused g); cbn; apply set_state_rank; try exact Inv; try discriminate;
    destruct (showing_trick g); discriminate.
Qed.

Lemma finish_resolution_rank g1 : rank_inv g1 -> rank_inv (finish_resolution g1).
Proof.
  intros Inv. unfold finish_resolution.
  set (g2 := set_required_suit (set_trick_cards g1 []) None).
  set (f := fun p => is_active p && (length (hand p) =? 0)).
  assert (I3 : rank_inv (run_rank_loop f g2)).
  { apply run_rank_loop_rank; [|exact Inv].
    intros p _ Hp. unfold f in Hp. apply andb_true_iff in Hp. apply Hp. }
  pose proof (check_game_end_rank _ I3) as I4.
  set (g4 := check_game_end (run_rank_loop f g2)) in *.
  destruct (gstate_eqb (state g4) Finished) eqn:E; cbn [state set_last_trick_suit
    set_pending_tochoo set_last_played_cards set_showing_trick]; rewrite E;
    [exact I4|apply set_state_rank; [discriminate|exact I4]].
Qed.

Lemma actually_resolve_trick_rank shuf b g g' :
  actually_resolve_trick shuf (Some b) g = Some g' -> rank_inv g -> rank_inv g'.
Proof.
  intros H Inv. unfold actually_resolve_trick in H. cbn beta iota zeta in H.
  destruct (trick_taker g) as [r|]; cbn [obind] in H; [|destruct b; discriminate H].
  destruct b.
  - cbn [obind] in H. unfold tochoo_pickup in H.
    destruct (nth_error (players g) r) as [p|] eqn:Hp; cbn [obind] in H; [|discriminate H].
    injection H as <-. apply finish_resolution_rank. apply (rank_inv_view g); [|exact Inv].
    unfold rank_view. cbn. rewrite (map_upd_nth_same flags _ _ p); [reflexivity|exact Hp|reflexivity].
  - cbn [obind] in H. injection H as <-. apply finish_resolution_rank. exact Inv.
Qed.

Lemma reachable_rank_inv g : reachable g -> rank_inv g.
Proof.
  induction 1 as [ps deck rnd g Pd Hs|g i k g' _ IH _ _ H|g _ IH Hin|shuf g g' _ IH _ _ Hsh H|g _ IH].
  - exact (start_game_rank _ _ _ _ Hs).
  - exact (attempt_play_card_rank g i k g' H IH).
  - apply finish_animation_rank; [exact IH|].
    intros E. rewrite E in Hin. simpl in Hin. intuition discriminate.
  - exact (actually_resolve_trick_rank shuf _ g g' H IH).
  - exact (toggle_pause_rank g IH).
Qed.

Lemma seat_active_lt ps j : seat_active ps j = true -> j < length ps.
Proof.
  unfold seat_active. intros H. apply nth_error_Some. destruct (nth_error ps j); congruence.
Qed.

Lemma next_active_loop_step ps n b k f :
  n <> 0 ->
  next_active_loop ps n ((b + k) mod n) (S f) =
  if seat_active ps ((b + k) mod n) then (b + k) mod n
  else next_active_loop ps n ((b + S k) mod n) f.
Proof.
  intros Hn. simpl. destruct (seat_active ps ((b + k) mod n)); [reflexivity|].
  rewrite Nat.Div0.add_mod_idemp_l. f_equal. f_equal. lia.
Qed.

Lemma next_active_loop_found ps n b : n <> 0 -> forall f k,
  (exists d, k <= d < k + f /\ seat_active ps ((b + d) mod n) = true) ->
  exists d, k <= d < k + f /\
    next_active_loop ps n ((b + k) mod n) f = (b + d) mod n /\
    seat_active ps ((b + d) mod n) = true /\
    (forall d', k <= d' < d -> seat_active ps ((b + d') mod n) = false).
Proof.
  intros Hn f. induction f as [|f IH]; intros k (d & Hd & Ha); [lia|].
  rewrite next_active_loop_step by exact Hn.
  destruct (seat_active ps ((b + k) mod n)) eqn:Ek.
  - exists k. split; [lia|]. split; [reflexivity|]. split; [exact Ek|]. intros d' Hd'. lia.
  - assert (Hdk : d <> k) by (intros ->; congruence).
    destruct (IH (S k)) as (d1 & H1 & E1 & A1 & B1); [exists d; split; [lia|exact Ha]|].
    exists d1. split; [lia|]. split; [exact E1|]. split; [exact A1|].
    intros d' Hd'. destruct (Nat.eq_dec d' k) as [->|Hne]; [exact Ek|apply B1; lia].
Qed.

Lemma next_active_loop_none ps n b : n <> 0 -> forall f k,
  (forall d, k <= d < k + f -> seat_active ps ((b + d) mod n) = false) ->
  next_active_loop ps n ((b + k) mod n) f = (b + k + f) mod n.
Proof.
  intros Hn f. induction f as [|f IH]; intros k H; [simpl; rewrite Nat.add_0_r; reflexivity|].
  rewrite next_active_loop_step by exact Hn.
  rewrite (H k) by lia. rewrite IH; [f_equal; lia|]. intros d Hd. apply H. lia.
Qed.

Lemma offset_to_seat n b j : j < n -> exists d, d < n /\ (b + d) mod n = j.
Proof.
  intros Hj. assert (Hn : n <> 0) by lia.
  exists ((j + n - b mod n) mod n). split; [apply Nat.mod_upper_bound; exact Hn|].
  rewrite Nat.Div0.add_mod_idemp_r.
  pose proof (Nat.div_mod_eq b n) as D. pose proof (Nat.mod_upper_bound b n Hn) as M.
  replace (b + (j + n - b mod n)) with (j + (b / n + 1) * n) by nia.
  rewrite Nat.Div0.mod_add. apply Nat.mod_small. exact Hj.
Qed.

Lemma deal_counts_nth L n j :
  j < n -> nth_error (deal_counts L n) j = Some (L / n + (if j <? L mod n then 1 else 0)).
Proof.
  intros Hj. unfold deal_counts. rewrite nth_error_map, nth_error_seq.
  destruct (j <? n) eqn:E; [|apply Nat.ltb_ge in E; lia]. simpl.
  pose proof (Nat.div_mod_eq L n) as D.
  replace (L - L / n * n) with (L mod n) by lia.
  destruct (j <? L mod n); f_equal; lia.
Qed.

Lemma deal_hands_shape ps : forall counts deck,
  length ps <= length counts ->
  list_sum (firstn (length ps) counts) <= length deck ->
  exists ps', deal_hands ps counts deck = Some ps' /\ length ps' = length ps /\
    forall j q, nth_error ps j = Some q ->
      exists p c, nth_error ps' j = Some p /\ nth_error counts j = Some c /\
        name p = name q /\ is_human p = is_human q /\ is_active p = true /\
        finished_rank p = None /\ length (hand p) = c.
Proof.
  induction ps as [|q t IH]; intros counts deck Hl Hs.
  - exists []. split; [reflexivity|]. split; [reflexivity|]. intros [|j] q Hq; discriminate Hq.
  - destruct counts as [|c cs]; simpl in Hl; [lia|]. simpl in Hs.
    destruct (IH cs (skipn c deck)) as (rest & Er & Lr & Hr);
      [lia|rewrite length_skipn; lia|].
    exists (Player (name q) (is_human q) (sort_hand (firstn c deck)) true None false None :: rest).
    simpl. replace (length deck <? c) with false by (symmetry; apply Nat.ltb_ge; lia).
    cbn [obind nth_error tl]. rewrite Er. cbn [obind]. split; [reflexivity|].
    split; [simpl; rewrite Lr; reflexivity|].
    intros [|j] q' Hq; simpl in Hq.
    + injection Hq as <-. eexists; exists c. split; [reflexivity|]. split; [reflexivity|].
      cbn. split; [reflexivity|]. split; [reflexivity|]. split; [reflexivity|].
      split; [reflexivity|].
      rewrite (Permutation_length (sort_hand_perm _)), length_firstn. lia.
    + exact (Hr j q' Hq).
Qed.

Lemma find_starter_some ps : forall i j,
  find_starter ps i = Some j ->
  i <= j /\ exists p, nth_error ps (j - i) = Some p /\ existsb is_ace_of_spades (hand p) = true.
Proof.
  induction ps as [|p t IH]; intros i j H; simpl in H; [discriminate H|].
  destruct (existsb is_ace_of_spades (hand p)) eqn:E.
  - injection H as <-. split; [lia|]. exists p. rewrite Nat.sub_diag. split; [reflexivity|exact E].
  - destruct (IH (S i) j H) as [Hij (q & Hq & Eq)]. split; [lia|].
    exists q. replace (j - i) with (S (j - S i)) by lia. split; [exact Hq|exact Eq].
Qed.

Lemma find_starter_none ps : forall i,
  find_starter ps i = None -> forall p, In p ps -> existsb is_ace_of_spades (hand p) = false.
Proof.
  induction ps as [|q t IH]; intros i H p Hp; [destruct Hp|]. simpl in H.
  destruct (existsb is_ace_of_spades (hand q)) eqn:E; [discriminate H|].
  destruct Hp as [<-|Hp]; [exact E|exact (IH (S i) H p Hp)].
Qed.

Lemma is_ace_of_spades_eq c : is_ace_of_spades c = true <-> c = Card RA Spades.
Proof.
  destruct c as [r s]. unfold is_ace_of_spades, rank_eqb, suit_eqb.
  destruct r, s; simpl; split; intros H; try discriminate H; try reflexivity.
Qed.

Lemma is_card_playable_in_range g i p j :
  nth_error (players g) i = Some p -> j < length (hand p) ->
  exists b, is_card_playable g i (Z.of_nat j) = Some b.
Proof.
  intros Hp Hj. destruct (nth_error (hand p) j) as [c|] eqn:Hc;
    [|apply nth_error_None in Hc; lia].
  unfold is_card_playable. rewrite Hp. cbn [obind].
  rewrite (py_get_nat _ _ _ Hc). destruct (negb (is_active p)); [eauto|].
  destruct (required_suit g); cbn [obind]; [eauto|]. destruct (_ && _); cbn [obind]; eauto.
Qed.

Lemma playable_fold g i p l :
  nth_error (players g) i = Some p -> (forall j, In j l -> j < length (hand p)) ->
  fold_right (fun i0 acc =>
                b <- is_card_playable g i (Z.of_nat i0) ;;
                rest <- acc ;;
                Some (if b then i0 :: rest else rest)) (Some []) l =
  Some (filter (fun j => match is_card_playable g i (Z.of_nat j) with Some b => b | None => false end) l).
Proof.
  intros Hp. induction l as [|j t IH]; intros Hl; [reflexivity|].
  simpl. rewrite IH by (intros x Hx; apply Hl; right; exact Hx).
  destruct (is_card_playable_in_range g i p j Hp (Hl j (or_introl eq_refl))) as (b & Eb).
  rewrite Eb. cbn [obind]. destruct b; reflexivity.
Qed.

Lemma py_pop_nat {A} (l : list A) k x :
  nth_error l k = Some x -> py_pop l (Z.of_nat k) = Some (x, firstn k l ++ skipn (S k) l).
Proof.
  intros H. unfold py_pop.
  assert (Hk : k < length l) by (apply nth_error_Some; congruence).
  rewrite (py_norm_nat _ _ Hk). cbn [obind]. rewrite H. reflexivity.
Qed.

Lemma animating_kept g i :
  animating (clear_pickup_flag g i) = animating g /\
  animating (mark_finished g i) = animating g /\
  animating (check_game_end g) = animating g.
Proof.
  unfold clear_pickup_flag, mark_finished, check_game_end, run_rank_loop.
  split; [|split].
  - destruct (nth_error (players g) i); [destruct (just_picked_up _)|]; reflexivity.
  - destruct (nth_error (players g) i); reflexivity.
  - destruct (_ <=? 1); [|reflexivity].
    destruct (assign_ranks _ _ _ _) as [[ps ra] fo]. reflexivity.
Qed.

Lemma seat_hand_of_table g g' i p :
  table g' = table g -> nth_error (players g) i = Some p ->
  exists p', nth_error (players g') i = Some p' /\ hand p' = hand p.
Proof.
  intros E Hp. unfold table in E. injection E as Eh _ _.
  assert (M : nth_error (map hand (players g')) i = Some (hand p))
    by (rewrite Eh, nth_error_map, Hp; reflexivity).
  rewrite nth_error_map in M. destruct (nth_error (players g') i) as [p'|]; [|discriminate M].
  injection M as M. exists p'. split; [reflexivity|exact M].
Qed.

Lemma map_upd_nth {A B} (f : A -> B) l : forall i x,
  map f (upd_nth l i x) = upd_nth (map f l) i (f x).
Proof. induction l as [|h t IH]; intros [|i] x; simpl; try rewrite IH; reflexivity. Qed.

Lemma ace_of_spades_in_full_deck : In (Card RA Spades) full_deck.
Proof.
  unfold full_deck. apply in_flat_map. exists Spades. split; [left; reflexivity|].
  apply in_map_iff. exists RA. split; [reflexivity|simpl; tauto].
Qed.

(** ** Properties of the engine *)

(** X1: In every game reachable from a deal, the hands, the cards of the trick in progress and the discard pile together are a permutation of the 52-card deck: no card is created, lost or duplicated. *)
Theorem reachable_card_conservation g :
  reachable g -> Permutation (all_cards g) full_deck.
Proof. intros R. exact (proj1 (reachable_cards_inv g R)). Qed.

Lemma reachable_card_conservation_witness :
  reachable game_c37 /\ Permutation (all_cards game_c37) full_deck.
Proof.
  split; [exact game_c37_reachable|].
  exact (reachable_card_conservation game_c37 game_c37_reachable).
Defined.

(** X2: In every reachable game every seat's hand is in the order [sort_hand] produces (suit order of SUITS, then value). *)
Theorem reachable_hands_sorted g p :
  reachable g -> In p (players g) -> StronglySorted key_le (hand p).
Proof. intros R Hp. exact (proj2 (reachable_cards_inv g R) p Hp). Qed.

Lemma reachable_hands_sorted_witness :
  reachable game_c37 /\
  In (nth 4 (players game_c37) (new_player ""%string true)) (players game_c37) /\
  StronglySorted key_le (hand (nth 4 (players game_c37) (new_player ""%string true))).
Proof.
  assert (H : In (nth 4 (players game_c37) (new_player ""%string true)) (players game_c37))
    by (apply nth_In; vm_compute; lia).
  split; [exact game_c37_reachable|]. split; [exact H|].
  exact (reachable_hands_sorted game_c37 _ game_c37_reachable H).
Defined.

(** X3: In every reachable game the ranks in [finish_order] are 1, 2, ..., [ranks_assigned] in order, [ranks_assigned] is the number of inactive seats, and a seat is active exactly when it has no [finished_rank]. *)
Theorem reachable_rank_bookkeeping g :
  reachable g ->
  map snd (finish_order g) = seq 1 (ranks_assigned g) /\
  ranks_assigned g = length (filter (fun p => negb (is_active p)) (players g)) /\
  (forall p, In p (players g) -> (is_active p = true <-> finished_rank p = None)).
Proof.
  intros R. destruct (reachable_rank_inv g R) as (A & F & C & _).
  split; [exact F|]. split; [exact C|exact A].
Qed.

Lemma reachable_rank_bookkeeping_witness :
  reachable game_c4_165 /\
  map snd (finish_order game_c4_165) = seq 1 (ranks_assigned game_c4_165) /\
  ranks_assigned game_c4_165 =
    length (filter (fun p => negb (is_active p)) (players game_c4_165)) /\
  (forall p, In p (players game_c4_165) -> (is_active p = true <-> finished_rank p = None)).
Proof.
  split; [exact game_c4_165_reachable|].
  exact (reachable_rank_bookkeeping game_c4_165 game_c4_165_reachable).
Defined.

Lemma filter_length_all {A} (f : A -> bool) l :
  (forall x, In x l -> f x = true) -> length (filter f l) = length l.
Proof.
  induction l as [|x t IH]; intros H; [reflexivity|]. simpl.
  rewrite (H x (or_introl eq_refl)). simpl. rewrite IH; [reflexivity|].
  intros y Hy. exact (H y (or_intror Hy)).
Qed.

(** X4: In a reachable game whose state is Finished no seat is active and every seat has been given a rank. *)
Theorem finished_game_ranks_every_seat g :
  reachable g -> state g = Finished ->
  count_active_players (players g) = 0 /\ ranks_assigned g = length (players g).
Proof.
  intros R Hs. destruct (reachable_rank_inv g R) as (A & F & C & E).
  pose proof (E Hs) as Z. split; [exact Z|]. rewrite C.
  pose proof (proj1 (count_active_zero _) Z) as N.
  apply filter_length_all. intros p Hp. rewrite (N p Hp). reflexivity.
Qed.

Lemma finished_game_ranks_every_seat_witness :
  reachable game_c4_165 /\ state game_c4_165 = Finished /\
  count_active_players (players game_c4_165) = 0 /\
  ranks_assigned game_c4_165 = length (players game_c4_165).
Proof.
  assert (H : state game_c4_165 = Finished) by (vm_compute; reflexivity).
  split; [exact game_c4_165_reachable|]. split; [exact H|].
  exact (finished_game_ranks_every_seat game_c4_165 game_c4_165_reachable H).
Defined.

(** X5: If some seat is active, [next_active_index] returns the first active seat after [current], going round the table, and every seat it skipped is inactive. *)
Theorem next_active_index_first_active ps current j :
  seat_active ps j = true ->
  exists d, d < length ps /\
    next_active_index ps current = Some ((current + 1 + d) mod length ps) /\
    seat_active ps ((current + 1 + d) mod length ps) = true /\
    (forall d', d' < d -> seat_active ps ((current + 1 + d') mod length ps) = false).
Proof.
  intros Hj. pose proof (seat_active_lt ps j Hj) as Hlt.
  set (n := length ps) in *. assert (Hn : n <> 0) by lia.
  unfold next_active_index. fold n.
  replace (n =? 0) with false by (symmetry; apply Nat.eqb_neq; exact Hn).
  destruct (offset_to_seat n (current + 1) j Hlt) as (d0 & Hd0 & Ed0).
  destruct (next_active_loop_found ps n (current + 1) Hn n 0) as (d & Hd & E & A & B).
  { exists d0. split; [lia|]. rewrite Ed0. exact Hj. }
  rewrite Nat.add_0_r in E. exists d. split; [lia|]. split; [rewrite E; reflexivity|].
  split; [exact A|]. intros d' Hd'. apply B. lia.
Qed.

Lemma next_active_index_first_active_witness :
  seat_active (players game_c37) 0 = true /\
  exists d, d < length (players game_c37) /\
    next_active_index (players game_c37) 5 = Some ((5 + 1 + d) mod length (players game_c37)) /\
    seat_active (players game_c37) ((5 + 1 + d) mod length (players game_c37)) = true /\
    (forall d', d' < d ->
       seat_active (players game_c37) ((5 + 1 + d') mod length (players game_c37)) = false).
Proof.
  assert (H : seat_active (players game_c37) 0 = true) by (vm_compute; reflexivity).
  split; [exact H|]. exact (next_active_index_first_active (players game_c37) 5 0 H).
Defined.

(** X6: With no active seat, [next_active_index] gives up and returns the seat right after [current] (and fails on an empty table). *)
Theorem next_active_index_no_active ps current :
  count_active_players ps = 0 ->
  next_active_index ps current =
    if length ps =? 0 then None else Some ((current + 1) mod length ps).
Proof.
  intros Z. pose proof (proj1 (count_active_zero ps) Z) as N.
  unfold next_active_index. destruct (length ps =? 0) eqn:E; [reflexivity|].
  apply Nat.eqb_neq in E. f_equal.
  assert (S0 : forall d, 0 <= d < 0 + length ps ->
                 seat_active ps ((current + 1 + d) mod length ps) = false).
  { intros d _. unfold seat_active.
    destruct (nth_error ps _) as [p|] eqn:Ep; [|reflexivity].
    exact (N p (nth_error_In _ _ Ep)). }
  pose proof (next_active_loop_none ps (length ps) (current + 1) E (length ps) 0 S0) as L.
  rewrite !Nat.add_0_r in L. rewrite L.
  replace (current + 1 + length ps) with (current + 1 + 1 * length ps) by lia.
  apply Nat.Div0.mod_add.
Qed.

Lemma next_active_index_no_active_witness :
  count_active_players (players game_c4_165) = 0 /\
  next_active_index (players game_c4_165) 3 = Some 0.
Proof.
  assert (H : count_active_players (players game_c4_165) = 0) by (vm_compute; reflexivity).
  split; [exact H|].
  rewrite (next_active_index_no_active (players game_c4_165) 3 H). vm_compute. reflexivity.
Defined.

(** X7: On a non-empty table [start_game] succeeds for any deck: every seat keeps its name and type, becomes active without a rank, and is dealt len(deck)/n cards, one more for the first len(deck) mod n seats. *)
Theorem start_game_deals_every_seat deck rnd g :
  length (players g) <> 0 ->
  exists g', start_game deck rnd g = Some g' /\
    length (players g') = length (players g) /\
    forall j q, nth_error (players g) j = Some q ->
      exists p, nth_error (players g') j = Some p /\
        name p = name q /\ is_human p = is_human q /\
        is_active p = true /\ finished_rank p = None /\
        length (hand p) = length deck / length (players g) +
                          (if j <? length deck mod length (players g) then 1 else 0).
Proof.
  intros Hn. unfold start_game.
  replace (length (players g) =? 0) with false by (symmetry; apply Nat.eqb_neq; exact Hn).
  destruct (deal_hands_shape (players g) (deal_counts (length deck) (length (players g))) deck)
    as (ps' & E & L & Hs).
  { rewrite deal_counts_length. lia. }
  { rewrite firstn_all2 by (rewrite deal_counts_length; lia).
    rewrite deal_counts_sum by exact Hn. lia. }
  rewrite E. cbn [obind]. eexists. split; [reflexivity|]. cbn [players]. split; [exact L|].
  intros j q Hq. destruct (Hs j q Hq) as (p & c & Hp & Hc & N & Hh & A & F & Lh).
  rewrite deal_counts_nth in Hc by (apply nth_error_Some; congruence).
  injection Hc as <-. exists p. repeat (split; [assumption|]). exact Lh.
Qed.

Lemma start_game_deals_every_seat_witness :
  length (players (init_game (cpu_table 5))) <> 0 /\
  exists g', start_game deck_c 0 (init_game (cpu_table 5)) = Some g' /\
    length (players g') = length (players (init_game (cpu_table 5))) /\
    forall j q, nth_error (players (init_game (cpu_table 5))) j = Some q ->
      exists p, nth_error (players g') j = Some p /\
        name p = name q /\ is_human p = is_human q /\
        is_active p = true /\ finished_rank p = None /\
        length (hand p) = length deck_c / length (players (init_game (cpu_table 5))) +
          (if j <? length deck_c mod length (players (init_game (cpu_table 5))) then 1 else 0).
Proof.
  assert (H : length (players (init_game (cpu_table 5))) <> 0) by (vm_compute; discriminate).
  split; [exact H|]. exact (start_game_deals_every_seat deck_c 0 _ H).
Defined.

(** X8: When the deck is a full deck, the seat [start_game] chooses to lead holds the Ace of Spades, and the game starts in the play state on its first move with no required suit, an empty trick and discard pile and no ranks. *)
Theorem start_game_ace_of_spades_leads deck rnd g g' :
  Permutation deck full_deck -> start_game deck rnd g = Some g' ->
  exists p, nth_error (players g') (leader_index g') = Some p /\
    In (Card RA Spades) (hand p) /\
    active_index g' = Some (leader_index g') /\
    state g' = Play /\ first_move g' = true /\ required_suit g' = None /\
    trick_cards g' = [] /\ discard_pile g' = [] /\ ranks_assigned g' = 0.
Proof.
  intros Pd H. pose proof (start_game_cards _ _ _ _ Pd H) as [P _].
  unfold start_game in H.
  destruct (length (players g) =? 0); [discriminate H|].
  destruct (deal_hands _ _ _) as [ps|] eqn:Ed; cbn [obind] in H; [|discriminate H].
  injection H as <-.
  assert (Hin : In (Card RA Spades) (concat (map hand ps))).
  { pose proof (Permutation_in _ (Permutation_sym P) ace_of_spades_in_full_deck) as I.
    unfold all_cards in I. cbn [players trick_cards discard_pile map] in I.
    rewrite !app_nil_r in I. exact I. }
  apply in_concat in Hin as (h & Hh & Hc). apply in_map_iff in Hh as (q & <- & Hq).
  cbn [players leader_index active_index state first_move required_suit trick_cards
       discard_pile ranks_assigned].
  destruct (find_starter ps 0) as [j|] eqn:Ef.
  - destruct (find_starter_some ps 0 j Ef) as [_ (p & Hp & Ep)].
    rewrite Nat.sub_0_r in Hp. exists p. split; [exact Hp|].
    apply existsb_exists in Ep as (x & Hx & Ex). apply is_ace_of_spades_eq in Ex. subst x.
    split; [exact Hx|]. repeat split.
  - exfalso. pose proof (find_starter_none ps 0 Ef q Hq) as N.
    assert (T : existsb is_ace_of_spades (hand q) = true)
      by (apply existsb_exists; exists (Card RA Spades); split; [exact Hc|reflexivity]).
    congruence.
Qed.

Lemma start_game_ace_of_spades_leads_witness :
  Permutation deck_c full_deck /\
  exists g', start_game deck_c 0 (init_game (cpu_table 4)) = Some g' /\
  exists p, nth_error (players g') (leader_index g') = Some p /\
    In (Card RA Spades) (hand p) /\
    active_index g' = Some (leader_index g') /\
    state g' = Play /\ first_move g' = true /\ required_suit g' = None /\
    trick_cards g' = [] /\ discard_pile g' = [] /\ ranks_assigned g' = 0.
Proof.
  split; [exact deck_c_perm|].
  destruct (start_game deck_c 0 (init_game (cpu_table 4))) as [g'|] eqn:E;
    [|vm_compute in E; discriminate E].
  exists g'. split; [reflexivity|].
  exact (start_game_ace_of_spades_leads deck_c 0 _ g' deck_c_perm E).
Defined.

Lemma strongly_sorted_filter {A} (R : A -> A -> Prop) (f : A -> bool) l :
  StronglySorted R l -> StronglySorted R (filter f l).
Proof.
  induction 1 as [|x t _ IH HF]; [constructor|]. simpl. destruct (f x); [|exact IH].
  constructor; [exact IH|]. rewrite Forall_forall in HF |- *.
  intros y Hy. apply filter_In in Hy. exact (HF y (proj1 Hy)).
Qed.

Lemma strongly_sorted_seq a n : StronglySorted lt (seq a n).
Proof.
  revert a; induction n as [|n IH]; intros a; [constructor|]. simpl. constructor; [apply IH|].
  rewrite Forall_forall. intros y Hy. apply in_seq in Hy. lia.
Qed.

(** X9: For an existing seat, [playable_indices_for_player] returns the strictly increasing list of the hand indices that [is_card_playable] accepts. *)
Theorem playable_indices_for_player_spec g i p :
  nth_error (players g) i = Some p ->
  exists l, playable_indices_for_player g i = Some l /\ StronglySorted lt l /\
    (forall j, In j l <-> j < length (hand p) /\ is_card_playable g i (Z.of_nat j) = Some true).
Proof.
  intros Hp. unfold playable_indices_for_player. rewrite Hp. cbn [obind].
  rewrite (playable_fold g i p) by (exact Hp || (intros j Hj; apply in_seq in Hj; lia)).
  eexists. split; [reflexivity|]. split; [apply strongly_sorted_filter, strongly_sorted_seq|].
  intros j. rewrite filter_In, in_seq. split.
  - intros [Hj Hb]. split; [lia|].
    destruct (is_card_playable g i (Z.of_nat j)) as [b|]; [rewrite Hb; reflexivity|discriminate Hb].
  - intros [Hj Hb]. rewrite Hb. split; [lia|reflexivity].
Qed.

Lemma playable_indices_for_player_spec_witness :
  nth_error (players game_b95) 3 = Some (nth 3 (players game_b95) (new_player ""%string true)) /\
  exists l, playable_indices_for_player game_b95 3 = Some l /\ StronglySorted lt l /\
    (forall j, In j l <-> j < length (hand (nth 3 (players game_b95) (new_player ""%string true))) /\
                          is_card_playable game_b95 3 (Z.of_nat j) = Some true).
Proof.
  assert (H : nth_error (players game_b95) 3 =
              Some (nth 3 (players game_b95) (new_player ""%string true)))
    by (vm_compute; reflexivity).
  split; [exact H|]. exact (playable_indices_for_player_spec game_b95 3 _ H).
Defined.

(** X10: When no card is moving and the seat to move plays a card that [is_card_playable] accepts, [attempt_play_card] appends it to the trick, removes exactly that card from that seat's hand, leaves the other hands and the discard pile alone, and starts the animation. *)
Theorem attempt_play_card_accepts_playable g i k p c :
  animating g = false -> active_index g = Some i ->
  nth_error (players g) i = Some p -> nth_error (hand p) k = Some c ->
  is_card_playable g i (Z.of_nat k) = Some true ->
  exists g', attempt_play_card g i (Z.of_nat k) = Some g' /\
    trick_cards g' = trick_cards g ++ [(i, c)] /\
    map hand (players g') =
      upd_nth (map hand (players g)) i (firstn k (hand p) ++ skipn (S k) (hand p)) /\
    discard_pile g' = discard_pile g /\ animating g' = true.
Proof.
  intros Ha Hai Hp Hk Hpl.
  assert (Hact : is_active p = true).
  { unfold is_card_playable in Hpl. rewrite Hp in Hpl. cbn [obind] in Hpl.
    destruct (is_active p); [reflexivity|discriminate Hpl]. }
  assert (Eo : opt_nat_eqb (Some i) (Some i) = true) by (simpl; apply Nat.eqb_refl).
  set (rest := firstn k (hand p) ++ skipn (S k) (hand p)).
  set (g3 := set_animating (set_trick_cards (set_players g (upd_nth (players g) i (set_hand p rest)))
               (trick_cards g ++ [(i, c)])) true).
  assert (E3 : play_into_trick g i p (Z.of_nat k) = Some (c, g3))
    by (unfold play_into_trick; rewrite (py_pop_nat _ _ _ Hk); reflexivity).
  assert (T3 : table g3 = (upd_nth (map hand (players g)) i rest,
                           trick_cards g ++ [(i, c)], discard_pile g))
    by (unfold table, g3; cbn; rewrite map_upd_nth; reflexivity).
  assert (A3 : animating g3 = true) by reflexivity.
  cut (exists g', attempt_play_card g i (Z.of_nat k) = Some g' /\
                  table g' = table g3 /\ animating g' = animating g3).
  { intros (g' & E & T & A). exists g'. split; [exact E|].
    rewrite T3 in T. unfold table in T. injection T as T1 T2 T3'.
    split; [exact T2|]. split; [exact T1|]. split; [exact T3'|]. rewrite A. exact A3. }
  unfold is_card_playable in Hpl. rewrite Hp in Hpl. cbn [obind] in Hpl. rewrite Hact in Hpl. cbn [negb] in Hpl.
  unfold attempt_play_card. rewrite Ha, Hp. cbn [obind]. rewrite Hai, Eo. cbn [negb].
  rewrite Hact. cbn [negb]. rewrite (py_get_nat _ _ _ Hk). cbn [obind].
  rewrite Hai, Eo in Hpl.
  destruct (required_suit g) as [rs|] eqn:Er.
  - rewrite (py_get_nat _ _ _ Hk) in Hpl. cbn [obind] in Hpl. injection Hpl as Hpl.
    replace (has_suit (hand p) rs && negb (suit_eqb (suit c) rs)) with false
      by (destruct (has_suit (hand p) rs); [rewrite Hpl|]; reflexivity).
    rewrite E3. cbn [obind].
    destruct (negb (suit_eqb (suit c) rs) && negb (has_suit (hand p) rs)).
    + eexists. split; [reflexivity|]. split; [apply clear_pickup_flag_table|].
      exact (proj1 (animating_kept g3 i)).
    + destruct (_ && _); (eexists; split; [reflexivity|]).
      * split; [unfold table|]; cbn; reflexivity.
      * split; [rewrite clear_pickup_flag_table; reflexivity|]. rewrite (proj1 (animating_kept _ i)). reflexivity.
  - replace (first_move g && true && negb (is_ace_of_spades c)) with false
      by (destruct (first_move g); cbn in Hpl |- *; [|reflexivity];
          rewrite (py_get_nat _ _ _ Hk) in Hpl; cbn [obind] in Hpl;
          injection Hpl as Hpl; rewrite Hpl; reflexivity).
    rewrite E3. cbn [obind]. eexists. split; [reflexivity|].
    set (g4 := if first_move g3 then set_first_move g3 false else g3).
    assert (T4 : table g4 = table g3 /\ animating g4 = animating g3)
      by (unfold g4; destruct (first_move g3); split; reflexivity).
    set (g6 := set_active_index (set_required_suit g4 (Some (suit c)))
                 (next_active_index (players (set_required_suit g4 (Some (suit c)))) i)).
    assert (T6 : table g6 = table g3 /\ animating g6 = animating g3) by exact T4.
    rewrite clear_pickup_flag_table. rewrite (proj1 (animating_kept _ i)).
    destruct (_ =? 0); [|exact T6].
    rewrite check_game_end_table, mark_finished_table.
    rewrite (proj2 (proj2 (animating_kept _ i))), (proj1 (proj2 (animating_kept _ i))).
    exact T6.
Qed.

Lemma attempt_play_card_accepts_playable_witness :
  animating game_b95 = false /\ active_index game_b95 = Some 3 /\
  nth_error (players game_b95) 3 = Some (nth 3 (players game_b95) (new_player ""%string true)) /\
  nth_error (hand (nth 3 (players game_b95) (new_player ""%string true))) 10 =
    Some (Card R10 Clubs) /\
  is_card_playable game_b95 3 (Z.of_nat 10) = Some true /\
  exists g', attempt_play_card game_b95 3 (Z.of_nat 10) = Some g' /\
    trick_cards g' = trick_cards game_b95 ++ [(3, Card R10 Clubs)] /\
    map hand (players g') =
      upd_nth (map hand (players game_b95)) 3
        (firstn 10 (hand (nth 3 (players game_b95) (new_player ""%string true))) ++
         skipn 11 (hand (nth 3 (players game_b95) (new_player ""%string true)))) /\
    discard_pile g' = discard_pile game_b95 /\ animating g' = true.
Proof.
  assert (H1 : animating game_b95 = false) by (vm_compute; reflexivity).
  assert (H2 : active_index game_b95 = Some 3) by (vm_compute; reflexivity).
  assert (H3 : nth_error (players game_b95) 3 =
               Some (nth 3 (players game_b95) (new_player ""%string true)))
    by (vm_compute; reflexivity).
  assert (H4 : nth_error (hand (nth 3 (players game_b95) (new_player ""%string true))) 10 =
               Some (Card R10 Clubs)) by (vm_compute; reflexivity).
  assert (H5 : is_card_playable game_b95 3 (Z.of_nat 10) = Some true) by (vm_compute; reflexivity).
  split; [exact H1|]. split; [exact H2|]. split; [exact H3|]. split; [exact H4|].
  split; [exact H5|].
  exact (attempt_play_card_accepts_playable game_b95 3 10 _ _ H1 H2 H3 H4 H5).
Defined.

Lemma finish_resolution_settled g1 :
  trick_cards (finish_resolution g1) = [] /\ required_suit (finish_resolution g1) = None /\
  showing_trick (finish_resolution g1) = false /\ pending_tochoo (finish_resolution g1) = false /\
  (state (finish_resolution g1) = Play \/ state (finish_resolution g1) = Finished).
Proof.
  destruct (finish_resolution_back g1) as (_ & R & _ & T & S & _).
  split; [exact T|]. split; [exact R|]. split; [exact S|]. unfold finish_resolution. cbv zeta.
  split; [destruct (gstate_eqb _ Finished); reflexivity|].
  match goal with |- context [gstate_eqb (state ?x) Finished] =>
    destruct (state x) eqn:E; cbn; rewrite ?E; auto end.
Qed.

(** X11: A trick committed without a tochoo always resolves: its cards go to the discard pile in trick order, the hands are unchanged, and the seat of the highest card of the led suit (the leader when none follows suit) becomes leader and the seat to move. *)
Theorem actually_resolve_trick_clean shuf g :
  exists w g', actually_resolve_trick shuf (Some false) g = Some g' /\
    trick_taker g = Some w /\
    ((exists c, In (w, c) (trick_cards g) /\ required_suit g = Some (suit c) /\
        forall r' c', In (r', c') (trick_cards g) -> required_suit g = Some (suit c') ->
                      value c' <= value c)
     \/ ((forall pc, In pc (trick_cards g) -> required_suit g <> Some (suit (snd pc))) /\
         w = leader_index g)) /\
    discard_pile g' = discard_pile g ++ map snd (trick_cards g) /\
    map hand (players g') = map hand (players g) /\
    leader_index g' = w /\ active_index g' = Some w.
Proof.
  destruct (trick_taker_spec g) as (w & Ew & Hw).
  exists w, (finish_resolution (clean_discard g w)).
  unfold actually_resolve_trick. cbn beta iota zeta. rewrite Ew. cbn [obind].
  split; [reflexivity|]. split; [reflexivity|]. split; [exact Hw|].
  pose proof (finish_resolution_table (clean_discard g w)) as T.
  unfold table in T. injection T as Th _ Td.
  destruct (finish_resolution_kept (clean_discard g w)) as (_ & L & A).
  split; [exact Td|]. split; [exact Th|]. split; [exact L|exact A].
Qed.

(** X12: After a successful trick commit the trick is empty, no suit is required, the trick display and pending resolution are cleared, and the game is in the play or the finished state. *)
Theorem actually_resolve_trick_settles shuf b g g' :
  actually_resolve_trick shuf b g = Some g' ->
  trick_cards g' = [] /\ required_suit g' = None /\ showing_trick g' = false /\
  pending_tochoo g' = false /\ (state g' = Play \/ state g' = Finished).
Proof.
  intros H. unfold actually_resolve_trick in H.
  match type of H with obind ?m _ = _ => destruct m as [g1|] end;
    cbn [obind] in H; [|discriminate H].
  injection H as <-. apply finish_resolution_settled.
Qed.

Lemma actually_resolve_trick_settles_witness :
  exists g', actually_resolve_trick (fun l => l) (Some true) game_a77 = Some g' /\
  trick_cards g' = [] /\ required_suit g' = None /\ showing_trick g' = false /\
  pending_tochoo g' = false /\ (state g' = Play \/ state g' = Finished).
Proof.
  destruct (actually_resolve_trick (fun l => l) (Some true) game_a77) as [g'|] eqn:E;
    [|vm_compute in E; discriminate E].
  exists g'. split; [reflexivity|].
  exact (actually_resolve_trick_settles (fun l => l) (Some true) game_a77 g' E).
Defined.

(** ** Hand strip, setup helpers and play clicks *)

Lemma scan_cards_step h px py cc m :
  scan_cards h px py cc (S m) =
  if card_hit h px py cc m then Some (Z.of_nat m) else scan_cards h px py cc m.
Proof. reflexivity. Qed.

Lemma card_hit_iff h px py cc m :
  card_hit h px py cc m = true <->
  (sh_y h <= py < sh_y h + 120 /\
   sh_x h - scroll_x h + 40 * Z.of_nat m <= px <
   sh_x h - scroll_x h + 40 * Z.of_nat m + (if (Z.of_nat m =? cc - 1)%Z then 80 else 40))%Z.
Proof.
  unfold card_hit, rect_collidepoint, CARD_W, CARD_GAP, CARD_H.
  change (Z.max 1 (80 + -40)) with 40%Z.
  rewrite !andb_true_iff, !Z.leb_le, !Z.ltb_lt.
  destruct (Z.of_nat m =? cc - 1)%Z; lia.
Qed.

Lemma scan_cards_none h px py cc m :
  (forall i, i < m -> card_hit h px py cc i = false) -> scan_cards h px py cc m = None.
Proof.
  induction m as [|m IH]; intros H; [reflexivity|].
  rewrite scan_cards_step, (H m (Nat.lt_succ_diag_r m)). apply IH. intros i Hi. apply H. lia.
Qed.

Lemma scan_cards_some h px py cc m i :
  i < m -> card_hit h px py cc i = true ->
  (forall j, i < j < m -> card_hit h px py cc j = false) ->
  scan_cards h px py cc m = Some (Z.of_nat i).
Proof.
  induction m as [|m IH]; intros Hi Hh Hj; [lia|].
  rewrite scan_cards_step. destruct (Nat.eq_dec i m) as [->|Hne]; [rewrite Hh; reflexivity|].
  rewrite (Hj m) by lia. apply IH; [lia|exact Hh|]. intros j Hj'. apply Hj. lia.
Qed.

Lemma card_strip_hit h px py n :
  get_card_index_at_pos h (px, py) n =
  if ((0 <? n) && (sh_y h <=? py) && (py <? sh_y h + CARD_H)
      && (sh_x h - scroll_x h <=? px)
      && (px <? sh_x h - scroll_x h + (n - 1) * (CARD_W + CARD_GAP) + CARD_W))%Z
  then Some (Z.min (n - 1) ((px - (sh_x h - scroll_x h)) / (CARD_W + CARD_GAP)))%Z
  else None.
Proof.
  unfold get_card_index_at_pos. set (x0 := (sh_x h - scroll_x h)%Z).
  unfold CARD_W, CARD_GAP, CARD_H. change (80 + -40)%Z with 40%Z.
  destruct (_ && _ && _ && _ && _) eqn:C.
  - rewrite !andb_true_iff, !Z.leb_le, !Z.ltb_lt in C.
    destruct C as ((((Hn & Hy1) & Hy2) & Hx1) & Hx2).
    set (q := ((px - x0) / 40)%Z).
    pose proof (Z.div_mod (px - x0) 40 ltac:(lia)) as D.
    pose proof (Z.mod_pos_bound (px - x0) 40 ltac:(lia)) as M. fold q in D.
    set (k := Z.min (n - 1) q).
    assert (Hk : (0 <= k < n)%Z) by (unfold k; lia).
    replace k with (Z.of_nat (Z.to_nat k)) by lia.
    apply scan_cards_some.
    + lia.
    + apply card_hit_iff. rewrite Z2Nat.id by lia. split; [lia|].
      destruct (Z.eqb_spec k (n - 1)); unfold k in *; lia.
    + intros j Hj. destruct (card_hit h px py n j) eqn:E; [|reflexivity].
      apply card_hit_iff in E. fold x0 in E.
      destruct (Z.eqb_spec (Z.of_nat j) (n - 1)); unfold k in *; lia.
  - apply scan_cards_none. intros i Hi. destruct (card_hit h px py n i) eqn:E; [|reflexivity].
    apply card_hit_iff in E. fold x0 in E. rewrite <- C. symmetry.
    rewrite !andb_true_iff, !Z.leb_le, !Z.ltb_lt.
    destruct (Z.eqb_spec (Z.of_nat i) (n - 1)); repeat split; lia.
Qed.

(** X13: [get_card_index_at_pos] of the hand strip has a closed form: a click within the card row and the horizontal extent of the overlapping cards hits the card whose left edge is the last one at or left of the click, and any other click hits nothing. *)
Theorem get_card_index_at_pos_spec h px py n :
  get_card_index_at_pos h (px, py) n =
  if ((0 <? n) && (sh_y h <=? py) && (py <? sh_y h + CARD_H)
      && (sh_x h - scroll_x h <=? px)
      && (px <? sh_x h - scroll_x h + (n - 1) * (CARD_W + CARD_GAP) + CARD_W))%Z
  then Some (Z.min (n - 1) ((px - (sh_x h - scroll_x h)) / (CARD_W + CARD_GAP)))%Z
  else None.
Proof. exact (card_strip_hit h px py n). Qed.

Lemma card_position_hit h n i :
  (0 <= i < n)%Z -> get_card_index_at_pos h (get_card_position h i) n = Some i.
Proof.
  intros Hi. unfold get_card_position. rewrite card_strip_hit.
  unfold CARD_W, CARD_GAP, CARD_H. change (80 + -40)%Z with 40%Z.
  replace (sh_x h + i * 40 - scroll_x h - (sh_x h - scroll_x h))%Z with (i * 40)%Z by lia.
  rewrite Z.div_mul by lia.
  destruct (_ && _ && _ && _ && _) eqn:C.
  - f_equal. lia.
  - exfalso. revert C. rewrite !andb_false_iff, !Z.leb_gt, !Z.ltb_ge. lia.
Qed.

(** X14: A click at the top-left corner [get_card_position] gives for card i hits card i, for every index of the hand. *)
Theorem get_card_index_at_card_position h n i :
  (0 <= i < n)%Z -> get_card_index_at_pos h (get_card_position h i) n = Some i.
Proof. exact (card_position_hit h n i). Qed.

Lemma get_card_index_at_card_position_witness :
  (0 <= 7 < 13)%Z /\
  get_card_index_at_pos (ScrollableHand 50 550 1000 120 0 0 20)
    (get_card_position (ScrollableHand 50 550 1000 120 0 0 20) 7) 13 = Some 7%Z.
Proof.
  assert (H : (0 <= 7 < 13)%Z) by lia. split; [exact H|].
  exact (get_card_index_at_card_position (ScrollableHand 50 550 1000 120 0 0 20) 13 7 H).
Defined.

(** X15: After [update_scroll_limit] the offset [scroll] produces stays within 0 and the limit, is 0 when the hand fits the strip, and moves by exactly the requested amount when that stays in range. *)
Theorem scroll_after_update_within_limit h n d :
  (0 <= scroll_x (scroll (update_scroll_limit h n) d) <=
        max_scroll (scroll (update_scroll_limit h n) d))%Z /\
  ((n * (CARD_W + CARD_GAP) - CARD_GAP <= sh_width h)%Z ->
     scroll_x (scroll (update_scroll_limit h n) d) = 0%Z) /\
  ((0 <= scroll_x h + d * scroll_speed h <= max_scroll (update_scroll_limit h n))%Z ->
     scroll_x (scroll (update_scroll_limit h n) d) = (scroll_x h + d * scroll_speed h)%Z).
Proof.
  unfold scroll, update_scroll_limit. cbn [scroll_x max_scroll scroll_speed].
  split; [lia|]. split; intros H; lia.
Qed.

Lemma uint_to_string_inj d1 : forall d2, uint_to_string d1 = uint_to_string d2 -> d1 = d2.
Proof.
  induction d1; destruct d2; simpl; intros H; try discriminate H; try reflexivity;
    injection H as H; f_equal; apply IHd1; exact H.
Qed.

Lemma py_str_inj a b : py_str a = py_str b -> a = b.
Proof.
  unfold py_str. intros H. apply uint_to_string_inj in H.
  exact (DecimalNat.Unsigned.to_uint_inj a b H).
Qed.

Lemma seats_named_map ps : forall k,
  (forall i p, nth_error ps i = Some p -> name p = ("P" ++ py_str (k + i + 1))%string) ->
  map name ps = map (fun i => ("P" ++ py_str (i + 1))%string) (seq k (length ps)).
Proof.
  induction ps as [|p t IH]; intros k H; [reflexivity|]. simpl. f_equal.
  - rewrite (H 0 p eq_refl). rewrite Nat.add_0_r. reflexivity.
  - apply IH. intros i q Hq. rewrite (H (S i) q Hq). do 3 f_equal. lia.
Qed.

Lemma seats_named_nodup ps : seats_named ps -> NoDup (map name ps).
Proof.
  intros H. rewrite (seats_named_map ps 0) by (intros i p Hp; exact (H i p Hp)).
  apply Finite.Injective_map_NoDup; [|apply seq_NoDup].
  intros a b E. simpl in E. injection E as E. apply py_str_inj in E. lia.
Qed.

Lemma set_player_count_nth ps n i :
  nth_error (set_player_count ps n) i =
  if i <? n then Some (match nth_error ps i with
                       | Some p => p
                       | None => new_player ("P" ++ py_str (i + 1)) true
                       end)
  else None.
Proof.
  unfold set_player_count. rewrite nth_error_map, nth_error_seq.
  destruct (i <? n); reflexivity.
Qed.

(** X16: From seats named P1, P2, ... by position, [set_player_count] n gives exactly n seats, still named by position, with pairwise distinct names. *)
Theorem set_player_count_names ps n :
  seats_named ps ->
  length (set_player_count ps n) = n /\
  seats_named (set_player_count ps n) /\ NoDup (map name (set_player_count ps n)).
Proof.
  intros H. assert (N : seats_named (set_player_count ps n)).
  { intros i p Hp. rewrite set_player_count_nth in Hp. destruct (i <? n); [|discriminate Hp].
    injection Hp as <-. destruct (nth_error ps i) as [q|] eqn:Eq; [exact (H i q Eq)|reflexivity]. }
  split; [unfold set_player_count; rewrite length_map, length_seq; reflexivity|].
  split; [exact N|exact (seats_named_nodup _ N)].
Qed.

Lemma set_player_count_names_witness :
  let ps := [new_player "P1" true; new_player "P2" false;
             new_player "P3" false; new_player "P4" true] in
  seats_named ps /\
  (length (set_player_count ps 6) = 6 /\
   seats_named (set_player_count ps 6) /\ NoDup (map name (set_player_count ps 6))) /\
  nth_error (set_player_count ps 6) 1 = nth_error ps 1.
Proof.
  intros ps.
  assert (H : seats_named ps)
    by (intros i p Hp;
        do 4 (destruct i as [|i]; [cbn in Hp; injection Hp as <-; vm_compute; reflexivity|]);
        destruct i; discriminate Hp).
  split; [exact H|]. split; [exact (set_player_count_names ps 6 H)|].
  vm_compute. reflexivity.
Defined.

(** X17: Changing the player count twice is the same as the second change applied to the seats the first one kept. *)
Theorem set_player_count_twice ps n m :
  set_player_count (set_player_count ps n) m = set_player_count (firstn n ps) m.
Proof.
  apply nth_error_ext. intros i. rewrite !set_player_count_nth, nth_error_firstn.
  destruct (i <? m); [|reflexivity]. destruct (i <? n); reflexivity.
Qed.

Lemma length_upd_nth {A} (l : list A) i x : length (upd_nth l i x) = length l.
Proof. revert i; induction l as [|h t IH]; intros [|i]; simpl; auto. Qed.

Lemma upd_nth_twice {A} (l : list A) i x y : upd_nth (upd_nth l i x) i y = upd_nth l i y.
Proof. revert i; induction l as [|h t IH]; intros [|i]; simpl; f_equal; auto. Qed.

Lemma upd_nth_self {A} (l : list A) i x : nth_error l i = Some x -> upd_nth l i x = l.
Proof.
  revert i; induction l as [|h t IH]; intros [|i] H; simpl in *; try discriminate H.
  - injection H as ->. reflexivity.
  - f_equal. exact (IH i H).
Qed.

(** X18: Toggling a seat's human/CPU type twice restores the seats, and a toggle never changes names or the number of seats. *)
Theorem toggle_player_type_twice ps idx ps' :
  toggle_player_type ps idx = Some ps' ->
  toggle_player_type ps' idx = Some ps /\ map name ps' = map name ps /\
  length ps' = length ps.
Proof.
  unfold toggle_player_type. intros H.
  destruct (Z.of_nat (length ps) <=? idx)%Z eqn:E.
  - injection H as <-. rewrite E. split; [reflexivity|split; reflexivity].
  - destruct (py_norm (length ps) idx) as [n|] eqn:En; cbn [obind] in H; [|discriminate H].
    destruct (nth_error ps n) as [p|] eqn:Ep; cbn [obind] in H; [|discriminate H].
    injection H as <-.
    assert (Hn : n < length ps) by (apply nth_error_Some; congruence).
    rewrite !length_upd_nth, E, En. cbn [obind].
    rewrite (nth_error_upd_nth_same _ _ _ Hn). cbn [obind].
    split; [|split; [|reflexivity]].
    + f_equal. rewrite upd_nth_twice.
      replace (set_is_human (set_is_human p (negb (is_human p)))
                 (negb (is_human (set_is_human p (negb (is_human p)))))) with p
        by (destruct p; cbn; rewrite negb_involutive; reflexivity).
      exact (upd_nth_self _ _ _ Ep).
    + rewrite map_upd_nth. apply upd_nth_self. rewrite nth_error_map, Ep. reflexivity.
Qed.

Lemma toggle_player_type_twice_witness :
  toggle_player_type (set_player_count [] 4) 2 =
    Some (upd_nth (set_player_count [] 4) 2
            (new_player "P3"%string false)) /\
  toggle_player_type (upd_nth (set_player_count [] 4) 2 (new_player "P3"%string false)) 2 =
    Some (set_player_count [] 4) /\
  map name (upd_nth (set_player_count [] 4) 2 (new_player "P3"%string false)) =
    map name (set_player_count [] 4) /\
  length (upd_nth (set_player_count [] 4) 2 (new_player "P3"%string false)) =
    length (set_player_count [] 4).
Proof.
  assert (H : toggle_player_type (set_player_count [] 4) 2 =
              Some (upd_nth (set_player_count [] 4) 2 (new_player "P3"%string false)))
    by (vm_compute; reflexivity).
  split; [exact H|]. exact (toggle_player_type_twice _ _ _ H).
Defined.

(** X19: [toggle_player_type] ignores an index at or past the end of the table and fails (an IndexError) only for a negative index below minus the number of seats. *)
Theorem toggle_player_type_bounds ps idx :
  ((Z.of_nat (length ps) <= idx)%Z -> toggle_player_type ps idx = Some ps) /\
  (toggle_player_type ps idx = None <-> (idx < - Z.of_nat (length ps))%Z).
Proof.
  unfold toggle_player_type. split.
  { intros Hl. apply Z.leb_le in Hl. rewrite Hl. reflexivity. }
  destruct (Z.of_nat (length ps) <=? idx)%Z eqn:E.
  { apply Z.leb_le in E. split; [discriminate|lia]. }
  apply Z.leb_gt in E. unfold py_norm.
  destruct (0 <=? idx)%Z eqn:E0.
  - apply Z.leb_le in E0. rewrite (proj2 (Z.ltb_lt _ _) E). cbn [obind].
    destruct (nth_error ps (Z.to_nat idx)) eqn:En; [cbn [obind]; split; [discriminate|lia]|].
    apply nth_error_None in En. lia.
  - apply Z.leb_gt in E0. destruct (- Z.of_nat (length ps) <=? idx)%Z eqn:E1.
    + apply Z.leb_le in E1. cbn [obind].
      destruct (nth_error ps (Z.to_nat (Z.of_nat (length ps) + idx))) eqn:En;
        [cbn [obind]; split; [discriminate|lia]|].
      apply nth_error_None in En. lia.
    + apply Z.leb_gt in E1. cbn [obind]. split; [intros _; exact E1|reflexivity].
Qed.

Lemma attempt_warns g a p ci :
  animating g = false -> active_index g = Some a ->
  nth_error (players g) a = Some p -> is_active p = true ->
  is_card_playable g a ci = Some false ->
  attempt_play_card g a ci =
    Some (set_warning_text g
      (if first_move g
          && match required_suit g with None => true | Some _ => false end
          && opt_nat_eqb (Some a) (active_index g)
       then "Game must start with Ace of Spades!"%string
       else "You must follow suit!"%string)).
Proof.
  intros Ha Hai Hp Hact Hpl.
  assert (Eo : opt_nat_eqb (Some a) (Some a) = true) by (simpl; apply Nat.eqb_refl).
  unfold is_card_playable in Hpl. rewrite Hp in Hpl. cbn [obind] in Hpl.
  rewrite Hact in Hpl. cbn [negb] in Hpl. rewrite Hai, Eo in Hpl.
  unfold attempt_play_card. rewrite Ha, Hp. cbn [obind]. rewrite Hai, Eo. cbn [negb].
  rewrite Hact. cbn [negb].
  destruct (required_suit g) as [rs|].
  - destruct (py_get (hand p) ci) as [c|]; cbn [obind] in Hpl |- *; [|discriminate Hpl].
    injection Hpl as Hpl. destruct (has_suit (hand p) rs); [|discriminate Hpl].
    rewrite Hpl. destruct (first_move g); reflexivity.
  - destruct (first_move g); cbn in Hpl |- *; [|discriminate Hpl].
    destruct (py_get (hand p) ci) as [c|]; cbn [obind] in Hpl |- *; [|discriminate Hpl].
    injection Hpl as Hpl. rewrite Hpl. reflexivity.
Qed.

(** X20: On a human seat's turn with no card moving, a click at the position of a visible card j of its hand does exactly what [attempt_play_card] does for card j. *)
Theorem handle_play_click_on_card h g a p j :
  animating g = false -> active_index g = Some a ->
  nth_error (players g) a = Some p -> is_active p = true -> is_human p = true ->
  j < length (hand p) -> (0 < sh_height h)%Z ->
  (scroll_x h <= Z.of_nat j * (CARD_W + CARD_GAP) < scroll_x h + sh_width h)%Z ->
  handle_play_click h g (get_card_position h (Z.of_nat j)) = attempt_play_card g a (Z.of_nat j).
Proof.
  intros Ha Hai Hp Hact Hh Hj Hht Hvis.
  pose proof (card_position_hit h (Z.of_nat (length (hand p))) (Z.of_nat j) ltac:(lia)) as Hpos.
  destruct (is_card_playable_in_range g a p j Hp Hj) as (b & Eb).
  unfold get_card_position in Hpos |- *. unfold handle_play_click. lazy beta iota.
  rewrite Ha, Hai. lazy beta iota. rewrite Hp. cbn [obind]. rewrite Hact, Hh. cbn [negb].
  destruct (hand p) as [|c0 t] eqn:Eh; [simpl in Hj; lia|]. lazy beta iota. rewrite <- Eh.
  replace (rect_collidepoint (sh_x h) (sh_y h) (sh_width h) (sh_height h)
             (sh_x h + Z.of_nat j * (CARD_W + CARD_GAP) - scroll_x h)%Z (sh_y h)) with true
    by (symmetry; unfold rect_collidepoint; rewrite !andb_true_iff, !Z.leb_le, !Z.ltb_lt; lia).
  rewrite <- Eh in Hpos. rewrite Hpos. lazy beta iota. rewrite Eb. cbn [obind].
  destruct b; cbn [negb]; [reflexivity|].
  pose proof (attempt_warns g a p _ Ha Hai Hp Hact Eb) as W. rewrite Hai in W.
  symmetry. exact W.
Qed.

(** X21: When no seat is to move, or the seat to move is inactive, [handle_play_click] leaves the game unchanged, even for a click on the Pause or Restart button. *)
Theorem handle_play_click_ignored_without_active_turn h g pos :
  (active_index g = None \/
   exists a p, active_index g = Some a /\ nth_error (players g) a = Some p /\ is_active p = false) ->
  handle_play_click h g pos = Some g.
Proof.
  intros H. destruct pos as [px py]. unfold handle_play_click.
  destruct (animating g); [reflexivity|].
  destruct H as [E|(a & p & E & Ep & Ea)]; rewrite E; [reflexivity|].
  rewrite Ep. cbn [obind]. rewrite Ea. reflexivity.
Qed.

(** X22: A click on the play screen of a reachable, unpaused game leads to a reachable game, or to the setup screen through Restart. *)
Theorem handle_play_click_reachable h g pos g' :
  reachable g -> state g = Play -> paused g = false ->
  handle_play_click h g pos = Some g' -> reachable g' \/ state g' = Setup.
Proof.
  intros R Hs Hpz H. destruct pos as [px py]. unfold handle_play_click in H.
  assert (B : reachable (play_buttons g px py) \/ state (play_buttons g px py) = Setup).
  { unfold play_buttons. destruct (restart_button_hit px py); [right; reflexivity|].
    left. destruct (pause_button_hit px py); [apply reach_pause|]; exact R. }
  destruct (animating g) eqn:Ha; [injection H as <-; left; exact R|].
  destruct (active_index g) as [a|] eqn:Hai; [|injection H as <-; left; exact R].
  destruct (nth_error (players g) a) as [p|] eqn:Hp; cbn [obind] in H; [|discriminate H].
  destruct (is_active p) eqn:Hact; cbn [negb] in H; [|injection H as <-; left; exact R].
  destruct (is_human p); [|injection H as <-; exact B].
  destruct (hand p); [injection H as <-; left; exact R|].
  destruct (rect_collidepoint _ _ _ _ px py); [|injection H as <-; exact B].
  destruct (get_card_index_at_pos _ _ _) as [ci|]; [|injection H as <-; exact B].
  destruct (is_card_playable g a ci) as [b|] eqn:Eb; cbn [obind] in H; [|discriminate H].
  left. destruct b; cbn [negb] in H; [exact (reach_play g a ci g' R Hs Hpz H)|].
  pose proof (attempt_warns g a p ci Ha Hai Hp Hact Eb) as W. rewrite Hai in W.
  rewrite <- W in H. exact (reach_play g a ci g' R Hs Hpz H).
Qed.

(** X23: A frame of [update_play] keeps the game reachable, and leaves it unchanged when the seat to move is human. *)
Theorem update_play_reachable g g' :
  reachable g -> update_play g = Some g' ->
  reachable g' /\
  (forall a p, active_index g = Some a -> nth_error (players g) a = Some p ->
               is_human p = true -> g' = g).
Proof.
  intros R H. unfold update_play in H.
  destruct (negb (gstate_eqb (state g) Play) || paused g) eqn:E;
    [injection H as <-; split; [exact R|auto]|].
  apply orb_false_iff in E as [Es Hpz].
  assert (Hs : state g = Play) by (destruct (state g); try discriminate Es; reflexivity).
  destruct (active_index g) as [a|] eqn:Hai; [|injection H as <-; split; [exact R|auto]].
  destruct (animating g); [injection H as <-; split; [exact R|auto]|].
  destruct (nth_error (players g) a) as [p|] eqn:Hp; cbn [obind] in H; [|discriminate H].
  destruct (is_human p) eqn:Hh; cbn [negb] in H; [injection H as <-; split; [exact R|auto]|].
  split.
  - apply cpu_auto_play_cases in H as [->|(i & k & Hk)]; [exact R|].
    exact (reach_play g i k g' R Hs Hpz Hk).
  - intros a' p' Ea Ep' Hh'. injection Ea as <-.
    rewrite Hp in Ep'. injection Ep' as <-. congruence.
Qed.

Lemma handle_play_click_on_card_witness :
  animating game_b95_human3 = false /\ active_index game_b95_human3 = Some 3 /\
  nth_error (players game_b95_human3) 3 =
    Some (nth 3 (players game_b95_human3) (new_player ""%string true)) /\
  is_active (nth 3 (players game_b95_human3) (new_player ""%string true)) = true /\
  is_human (nth 3 (players game_b95_human3) (new_player ""%string true)) = true /\
  10 < length (hand (nth 3 (players game_b95_human3) (new_player ""%string true))) /\
  (0 < sh_height initial_hand_area)%Z /\
  (scroll_x initial_hand_area <= Z.of_nat 10 * (CARD_W + CARD_GAP) <
     scroll_x initial_hand_area + sh_width initial_hand_area)%Z /\
  handle_play_click initial_hand_area game_b95_human3
    (get_card_position initial_hand_area (Z.of_nat 10)) =
  attempt_play_card game_b95_human3 3 (Z.of_nat 10).
Proof.
  assert (H1 : animating game_b95_human3 = false) by (vm_compute; reflexivity).
  assert (H2 : active_index game_b95_human3 = Some 3) by (vm_compute; reflexivity).
  assert (H3 : nth_error (players game_b95_human3) 3 =
               Some (nth 3 (players game_b95_human3) (new_player ""%string true)))
    by (vm_compute; reflexivity).
  assert (H4 : is_active (nth 3 (players game_b95_human3) (new_player ""%string true)) = true)
    by (vm_compute; reflexivity).
  assert (H5 : is_human (nth 3 (players game_b95_human3) (new_player ""%string true)) = true)
    by (vm_compute; reflexivity).
  assert (H6 : 10 < length (hand (nth 3 (players game_b95_human3) (new_player ""%string true))))
    by (vm_compute; lia).
  assert (H7 : (0 < sh_height initial_hand_area)%Z) by (vm_compute; reflexivity).
  assert (H8 : (scroll_x initial_hand_area <= Z.of_nat 10 * (CARD_W + CARD_GAP) <
                scroll_x initial_hand_area + sh_width initial_hand_area)%Z)
    by (vm_compute; split; congruence).
  split; [exact H1|]. split; [exact H2|]. split; [exact H3|]. split; [exact H4|].
  split; [exact H5|]. split; [exact H6|]. split; [exact H7|]. split; [exact H8|].
  exact (handle_play_click_on_card initial_hand_area game_b95_human3 3 _ 10
           H1 H2 H3 H4 H5 H6 H7 H8).
Defined.

Lemma handle_play_click_ignored_without_active_turn_witness :
  reachable game_a77_committed /\ state game_a77_committed = Play /\
  paused game_a77_committed = false /\
  (active_index game_a77_committed = None \/
   exists a p, active_index game_a77_committed = Some a /\
     nth_error (players game_a77_committed) a = Some p /\ is_active p = false) /\
  pause_button_hit 900 20 = true /\
  handle_play_click initial_hand_area game_a77_committed (900, 20)%Z = Some game_a77_committed.
Proof.
  assert (R : reachable game_a77_committed).
  { apply (reach_commit (fun l => l) game_a77 game_a77_committed game_a77_reachable);
      [vm_compute; reflexivity|vm_compute; reflexivity|intros l; apply Permutation_refl|].
    vm_compute. reflexivity. }
  assert (H : active_index game_a77_committed = None \/
              exists a p, active_index game_a77_committed = Some a /\
                nth_error (players game_a77_committed) a = Some p /\ is_active p = false).
  { right. exists 4, (nth 4 (players game_a77_committed) (new_player ""%string true)).
    split; [|split]; vm_compute; reflexivity. }
  split; [exact R|]. split; [vm_compute; reflexivity|]. split; [vm_compute; reflexivity|].
  split; [exact H|]. split; [vm_compute; reflexivity|].
  exact (handle_play_click_ignored_without_active_turn initial_hand_area game_a77_committed
           (900, 20)%Z H).
Defined.

Lemma handle_play_click_reachable_witness :
  reachable game_b95 /\ state game_b95 = Play /\ paused game_b95 = false /\
  exists g', handle_play_click initial_hand_area game_b95 (900, 20)%Z = Some g' /\
    (reachable g' \/ state g' = Setup).
Proof.
  assert (Hs : state game_b95 = Play) by (vm_compute; reflexivity).
  assert (Hp : paused game_b95 = false) by (vm_compute; reflexivity).
  split; [exact game_b95_reachable|]. split; [exact Hs|]. split; [exact Hp|].
  destruct (handle_play_click initial_hand_area game_b95 (900, 20)%Z) as [g'|] eqn:E;
    [|vm_compute in E; discriminate E].
  exists g'. split; [reflexivity|].
  exact (handle_play_click_reachable initial_hand_area game_b95 (900, 20)%Z g'
           game_b95_reachable Hs Hp E).
Defined.

Lemma update_play_reachable_witness :
  reachable game_c37 /\
  exists g', update_play game_c37 = Some g' /\
    reachable g' /\
    (forall a p, active_index game_c37 = Some a -> nth_error (players game_c37) a = Some p ->
                 is_human p = true -> g' = game_c37).
Proof.
  split; [exact game_c37_reachable|].
  destruct (update_play game_c37) as [g'|] eqn:E; [|vm_compute in E; discriminate E].
  exists g'. split; [reflexivity|].
  exact (update_play_reachable game_c37 g' game_c37_reachable E).
Defined.
